(** * Mobi2Tech Studio: a shallow embedding of the service client, the file
  utilities and the view handlers, with the properties of the specification
  stated and settled against them.

  Sources embedded here:
  - [services/geminiService] (prompt assembly and the remote operations),
  - [utils/fileUtils] (base64 conversion, canvas dimensions),
  - [types] (aspect ratios, export qualities, image files),
  - [components/MultiImageDropzone], [components/ImageDropzone],
    [components/ProductStudio], [components/ImageEditor],
    [components/StyleCopier], [components/ImageGenerator] (state handlers).

  JavaScript strings are modelled as byte strings ([string] of 8-bit
  [ascii]); text outside ASCII is carried as its UTF-8 bytes. *)

From Stdlib Require Import ZArith QArith Qround List Ascii String NArith Lia Bool.
From Stdlib Require Strings.Byte.
From stdpp Require Import base option list strings gmap.

Import ListNotations.
Local Open Scope list_scope.
Local Open Scope string_scope.

(** ** JavaScript primitives used by the sources *)

Module Js.

(** A thrown value.  [JsError m] is any instance of [Error] (including
    [TypeError], [SyntaxError] and [DOMException]) with message [m];
    [NonError d] is a thrown value that is not an [Error], such as the
    [ProgressEvent] a [FileReader] rejects with. *)
Inductive Thrown : Type :=
| JsError (message : string)
| NonError (description : string).

(** The outcome of evaluating code that may throw. *)
Inductive Outcome (A : Type) : Type :=
| Ok (value : A)
| Throw (e : Thrown).
Arguments Ok {A} value.
Arguments Throw {A} e.

(** [e instanceof Error] *)
Definition instanceofError (e : Thrown) : bool :=
  match e with JsError _ => true | NonError _ => false end.

(** [e.message]; a thrown value that is not an [Error] has none. *)
Definition messageOf (e : Thrown) : string :=
  match e with JsError message => message | NonError _ => EmptyString end.

(** The double-quote character. *)
Definition dquote : string := String (ascii_of_nat 34) EmptyString.

(** [s.split(c)] for a one-character separator. *)
Fixpoint split (c : ascii) (s : string) : list string :=
  match s with
  | EmptyString => [EmptyString]
  | String a rest =>
      if Ascii.eqb a c then EmptyString :: split c rest
      else match split c rest with
           | first :: others => String a first :: others
           | [] => [String a EmptyString]
           end
  end.

(** [s.startsWith(p)] *)
Fixpoint startsWith (p s : string) : bool :=
  match p, s with
  | EmptyString, _ => true
  | String a p', String b s' => Ascii.eqb a b && startsWith p' s'
  | String _ _, EmptyString => false
  end.

(** [s.includes(p)] *)
Fixpoint includes (p s : string) : bool :=
  startsWith p s ||
  match s with
  | EmptyString => false
  | String _ s' => includes p s'
  end.

(** Decimal digits, as [Number(s)] reads them for the strings this program
    passes (unsigned decimal integers).  [None] stands for [NaN]. *)
Definition digit (a : ascii) : option Z :=
  let n := Z.of_N (N_of_ascii a) in
  if (48 <=? n)%Z && (n <=? 57)%Z then Some (n - 48)%Z else None.

Fixpoint digits (acc : Z) (s : string) : option Z :=
  match s with
  | EmptyString => Some acc
  | String a rest =>
      match digit a with
      | Some d => digits (10 * acc + d)%Z rest
      | None => None
      end
  end.

Definition Number (s : string) : option Z :=
  match s with
  | EmptyString => Some 0%Z
  | _ => digits 0%Z s
  end.

(** [Math.round]: the nearest integer, ties towards plus infinity. *)
Definition Math_round (q : Q) : Z := Qfloor (q + (1 # 2)).

(** White space removed by [String.prototype.trim] (the ASCII part:
    tab, line feed, vertical tab, form feed, carriage return, space). *)
Definition isTrimSpace (a : ascii) : bool :=
  let n := N_of_ascii a in
  ((9 <=? n)%N && (n <=? 13)%N) || (n =? 32)%N.

Fixpoint trimStart (s : string) : string :=
  match s with
  | EmptyString => EmptyString
  | String a rest => if isTrimSpace a then trimStart rest else s
  end.

(** Drops trailing white space: a character is kept when it is not white
    space or when something is kept after it. *)
Fixpoint trimEnd (s : string) : string :=
  match s with
  | EmptyString => EmptyString
  | String a rest =>
      match trimEnd rest with
      | EmptyString => if isTrimSpace a then EmptyString else String a EmptyString
      | kept => String a kept
      end
  end.

Definition trim (s : string) : string := trimEnd (trimStart s).

(** Truthiness of a string: only the empty string is falsy. *)
Definition truthy (s : string) : bool :=
  match s with EmptyString => false | _ => true end.

(** [s.replace(/\D/g, '')]: the decimal digits of [s]. *)
Fixpoint onlyDigits (s : string) : string :=
  match s with
  | EmptyString => EmptyString
  | String a rest =>
      match digit a with
      | Some _ => String a (onlyDigits rest)
      | None => onlyDigits rest
      end
  end.

(** The longest prefix of decimal digits of [s], read as a number;
    [count] is the number of digits read. *)
Fixpoint leadingDigits (acc : Z) (count : nat) (s : string) : Z * nat :=
  match s with
  | EmptyString => (acc, count)
  | String a rest =>
      match digit a with
      | Some d => leadingDigits (10 * acc + d)%Z (S count) rest
      | None => (acc, count)
      end
  end.

(** [parseInt(s, 10)]: leading white space is skipped, a sign is read, then
    the longest run of digits; what follows is ignored.  [None] stands for
    [NaN].  The value is exact, as the double is up to 2^53. *)
Definition parseInt10 (s : string) : option Z :=
  let s := trimStart s in
  let '(sign, rest) :=
    match s with
    | String a r =>
        if Ascii.eqb a "-" then ((-1)%Z, r)
        else if Ascii.eqb a "+" then (1%Z, r)
        else (1%Z, s)
    | EmptyString => (1%Z, s)
    end in
  match leadingDigits 0%Z 0%nat rest with
  | (_, O) => None
  | (n, S _) => Some (sign * n)%Z
  end.

End Js.

Export Js.

(** ** [types]: the enumerations shared by the modules *)

(** [AspectRatio] of the [types] module: the union of the five strings
    ["1:1" | "16:9" | "9:16" | "4:3" | "3:4"], which [ASPECT_RATIOS] in
    ProductStudio lists in this order. *)
Inductive AspectRatio : Type :=
| R1_1 | R16_9 | R9_16 | R4_3 | R3_4.

(** The string an [AspectRatio] is at run time. *)
Definition aspectRatioString (r : AspectRatio) : string :=
  match r with
  | R1_1 => "1:1"
  | R16_9 => "16:9"
  | R9_16 => "9:16"
  | R4_3 => "4:3"
  | R3_4 => "3:4"
  end.

Definition ASPECT_RATIOS : list AspectRatio := [R1_1; R16_9; R9_16; R4_3; R3_4].

(** [ExportQuality] of the [types] module: ['Standard' | 'High' |
    'Maximum'], the keys of [QUALITY_PRESETS] and the members of
    [QUALITIES] in ProductStudio. *)
Inductive ExportQuality : Type :=
| Standard | High | Maximum.

Definition QUALITIES : list ExportQuality := [Standard; High; Maximum].

(** ** [utils/fileUtils]: canvas dimensions *)

Module FileUtils.

Record QualityPreset : Type := {
  resolution : Z;
  jpegQuality : Q
}.

Definition QUALITY_PRESETS (q : ExportQuality) : QualityPreset :=
  match q with
  | Standard => {| resolution := 1024; jpegQuality := 85 # 100 |}
  | High => {| resolution := 1500; jpegQuality := 92 # 100 |}
  | Maximum => {| resolution := 1500; jpegQuality := 1 |}
  end.

Record Dimensions : Type := {
  width : Z;
  height : Z
}.

(** [getCanvasDimensions].  The quotient is computed exactly.  For the five
    ratios of [AspectRatio] the divisor is 1, 4 or 16 and the product is an
    integer below 2^53, so the double precision quotient the program
    computes is exact as well.  [None] is returned for a string that does
    not split into two numbers, which no [AspectRatio] is. *)
Definition getCanvasDimensionsOfString (resolution : Z) (aspectRatio : string)
  : option Dimensions :=
  match List.map Number (split ":" aspectRatio) with
  | Some w :: Some h :: _ =>
      if (w >=? h)%Z then
        Some {| width := resolution;
                height := Math_round (inject_Z (resolution * h) / inject_Z w) |}
      else
        Some {| width := Math_round (inject_Z (resolution * w) / inject_Z h);
                height := resolution |}
  | _ => None
  end.

Definition getCanvasDimensions (resolution : Z) (aspectRatio : AspectRatio)
  : option Dimensions :=
  getCanvasDimensionsOfString resolution (aspectRatioString aspectRatio).

End FileUtils.


(** ** Files and the platform's base64 codec

    [FileReader.readAsDataURL] and [atob] belong to the browser.  They are
    modelled here after RFC 4648 (the encoder) and the forgiving-base64
    decoder of the WHATWG Infra standard ([atob]). *)

Module File.

Record t : Type := {
  name : string;
  type : string;
  bytes : list Byte.byte
}.

End File.

Module Base64.

Definition alphabet : string :=
  "ABCDEFGHIJKLMNOPQRSTUVWXYZabcdefghijklmnopqrstuvwxyz0123456789+/".

Definition padChar : ascii := "="%char.

(** The character of a 6-bit value. *)
Definition sextetChar (n : N) : ascii :=
  match String.get (N.to_nat n) alphabet with
  | Some c => c
  | None => padChar
  end.

(** The 6-bit value of a character of the alphabet. *)
Definition charSextet (c : ascii) : option N :=
  let n := N_of_ascii c in
  if (65 <=? n)%N && (n <=? 90)%N then Some (n - 65)%N
  else if (97 <=? n)%N && (n <=? 122)%N then Some (n - 71)%N
  else if (48 <=? n)%N && (n <=? 57)%N then Some (n + 4)%N
  else if (n =? 43)%N then Some 62%N
  else if (n =? 47)%N then Some 63%N
  else None.

(** Three bytes give four characters; a final group of one or two bytes is
    padded with [=]. *)
Fixpoint encode (bs : list Byte.byte) : list ascii :=
  match bs with
  | [] => []
  | [a] =>
      let a := Byte.to_N a in
      [sextetChar (a / 4); sextetChar ((a mod 4) * 16); padChar; padChar]
  | [a; b] =>
      let a := Byte.to_N a in
      let b := Byte.to_N b in
      [sextetChar (a / 4); sextetChar ((a mod 4) * 16 + b / 16);
       sextetChar ((b mod 16) * 4); padChar]
  | a :: b :: c :: rest =>
      let a := Byte.to_N a in
      let b := Byte.to_N b in
      let c := Byte.to_N c in
      sextetChar (a / 4) :: sextetChar ((a mod 4) * 16 + b / 16)
        :: sextetChar ((b mod 16) * 4 + c / 64) :: sextetChar (c mod 64)
        :: encode rest
  end%N.

Definition btoa (bs : list Byte.byte) : string :=
  string_of_list_ascii (encode bs).

(** ASCII white space of the Infra standard: tab, line feed, form feed,
    carriage return and space. *)
Definition isAsciiWhitespace (c : ascii) : bool :=
  let n := N_of_ascii c in
  (n =? 9)%N || (n =? 10)%N || (n =? 12)%N || (n =? 13)%N || (n =? 32)%N.

(** One or two final [=] are removed. *)
Fixpoint removeTrailingPad (l : list ascii) : list ascii :=
  match l with
  | [] => []
  | [p] => if Ascii.eqb p padChar then [] else [p]
  | [p; q] =>
      if Ascii.eqb q padChar then (if Ascii.eqb p padChar then [] else [p])
      else [p; q]
  | x :: rest => x :: removeTrailingPad rest
  end.

Fixpoint sextets (l : list ascii) : option (list N) :=
  match l with
  | [] => Some []
  | c :: rest =>
      match charSextet c, sextets rest with
      | Some n, Some ns => Some (n :: ns)
      | _, _ => None
      end
  end.

(** Four 6-bit values give three bytes; a final group of three gives two
    bytes and one of two gives one byte, the spare bits being dropped. *)
Fixpoint decodeSextets (l : list N) : list N :=
  match l with
  | a :: b :: c :: d :: rest =>
      (a * 4 + b / 16) :: ((b mod 16) * 16 + c / 4) :: ((c mod 4) * 64 + d)
        :: decodeSextets rest
  | [a; b; c] => [a * 4 + b / 16; (b mod 16) * 16 + c / 4]
  | [a; b] => [a * 4 + b / 16]
  | _ => []
  end%N.

Definition atobErrorMessage : string :=
  "The string to be decoded is not correctly encoded.".

(** [atob]: the decoded bytes as a binary string, or an
    [InvalidCharacterError] (a [DOMException], which is an [Error]). *)
Definition atob (s : string) : Outcome string :=
  let data := List.filter (fun c => negb (isAsciiWhitespace c)) (list_ascii_of_string s) in
  let data :=
    if (length data mod 4 =? 0)%nat then removeTrailingPad data else data in
  if (length data mod 4 =? 1)%nat then Throw (JsError atobErrorMessage)
  else
    match sextets data with
    | None => Throw (JsError atobErrorMessage)
    | Some ns => Ok (string_of_list_ascii (List.map ascii_of_N (decodeSextets ns)))
    end.

(** The data URL [readAsDataURL] produces for a media type and contents. *)
Definition dataURL (mediaType : string) (bs : list Byte.byte) : string :=
  "data:" ++ mediaType ++ ";base64," ++ btoa bs.

End Base64.

(** [s.charCodeAt(i)]; an index out of range gives [NaN], which a typed
    array stores as 0. *)
Definition charCodeAt (s : string) (i : nat) : N :=
  match String.get i s with
  | Some c => N_of_ascii c
  | None => 0%N
  end.

(** The conversion a [Uint8Array] applies to each number it is built from. *)
Definition toUint8 (n : N) : Byte.byte :=
  match Byte.of_N (n mod 256) with
  | Some b => b
  | None => Byte.x00
  end.

(** ** The environment of the asynchronous operations

    An operation runs against a [World]: the outcome of reading each file
    and of each remote call.  It produces the list of effects it started, in
    order, and either a value or the thrown value its promise rejects with. *)

Module Remote.

(** A part of a request: [{ inlineData: { data, mimeType } }] or [{ text }].
    [data] is [None] when the data URL had no comma and
    [result.split(',')[1]] was [undefined]. *)
Inductive RequestPart : Type :=
| InlineDataPart (data : option string) (mimeType : string)
| TextPart (text : string).

(** The [config] of a [generateContent] call: image output, or JSON output
    against a schema of required string properties (the property
    descriptions of the schema are left out). *)
Inductive Config : Type :=
| ImageModality
| JsonSchema (required : list string).

Record GenerateContentParameters : Type := {
  model : string;
  contents : list RequestPart;
  config : Config
}.

(** The response envelope.  Every level is optional in the client library's
    types; a part is an inline-image part when [inlineData] is present. *)
Record Blob : Type := { data : string; mimeType : string }.
Record Part : Type := { inlineData : option Blob; partText : option string }.
Record Content : Type := { parts : option (list Part) }.
Record Candidate : Type := { content : option Content }.
Record GenerateContentResponse : Type := {
  candidates : option (list Candidate);
  text : option string
}.

Record GenerateImagesParameters : Type := {
  imagesModel : string;
  prompt : string;
  numberOfImages : nat;
  outputMimeType : string;
  imagesAspectRatio : AspectRatio;
  negativePrompt : option string;
  seed : option Z
}.

(** [generatedImages] of the text-to-image response, each with its
    [image.imageBytes]. *)
Record GenerateImagesResponse : Type := {
  generatedImages : option (list string)
}.

Inductive Event : Type :=
| ReadFile (file : File.t)
| GenerateContent (request : GenerateContentParameters)
| GenerateImages (request : GenerateImagesParameters).

Record World : Type := {
  (** the data URL [FileReader] loads, or [None] when [onerror] fires *)
  readAsDataURL : File.t -> option string;
  generateContentApi : GenerateContentParameters -> Outcome GenerateContentResponse;
  generateImagesApi : GenerateImagesParameters -> Outcome GenerateImagesResponse
}.

Definition M (A : Type) : Type := World -> list Event * Outcome A.

Definition ret {A} (a : A) : M A := fun _ => ([], Ok a).

Definition throw {A} (e : Thrown) : M A := fun _ => ([], Throw e).

Definition bind {A B} (m : M A) (k : A -> M B) : M B :=
  fun w =>
    match m w with
    | (t1, Ok a) => let '(t2, r) := k a w in ((t1 ++ t2)%list, r)
    | (t1, Throw e) => (t1, Throw e)
    end.

(** [try { body } catch (e) { handler e }] *)
Definition tryCatch {A} (body : M A) (handler : Thrown -> M A) : M A :=
  fun w =>
    match body w with
    | (t1, Ok a) => (t1, Ok a)
    | (t1, Throw e) => let '(t2, r) := handler e w in ((t1 ++ t2)%list, r)
    end.

(** [Promise.all(l.map(f))]: every call is started, then the results are
    awaited; the promise rejects with the failure of the earliest element
    that failed. *)
Fixpoint promiseAllMap {A B} (f : A -> M B) (l : list A) : M (list B) :=
  match l with
  | [] => ret []
  | a :: rest =>
      fun w =>
        let '(t1, r1) := f a w in
        let '(t2, r2) := promiseAllMap f rest w in
        ((t1 ++ t2)%list,
         match r1, r2 with
         | Ok b, Ok bs => Ok (b :: bs)
         | Throw e, _ => Throw e
         | Ok _, Throw e => Throw e
         end)
  end.

Definition readFile (file : File.t) : M string :=
  fun w =>
    ([ReadFile file],
     match readAsDataURL w file with
     | Some url => Ok url
     | None => Throw (NonError "ProgressEvent")
     end).

Definition generateContent (request : GenerateContentParameters)
  : M GenerateContentResponse :=
  fun w => ([GenerateContent request], generateContentApi w request).

Definition generateImages (request : GenerateImagesParameters)
  : M GenerateImagesResponse :=
  fun w => ([GenerateImages request], generateImagesApi w request).

End Remote.

Export Remote.

Declare Scope js_scope.
Delimit Scope js_scope with js.
Notation "x <- m ;; k" := (bind m (fun x => k))
  (at level 100, m at next level, right associativity) : js_scope.
Local Open Scope js_scope.

(** ** [utils/fileUtils]: file conversion *)

Module FileConversion.

(** [fileToBase64]: the text after the first comma of the data URL
    ([undefined], here [None], when there is no comma). *)
Definition fileToBase64 (file : File.t) : M (option string) :=
  (result <- readFile file ;;
   ret (nth_error (split "," result) 1))%js.

Definition getMimeType (file : File.t) : string := File.type file.

(** [base64ToFile] *)
Definition base64ToFile (base64 filename mimeType : string) : Outcome File.t :=
  match Base64.atob base64 with
  | Throw e => Throw e
  | Ok byteCharacters =>
      let byteNumbers :=
        List.map (charCodeAt byteCharacters) (seq 0 (String.length byteCharacters)) in
      let byteArray := List.map toUint8 byteNumbers in
      Ok {| File.name := filename; File.type := mimeType; File.bytes := byteArray |}
  end.

End FileConversion.

Export FileConversion.

(** ** [JSON.parse] and [JSON.stringify]

    The JSON grammar of ECMA-404, read from a list of characters.  Numbers
    keep their literal text.  A [\uXXXX] escape is stored as the UTF-8 bytes
    of its code unit. *)

Module JSON.

#[local] Unset Elimination Schemes.
Inductive value : Type :=
| JNull
| JBool (b : bool)
| JNumber (literal : string)
| JString (s : string)
| JArray (items : list value)
| JObject (members : list (string * value)).
#[local] Set Elimination Schemes.

Definition chr (n : nat) : ascii := ascii_of_nat n.

Definition isWs (c : ascii) : bool :=
  let n := N_of_ascii c in
  (n =? 32)%N || (n =? 9)%N || (n =? 10)%N || (n =? 13)%N.

Fixpoint skipWs (l : list ascii) : list ascii :=
  match l with
  | c :: rest => if isWs c then skipWs rest else l
  | [] => []
  end.

(** [l] without the prefix [p], when it starts with it. *)
Fixpoint stripPrefix (p l : list ascii) : option (list ascii) :=
  match p, l with
  | [], _ => Some l
  | a :: p', b :: l' => if Ascii.eqb a b then stripPrefix p' l' else None
  | _ :: _, [] => None
  end.

Definition isDigit (c : ascii) : bool :=
  let n := N_of_ascii c in (48 <=? n)%N && (n <=? 57)%N.

Fixpoint takeDigits (l : list ascii) : list ascii * list ascii :=
  match l with
  | c :: rest =>
      if isDigit c then let '(ds, r) := takeDigits rest in (c :: ds, r)
      else ([], l)
  | [] => ([], [])
  end.

Definition hexValue (c : ascii) : option N :=
  let n := N_of_ascii c in
  if (48 <=? n)%N && (n <=? 57)%N then Some (n - 48)%N
  else if (65 <=? n)%N && (n <=? 70)%N then Some (n - 55)%N
  else if (97 <=? n)%N && (n <=? 102)%N then Some (n - 87)%N
  else None.

Definition utf8 (n : N) : list ascii :=
  if (n <? 128)%N then [ascii_of_N n]
  else if (n <? 2048)%N then [ascii_of_N (192 + n / 64); ascii_of_N (128 + n mod 64)]
  else [ascii_of_N (224 + n / 4096); ascii_of_N (128 + (n / 64) mod 64);
        ascii_of_N (128 + n mod 64)].

(** The characters of a string literal after its opening quote, up to and
    without the closing quote. *)
Fixpoint parseChars (l : list ascii) : option (list ascii * list ascii) :=
  match l with
  | [] => None
  | c :: rest =>
      if Ascii.eqb c (chr 34) then Some ([], rest)
      else if Ascii.eqb c (chr 92) then
        match rest with
        | e :: rest' =>
            let simple (x : ascii) :=
              match parseChars rest' with
              | Some (cs, r) => Some (x :: cs, r)
              | None => None
              end in
            if Ascii.eqb e (chr 34) then simple (chr 34)
            else if Ascii.eqb e (chr 92) then simple (chr 92)
            else if Ascii.eqb e "/" then simple "/"%char
            else if Ascii.eqb e "b" then simple (chr 8)
            else if Ascii.eqb e "f" then simple (chr 12)
            else if Ascii.eqb e "n" then simple (chr 10)
            else if Ascii.eqb e "r" then simple (chr 13)
            else if Ascii.eqb e "t" then simple (chr 9)
            else if Ascii.eqb e "u" then
              match rest' with
              | h1 :: h2 :: h3 :: h4 :: rest'' =>
                  match hexValue h1, hexValue h2, hexValue h3, hexValue h4,
                        parseChars rest'' with
                  | Some a, Some b, Some c', Some d, Some (cs, r) =>
                      Some ((utf8 (((a * 16 + b) * 16 + c') * 16 + d)%N ++ cs)%list, r)
                  | _, _, _, _, _ => None
                  end
              | _ => None
              end
            else None
        | [] => None
        end
      else if (N_of_ascii c <? 32)%N then None
      else
        match parseChars rest with
        | Some (cs, r) => Some (c :: cs, r)
        | None => None
        end
  end.

Definition parseNumber (l : list ascii) : option (list ascii * list ascii) :=
  let '(sign, l) :=
    match l with
    | c :: rest => if Ascii.eqb c "-" then ([c], rest) else ([], l)
    | [] => ([], l)
    end in
  let intPart :=
    match l with
    | c :: rest =>
        if Ascii.eqb c "0" then Some ([c], rest)
        else if isDigit c then Some (takeDigits l)
        else None
    | [] => None
    end in
  match intPart with
  | None => None
  | Some (ds, l) =>
      let frac :=
        match l with
        | c :: rest =>
            if Ascii.eqb c "." then
              match takeDigits rest with
              | ([], _) => None
              | (fs, r) => Some (c :: fs, r)
              end
            else Some ([], l)
        | [] => Some ([], l)
        end in
      match frac with
      | None => None
      | Some (fs, l) =>
          let expo :=
            match l with
            | c :: rest =>
                if Ascii.eqb c "e" || Ascii.eqb c "E" then
                  let '(sg, rest) :=
                    match rest with
                    | s :: rest' =>
                        if Ascii.eqb s "+" || Ascii.eqb s "-" then ([s], rest')
                        else ([], rest)
                    | [] => ([], rest)
                    end in
                  match takeDigits rest with
                  | ([], _) => None
                  | (es, r) => Some ((c :: sg ++ es)%list, r)
                  end
                else Some ([], l)
            | [] => Some ([], l)
            end in
          match expo with
          | None => None
          | Some (es, l) => Some ((sign ++ ds ++ fs ++ es)%list, l)
          end
      end
  end.

Fixpoint parseValue (fuel : nat) (l : list ascii) : option (value * list ascii) :=
  match fuel with
  | O => None
  | S n =>
      match skipWs l with
      | [] => None
      | c :: rest =>
          if Ascii.eqb c (chr 34) then
            match parseChars rest with
            | Some (cs, r) => Some (JString (string_of_list_ascii cs), r)
            | None => None
            end
          else if Ascii.eqb c "[" then
            match skipWs rest with
            | d :: rest' =>
                if Ascii.eqb d "]" then Some (JArray [], rest')
                else match parseElements n rest with
                     | Some (vs, r) => Some (JArray vs, r)
                     | None => None
                     end
            | [] => None
            end
          else if Ascii.eqb c "{" then
            match skipWs rest with
            | d :: rest' =>
                if Ascii.eqb d "}" then Some (JObject [], rest')
                else match parseMembers n rest with
                     | Some (ms, r) => Some (JObject ms, r)
                     | None => None
                     end
            | [] => None
            end
          else
            match stripPrefix (list_ascii_of_string "null") (c :: rest),
                  stripPrefix (list_ascii_of_string "true") (c :: rest),
                  stripPrefix (list_ascii_of_string "false") (c :: rest) with
            | Some r, _, _ => Some (JNull, r)
            | _, Some r, _ => Some (JBool true, r)
            | _, _, Some r => Some (JBool false, r)
            | None, None, None =>
                match parseNumber (c :: rest) with
                | Some (ds, r) => Some (JNumber (string_of_list_ascii ds), r)
                | None => None
                end
            end
      end
  end
with parseElements (fuel : nat) (l : list ascii) : option (list value * list ascii) :=
  match fuel with
  | O => None
  | S n =>
      match parseValue n l with
      | None => None
      | Some (v, r) =>
          match skipWs r with
          | c :: rest =>
              if Ascii.eqb c "," then
                match parseElements n rest with
                | Some (vs, r') => Some (v :: vs, r')
                | None => None
                end
              else if Ascii.eqb c "]" then Some ([v], rest)
              else None
          | [] => None
          end
      end
  end
with parseMembers (fuel : nat) (l : list ascii)
  : option (list (string * value) * list ascii) :=
  match fuel with
  | O => None
  | S n =>
      match skipWs l with
      | q :: rest =>
          if Ascii.eqb q (chr 34) then
            match parseChars rest with
            | None => None
            | Some (ks, r) =>
                match skipWs r with
                | colon :: r1 =>
                    if Ascii.eqb colon ":" then
                      match parseValue n r1 with
                      | None => None
                      | Some (v, r2) =>
                          let member := (string_of_list_ascii ks, v) in
                          match skipWs r2 with
                          | c :: r3 =>
                              if Ascii.eqb c "," then
                                match parseMembers n r3 with
                                | Some (ms, r') => Some (member :: ms, r')
                                | None => None
                                end
                              else if Ascii.eqb c "}" then Some ([member], r3)
                              else None
                          | [] => None
                          end
                      end
                    else None
                | [] => None
                end
            end
          else None
      | [] => None
      end
  end.

(** [JSON.parse]; [None] stands for the [SyntaxError] it throws.  Each call
    in a chain of nested calls is preceded by the consumption of a character
    at most two calls before it, so twice the length of the text is fuel
    enough. *)
Definition parse (s : string) : option value :=
  let l := list_ascii_of_string s in
  match parseValue (2 * length l + 2) l with
  | Some (v, r) => match skipWs r with [] => Some v | _ :: _ => None end
  | None => None
  end.

(** [v[key]] for a parsed value: the last member of that name, [None]
    ([undefined]) when [v] is not an object or has no such member. *)
Fixpoint lookupMember (key : string) (ms : list (string * value)) : option value :=
  match ms with
  | [] => None
  | (k, v) :: rest =>
      match lookupMember key rest with
      | Some v' => Some v'
      | None => if String.eqb k key then Some v else None
      end
  end.

Definition field (key : string) (v : value) : option value :=
  match v with
  | JObject ms => lookupMember key ms
  | _ => None
  end.

(** [JSON.stringify] of a string: quotes, with the escapes of the
    standard's [QuoteJSONString]. *)
Definition hexDigit (n : N) : ascii :=
  if (n <? 10)%N then ascii_of_N (48 + n) else ascii_of_N (87 + n).

Definition quoteChar (c : ascii) : list ascii :=
  let n := N_of_ascii c in
  if (n =? 34)%N then [chr 92; chr 34]
  else if (n =? 92)%N then [chr 92; chr 92]
  else if (n =? 8)%N then [chr 92; "b"%char]
  else if (n =? 12)%N then [chr 92; "f"%char]
  else if (n =? 10)%N then [chr 92; "n"%char]
  else if (n =? 13)%N then [chr 92; "r"%char]
  else if (n =? 9)%N then [chr 92; "t"%char]
  else if (n <? 32)%N then
    [chr 92; "u"%char; "0"%char; "0"%char; hexDigit (n / 16); hexDigit (n mod 16)]
  else [c].

Definition quote (s : string) : list ascii :=
  (chr 34 :: List.concat (List.map quoteChar (list_ascii_of_string s)) ++ [chr 34])%list.

Fixpoint joinComma (l : list (list ascii)) : list ascii :=
  match l with
  | [] => []
  | [x] => x
  | x :: rest => (x ++ ","%char :: joinComma rest)%list
  end.

(** [JSON.stringify] of an array of strings. *)
Definition stringifyStrings (l : list string) : string :=
  string_of_list_ascii ("["%char :: joinComma (List.map quote l) ++ ["]"%char])%list.

End JSON.

(** ** [services/geminiService] *)

Module GeminiService.

Definition fileToGenerativePart (file : File.t) : M RequestPart :=
  (base64Data <- fileToBase64 file ;;
   ret (InlineDataPart base64Data (getMimeType file)))%js.

Definition getCanvasDescription (aspectRatio : AspectRatio) : string :=
  match aspectRatio with
  | R16_9 => "a 1500 pixel wide landscape canvas with a 16:9 aspect ratio"
  | R9_16 => "a 1500 pixel tall portrait canvas with a 9:16 aspect ratio"
  | R4_3 => "a 1500 pixel wide landscape canvas with a 4:3 aspect ratio"
  | R3_4 => "a 1500 pixel tall portrait canvas with a 3:4 aspect ratio"
  | R1_1 => "a 1500x1500 pixel square canvas"
  end.

(** Truthiness of an optional string: [undefined] and the empty string are
    falsy. *)
Definition truthyOpt (s : option string) : bool :=
  match s with
  | Some s => truthy s
  | None => false
  end.

(** The message of the [TypeError] raised by indexing [undefined]. *)
Definition typeErrorMessage : string :=
  "Cannot read properties of undefined (reading '0')".

(** [response.candidates?.[0]?.content?.parts[0]]: [undefined] ([Ok None])
    when a link of the optional chain is missing or the array is empty; a
    [TypeError] when [content] is there and [parts] is not. *)
Definition firstPart (response : GenerateContentResponse) : Outcome (option Part) :=
  match candidates response with
  | None => Ok None
  | Some cs =>
      match nth_error cs 0 with
      | None => Ok None
      | Some candidate =>
          match content candidate with
          | None => Ok None
          | Some c =>
              match parts c with
              | None => Throw (JsError typeErrorMessage)
              | Some ps => Ok (nth_error ps 0)
              end
          end
      end
  end.

(** The four lines every [generateContent] image operation ends with:
    [if (firstPart && 'inlineData' in firstPart && firstPart.inlineData)
       return firstPart.inlineData.data;
     throw new Error(noImageMessage);] *)
Definition returnInlineData (response : GenerateContentResponse)
  (noImageMessage : string) : M string :=
  match firstPart response with
  | Throw e => throw e
  | Ok (Some p) =>
      match inlineData p with
      | Some blob => ret (data blob)
      | None => throw (JsError noImageMessage)
      end
  | Ok None => throw (JsError noImageMessage)
  end.

(** [catch (e) { if (e instanceof Error) throw new Error(prefix + e.message);
    throw new Error(unknownMessage); }] *)
Definition rethrow {A} (prefix unknownMessage : string) (e : Thrown) : M A :=
  if instanceofError e then throw (JsError (prefix ++ messageOf e))
  else throw (JsError unknownMessage).

Definition imageModel : string := "gemini-2.5-flash-image".

Definition noImageData : string := "No image data received from API.".

(** *** [compositeProductImage] *)

Definition compositePrompt (backgroundPrompt : string) (isTransparent : bool)
  (canvasDescription : string) : string :=
  if isTransparent then
    ("You are an expert photo editor. Take the provided product image and perfectly isolate the main product from its original background. The final output must be just the product on a transparent background. Ensure the edges are exceptionally clean with no halos or artifacts. The output canvas must be " ++ canvasDescription ++ ", with the product perfectly centered while leaving approximately 10% padding on all sides.")
  else
    ("You are a world-class product photographer and retoucher. Your task is to perform a professional product photo composite.
        1.  **Isolate Product:** Perfectly isolate the main product from the provided image. The mask must be flawless with clean edges and no halos.
        2.  **Create Background:** Generate a new, photorealistic background based on this description: " ++ dquote ++ backgroundPrompt ++ dquote ++ ". The background should be high-quality, whether it's a studio or lifestyle setting.
        3.  **Composite:** Place the isolated product onto the new background.
        4.  **Integrate:** This is critical. Analyze the lighting in the new background and realistically adjust the product's lighting, shadows, and highlights to match the scene perfectly. The product's color grading must be harmonized with the background.
        5.  **Add Shadow:** Create a natural, soft contact shadow underneath the product to ground it in the scene. The shadow must be consistent with the direction and softness of the main light source.
        6.  **Final Output:** The final image must be " ++ canvasDescription ++ ". Center the product within this canvas, leaving approximately 10% padding on all sides. Preserve all original texture and fine details of the product. The final result should look like a real, professionally shot photograph.").

Definition compositeProductImage (productImage : File.t) (backgroundPrompt : string)
  (isTransparent : bool) (aspectRatio : AspectRatio) : M string :=
  (imagePart <- fileToGenerativePart productImage ;;
   let canvasDescription := getCanvasDescription aspectRatio in
   let prompt := compositePrompt backgroundPrompt isTransparent canvasDescription in
   let textPart := TextPart prompt in
   response <- generateContent {| model := imageModel;
                                  contents := [imagePart; textPart];
                                  config := ImageModality |} ;;
   returnInlineData response noImageData)%js.

(** *** [editImageWithPrompt] *)

Definition editImageWithPrompt (sourceImage : File.t) (prompt : string) : M string :=
  (imagePart <- fileToGenerativePart sourceImage ;;
   let textPart := TextPart prompt in
   response <- generateContent {| model := imageModel;
                                  contents := [imagePart; textPart];
                                  config := ImageModality |} ;;
   returnInlineData response noImageData)%js.

(** *** [generateImage] *)

Definition generateImage (prompt : string) (aspectRatio : AspectRatio)
  (negativePrompt : option string) (seed : option Z) : M string :=
  (let config :=
     {| imagesModel := "imagen-4.0-generate-001";
        Remote.prompt := prompt;
        numberOfImages := 1;
        outputMimeType := "image/png";
        imagesAspectRatio := aspectRatio;
        Remote.negativePrompt := if truthyOpt negativePrompt then negativePrompt else None;
        Remote.seed := seed |} in
   response <- generateImages config ;;
   match generatedImages response with
   | Some (imageBytes :: _) => ret imageBytes
   | _ => throw (JsError noImageData)
   end)%js.

(** *** [copyProductStyle] *)

Module CopyStyleOptions.
Record t : Type := {
  copyProductStyle : bool;
  copyBackgroundStyle : bool;
  isTransparent : bool;
  prompt : option string
}.
End CopyStyleOptions.

Definition invalidSelection : string :=
  "At least one copy option or transparent background must be selected.".

Definition copyStyleNoImage : string :=
  "The AI service did not return an image. This might be due to a content safety policy. Please try a different image or prompt.".

Definition copyStylePrompt (copyProductStyle isTransparent : bool)
  (additionalPrompt : option string) : string :=
  let prompt := ("You are a world-class product photographer and retoucher specializing in professional photographic style transfer.
        You will be given one or more 'source style' images and one 'target product' image.
        Your task is to re-render the 'target product' image, meticulously applying stylistic elements from the 'source style' images while adhering to strict preservation rules.

        **Primary Directive: The target product's physical form, shape, dimensions, texture, patterns, and structural details MUST be preserved exactly.** You are only to copy stylistic cues like color, lighting, shadows, reflections, and surface material properties from the source. The target product must remain recognizable and true to its original form.

        The source images are provided first, followed by the target product image.
        ") in
  let prompt :=
    match additionalPrompt with
    | Some additionalPrompt =>
        if truthy additionalPrompt then
          prompt ++ ("
            **Additional User Instructions:**
            -   Incorporate the following specific instruction: " ++ dquote ++ additionalPrompt ++ dquote ++ ". This instruction should modify or override the style transfer where applicable, especially concerning the background or overall mood.
            ")
        else prompt
    | None => prompt
    end in
  if isTransparent then
    if copyProductStyle then
      prompt ++ ("
                **Goal: Isolate and re-style the target product on a transparent background.**
                1.  Analyze the lighting, texture rendering, and overall aesthetic from the source images.
                2.  Apply this style to the target product, following the Primary Directive above.
                3.  Isolate the re-styled product perfectly from any background.
                4.  The final output must be ONLY the product on a transparent background. Ensure edges are flawless with no halos.
                5.  The output canvas must be a 1500x1500 pixel square. Center the product within this canvas, leaving approximately 10% padding on all sides.
                ")
    else
      prompt ++ ("
                **Goal: Isolate the target product on a transparent background WITHOUT re-styling.**
                1.  The source images provided should be ignored for styling purposes.
                2.  Perfectly isolate the main product from the 'target product' image. The mask must be flawless with clean edges and no halos.
                3.  CRITICAL: Preserve the product's original lighting, color grading, texture, and overall appearance. DO NOT alter the product's look in any way.
                4.  The final output must be ONLY the product on a transparent background.
                5.  The output canvas must be a 1500x1500 pixel square. Center the product within this canvas, leaving approximately 10% padding on all sides.
                ")
  else
    let prompt :=
      if copyProductStyle then
        prompt ++ ("
                **Goal: Style Transfer for Product ONLY (Original Background MUST be Preserved)**
                1.  **Analyze Style:** Analyze the 'source style' images for their comprehensive photographic style (lighting, color, shadows, reflections, mood).
                2.  **Apply to Product:** Apply this style ONLY to the main product within the 'target product' image.
                3.  **Preserve Background (CRITICAL):** The background of the 'target product' image MUST BE PRESERVED EXACTLY AS IS. DO NOT change, alter, or replace the background in any way. The re-styled product must be seamlessly blended back into its original, untouched background.
                4.  **Preserve Product Form:** You must adhere to the main Primary Directive: Maintain the original product’s physical shape, texture, and all structural details during the style transfer.
                ")
      else prompt in
    prompt ++ ("
            **Final Output Requirements:**
            -   The final image must be a photorealistic, professional-grade photograph.
            -   The canvas must be a 1500x1500 pixel square.
            -   The main product must be perfectly centered, leaving approximately 10% padding on all sides.
            ").

Definition copyProductStyle (sourceImages : list File.t) (targetImage : File.t)
  (options : CopyStyleOptions.t) : M string :=
  let copyProductStyle := CopyStyleOptions.copyProductStyle options in
  let copyBackgroundStyle := CopyStyleOptions.copyBackgroundStyle options in
  let isTransparent := CopyStyleOptions.isTransparent options in
  let additionalPrompt := CopyStyleOptions.prompt options in
  if negb copyProductStyle && negb copyBackgroundStyle && negb isTransparent then
    throw (JsError invalidSelection)
  else
    tryCatch
      (sourceImageParts <- promiseAllMap fileToGenerativePart sourceImages ;;
       targetImagePart <- fileToGenerativePart targetImage ;;
       let prompt := copyStylePrompt copyProductStyle isTransparent additionalPrompt in
       let textPart := TextPart prompt in
       let allParts := (sourceImageParts ++ [targetImagePart; textPart])%list in
       response <- generateContent {| model := imageModel;
                                      contents := allParts;
                                      config := ImageModality |} ;;
       returnInlineData response copyStyleNoImage)%js
      (rethrow "Image processing failed: "
               "An unknown network or API error occurred.").

(** *** [generateStyledBackground] *)

Definition styledBackgroundNoImage : string :=
  "The AI service did not return a background image. This might be due to a content safety policy. Please try a different image or prompt.".

Definition styledBackgroundPrompt (additionalPrompt : option string) : string :=
  let prompt := ("You are an expert background designer for product photography.
        You will be given one or more 'source style' images.
        Your task is to generate a new, photorealistic background that perfectly matches the style of the source images.

        **Analysis:**
        -   Analyze the background in the source images, noting its texture, color palette, lighting, depth of field, and overall ambiance (e.g., studio, lifestyle, rustic, modern).
        -   If there are multiple source images, derive an average or a harmonious blend of these stylistic elements.

        **Final Output Requirements:**
        -   The final image must be a photorealistic, high-quality background.
        -   The canvas must be a 1500x1500 pixel square.
        -   The background should be suitable for placing a product on it later. Ensure there is a clear surface or area where a product could realistically sit.
        ") in
  match additionalPrompt with
  | Some additionalPrompt =>
      if truthy additionalPrompt then
        prompt ++ ("
            **Additional User Instructions:**
            -   Incorporate the following specific instruction: " ++ dquote ++ additionalPrompt ++ dquote ++ ". This instruction should modify or override the style transfer where applicable.
            ")
      else prompt
  | None => prompt
  end.

Definition generateStyledBackground (sourceImages : list File.t)
  (additionalPrompt : option string) : M string :=
  tryCatch
    (sourceImageParts <- promiseAllMap fileToGenerativePart sourceImages ;;
     let prompt := styledBackgroundPrompt additionalPrompt in
     let textPart := TextPart prompt in
     let allParts := (sourceImageParts ++ [textPart])%list in
     response <- generateContent {| model := imageModel;
                                    contents := allParts;
                                    config := ImageModality |} ;;
     returnInlineData response styledBackgroundNoImage)%js
    (rethrow "Background generation failed: "
             "An unknown network or API error occurred while generating the background.").

(** *** [compositeProductWithBackground] *)

Definition compositeNoImage : string :=
  "The AI service did not return the final composite image. This could be due to a content safety policy.".

(** [sourceStyleImages && sourceStyleImages.length > 0] *)
Definition hasStyleImages (sourceStyleImages : option (list File.t)) : bool :=
  match sourceStyleImages with
  | Some (_ :: _) => true
  | _ => false
  end.

Definition compositeWithBackgroundPrompt (copyProductStyle : bool)
  (sourceStyleImages : option (list File.t)) : string :=
  let prompt := ("You are a world-class product photographer and retoucher. Your task is to perform a professional product photo composite using a provided product image and a provided background image.
        The images are provided in this order: " ++ (if hasStyleImages sourceStyleImages then "source style images, " else EmptyString) ++ "target product, then background.
        ") in
  let prompt :=
    if copyProductStyle && hasStyleImages sourceStyleImages then
      prompt ++ ("
            **Primary Directive: The target product's physical form, shape, dimensions, texture, patterns, and structural details MUST be preserved exactly.** You are only to copy stylistic cues from the 'source style' images. The target product must remain recognizable and true to its original form.

            **Step 1: Re-style Product**
            -   First, analyze the 'source style' images to understand the camera angle, lighting, shadow style, and color grading.
            -   Apply this comprehensive photographic style to the 'target product', re-lighting it to match the source style. This must be done while strictly following the Primary Directive.
            
            **Step 2: Composite and Integrate**
            -   Take the re-styled product from Step 1 and place it onto the provided 'background' image.
            -   Analyze the lighting in the 'background' image and ensure the re-styled product's lighting, shadows, and highlights are perfectly harmonized with the scene.
            -   Create a natural, soft contact shadow underneath the product to ground it in the scene.
            ")
    else
      prompt ++ ("
            **Step 1: Isolate Product**
            -   Perfectly isolate the main product from the 'target product' image. The mask must be flawless with clean edges and no halos.
            -   CRITICAL: Preserve the product's original lighting, color grading, texture, and overall appearance. DO NOT alter the product's look in any way.
            
            **Step 2: Composite and Add Shadow**
            -   Place the original, unchanged product from Step 1 onto the provided 'background' image.
            -   Create a natural, soft contact shadow underneath the product to ground it in the scene. The shadow must be consistent with the direction and softness of the main light source in the background, but the lighting ON THE PRODUCT ITSELF must not be changed.
            ") in
  prompt ++ ("
        **Final Output Requirements:**
        -   The final output should be the composite on the provided background canvas (1500x1500 pixels).
        -   Center the product within the canvas, leaving approximately 10% padding on all sides.
        -   Preserve all original texture and fine details of the product.
        -   The final result should look like a real, professionally shot photograph.
        ").

Definition compositeProductWithBackground (targetImage backgroundImage : File.t)
  (copyProductStyle : bool) (sourceStyleImages : option (list File.t)) : M string :=
  tryCatch
    (targetImagePart <- fileToGenerativePart targetImage ;;
     backgroundImagePart <- fileToGenerativePart backgroundImage ;;
     sourceStyleParts <-
       match sourceStyleImages with
       | Some images => promiseAllMap fileToGenerativePart images
       | None => ret []
       end ;;
     let prompt := compositeWithBackgroundPrompt copyProductStyle sourceStyleImages in
     let textPart := TextPart prompt in
     let allParts :=
       (sourceStyleParts ++ [targetImagePart; backgroundImagePart; textPart])%list in
     response <- generateContent {| model := imageModel;
                                    contents := allParts;
                                    config := ImageModality |} ;;
     returnInlineData response compositeNoImage)%js
    (rethrow "Image composition failed: "
             "An unknown network or API error occurred during the final composition.").

(** *** [generateProductDetails]

    [ProductDetails] is an interface of seven string properties; the value
    returned is the parsed JSON cast to it, so it is modelled as the parsed
    value and its properties are read with [JSON.field]. *)

Definition productDetailFields : list string :=
  ["specifications"; "usageInstructions"; "compatibility"; "maintenanceTips";
   "performanceMetrics"; "warranty"; "status"].

Definition productDetailsPrompt : string :=
  ("You are a professional technical writer and product marketer. Analyze the provided product image and generate a complete set of product details. Identify the product and provide concise, accurate, and well-formatted information for each of the following fields. If a field is not applicable or information cannot be determined from the image, state " ++ dquote ++ "Not available from image" ++ dquote ++ ".").

Definition emptyDetails : string := "API returned empty details.".

Definition unreadableDetails : string :=
  "Could not read the product details from the AI. The format might be incorrect.".

Definition detailsPrefix : string := "Failed to generate details: ".

Definition detailsUnknown : string :=
  "An unknown network or API error occurred while generating product details.".

(** The message of the [SyntaxError] of [JSON.parse]. *)
Definition syntaxErrorMessage : string := "Unexpected token in JSON".

(** The message of the [TypeError] of [response.text.trim()] when [text] is
    [undefined]. *)
Definition trimTypeErrorMessage : string :=
  "Cannot read properties of undefined (reading 'trim')".

Definition generateProductDetails (productImage : File.t) : M JSON.value :=
  tryCatch
    (imagePart <- fileToGenerativePart productImage ;;
     let prompt := productDetailsPrompt in
     let textPart := TextPart prompt in
     response <- generateContent {| model := "gemini-2.5-flash";
                                    contents := [imagePart; textPart];
                                    config := JsonSchema productDetailFields |} ;;
     tryCatch
       (match text response with
        | None => throw (JsError trimTypeErrorMessage)
        | Some responseText =>
            let jsonText := trim responseText in
            if negb (truthy jsonText) then throw (JsError emptyDetails)
            else
              match JSON.parse jsonText with
              | Some parsedJson => ret parsedJson
              | None => throw (JsError syntaxErrorMessage)
              end
        end)
       (fun _ => throw (JsError unreadableDetails)))%js
    (rethrow detailsPrefix detailsUnknown).

End GeminiService.

(** ** The views

    A view is its record of state variables.  A handler maps the state it
    was called in to the state after its [set...] calls have been applied,
    in the order the handler makes them, together with the effects it
    started. *)

(** [ImageFile] of the [types] module: an uploaded file and its locally
    displayable preview reference. *)
Record ImageFile : Type := {
  file : File.t;
  previewUrl : string
}.

(** *** [components/MultiImageDropzone] *)

Module MultiImageDropzone.

(** The default of the [maxFiles] property. *)
Definition defaultMaxFiles : nat := 5.

(** The [for] loop of [handleFiles], from index [i] on: [files] is what is
    left of the list and [addedFiles] what has been pushed so far. *)
Fixpoint handleFilesLoop (imagesLength maxFiles : nat) (files addedFiles : list File.t)
  : list File.t :=
  match files with
  | [] => addedFiles
  | file :: rest =>
      if (maxFiles <=? imagesLength + length addedFiles)%nat then addedFiles
      else if startsWith "image/" (File.type file) then
        handleFilesLoop imagesLength maxFiles rest (addedFiles ++ [file])%list
      else handleFilesLoop imagesLength maxFiles rest addedFiles
  end.

(** [handleFiles]: the argument [onImagesAdd] is called with, or [None] when
    it is not called.  [files] is [None] for a [null] file list. *)
Definition handleFiles (images : list ImageFile) (maxFiles : nat)
  (files : option (list File.t)) : option (list File.t) :=
  match files with
  | None => None
  | Some files =>
      let addedFiles := handleFilesLoop (length images) maxFiles files [] in
      if (0 <? length addedFiles)%nat then Some addedFiles else None
  end.

End MultiImageDropzone.

(** *** [components/ImageDropzone] *)

Module ImageDropzone.

(** What [handleFileChange] does with a file list: nothing, a call of
    [onImageDrop], or an alert. *)
Inductive Reaction : Type :=
| Ignored
| Dropped (imageFile : ImageFile)
| Alerted (message : string).

(** [handleFileChange]; [createObjectURL] is the browser's
    [URL.createObjectURL]. *)
Definition handleFileChange (createObjectURL : File.t -> string)
  (files : option (list File.t)) : Reaction :=
  match files with
  | Some (file :: _) =>
      if startsWith "image/" (File.type file) then
        Dropped {| file := file; previewUrl := createObjectURL file |}
      else Alerted "Please upload an image file."
  | _ => Ignored
  end.

End ImageDropzone.

(** *** [components/ProductStudio] *)

Module LocalStorage.

(** The browser's key-value store; [full] makes [setItem] throw the
    [QuotaExceededError] the handlers catch. *)
Record t : Type := {
  items : gmap string string;
  full : bool
}.

Definition getItem (key : string) (store : t) : option string :=
  items store !! key.

Definition setItem (key value : string) (store : t) : Outcome t :=
  if full store then Throw (JsError "QuotaExceededError")
  else Ok {| items := <[key := value]> (items store); full := full store |}.

End LocalStorage.

Module ProductStudio.

Definition USER_PRESETS_STORAGE_KEY : string := "ai-photo-studio-user-presets".

Record Preset : Type := { label : string; prompt : string }.

Definition BACKGROUND_PRESETS : list Preset := [
  {| label := "Studio White"; prompt := "A clean, white studio background with soft, diffused lighting." |};
  {| label := "Rustic Wood"; prompt := "A rustic wooden tabletop with a warm, cozy atmosphere." |};
  {| label := "Marble Counter"; prompt := "A sleek, modern kitchen counter made of marble." |};
  {| label := "Forest Floor"; prompt := "Outdoors on a mossy rock in a lush, green forest." |};
  {| label := "Reflective Black"; prompt := "On a reflective black surface with dramatic, cinematic lighting." |};
  {| label := "Sandy Beach"; prompt := "On a sandy beach with gentle waves and soft sunlight." |};
  {| label := "Abstract Gradient"; prompt := "Suspended in mid-air against a vibrant, abstract, colorful gradient background." |};
  {| label := "Coffee Beans"; prompt := "Resting on a pile of freshly roasted coffee beans with gentle steam rising." |};
  {| label := "Minimalist Room"; prompt := "In a bright, minimalist, Scandinavian-style room with natural light from a window." |}
].

Record State : Type := {
  productImage : option ImageFile;
  backgroundPrompt : string;
  userPresets : list string;
  isTransparent : bool;
  isLoading : bool;
  error : option string;
  resultImage : option string;
  exportQuality : ExportQuality;
  aspectRatio : AspectRatio;
  isDownloading : bool
}.

(** The state of a freshly mounted view. *)
Definition initialState : State := {|
  productImage := None;
  backgroundPrompt := "A clean, white studio background with soft, diffused lighting.";
  userPresets := [];
  isTransparent := false;
  isLoading := false;
  error := None;
  resultImage := None;
  exportQuality := High;
  aspectRatio := R1_1;
  isDownloading := false
|}.

Definition setUserPresets (v : list string) (s : State) : State :=
  {| productImage := productImage s; backgroundPrompt := backgroundPrompt s;
     userPresets := v; isTransparent := isTransparent s; isLoading := isLoading s;
     error := error s; resultImage := resultImage s; exportQuality := exportQuality s;
     aspectRatio := aspectRatio s; isDownloading := isDownloading s |}.

Definition setIsLoading (v : bool) (s : State) : State :=
  {| productImage := productImage s; backgroundPrompt := backgroundPrompt s;
     userPresets := userPresets s; isTransparent := isTransparent s; isLoading := v;
     error := error s; resultImage := resultImage s; exportQuality := exportQuality s;
     aspectRatio := aspectRatio s; isDownloading := isDownloading s |}.

Definition setError (v : option string) (s : State) : State :=
  {| productImage := productImage s; backgroundPrompt := backgroundPrompt s;
     userPresets := userPresets s; isTransparent := isTransparent s; isLoading := isLoading s;
     error := v; resultImage := resultImage s; exportQuality := exportQuality s;
     aspectRatio := aspectRatio s; isDownloading := isDownloading s |}.

Definition setResultImage (v : option string) (s : State) : State :=
  {| productImage := productImage s; backgroundPrompt := backgroundPrompt s;
     userPresets := userPresets s; isTransparent := isTransparent s; isLoading := isLoading s;
     error := error s; resultImage := v; exportQuality := exportQuality s;
     aspectRatio := aspectRatio s; isDownloading := isDownloading s |}.

Definition uploadMissing : string := "Please upload a product image.".
Definition descriptionMissing : string := "Please provide a background description.".
Definition generationFailed : string :=
  "An error occurred while generating the image. Please try again.".

(** [handleSubmit] *)
Definition handleSubmit (s : State) (w : World) : list Event * State :=
  match productImage s with
  | None => ([], setError (Some uploadMissing) s)
  | Some image =>
      if negb (truthy (backgroundPrompt s)) && negb (isTransparent s) then
        ([], setError (Some descriptionMissing) s)
      else
        let s1 := setResultImage None (setError None (setIsLoading true s)) in
        let '(events, outcome) :=
          GeminiService.compositeProductImage (file image) (backgroundPrompt s)
            (isTransparent s) (aspectRatio s) w in
        let s2 :=
          match outcome with
          | Ok generatedImage => setResultImage (Some generatedImage) s1
          | Throw _ => setError (Some generationFailed) s1
          end in
        (events, setIsLoading false s2)
  end.

(** [handleSavePreset], on the view state and the local store. *)
Definition handleSavePreset (s : State) (store : LocalStorage.t) : State * LocalStorage.t :=
  let trimmedPrompt := trim (backgroundPrompt s) in
  if negb (truthy trimmedPrompt) then (s, store)
  else
    let allPrompts := (List.map prompt BACKGROUND_PRESETS ++ userPresets s)%list in
    if existsb (String.eqb trimmedPrompt) allPrompts then (s, store)
    else
      let newPresets := (userPresets s ++ [trimmedPrompt])%list in
      let s' := setUserPresets newPresets s in
      match LocalStorage.setItem USER_PRESETS_STORAGE_KEY
              (JSON.stringifyStrings newPresets) store with
      | Ok store' => (s', store')
      | Throw _ => (s', store)
      end.

(** [handleDeletePreset] *)
Definition handleDeletePreset (presetToDelete : string) (s : State)
  (store : LocalStorage.t) : State * LocalStorage.t :=
  let newPresets :=
    List.filter (fun p => negb (String.eqb p presetToDelete)) (userPresets s) in
  let s' := setUserPresets newPresets s in
  match LocalStorage.setItem USER_PRESETS_STORAGE_KEY
          (JSON.stringifyStrings newPresets) store with
  | Ok store' => (s', store')
  | Throw _ => (s', store)
  end.

Definition setProductImage (v : option ImageFile) (s : State) : State :=
  {| productImage := v; backgroundPrompt := backgroundPrompt s;
     userPresets := userPresets s; isTransparent := isTransparent s; isLoading := isLoading s;
     error := error s; resultImage := resultImage s; exportQuality := exportQuality s;
     aspectRatio := aspectRatio s; isDownloading := isDownloading s |}.

Definition setBackgroundPrompt (v : string) (s : State) : State :=
  {| productImage := productImage s; backgroundPrompt := v;
     userPresets := userPresets s; isTransparent := isTransparent s; isLoading := isLoading s;
     error := error s; resultImage := resultImage s; exportQuality := exportQuality s;
     aspectRatio := aspectRatio s; isDownloading := isDownloading s |}.

(** [handleImageDrop] *)
Definition handleImageDrop (imageFile : ImageFile) (s : State) : State :=
  setResultImage None (setProductImage (Some imageFile) s).

(** The dropzone of the view, wired to [handleImageDrop]: the state after a
    file list has been dropped or picked, and the alert shown, if any. *)
Definition dropFiles (createObjectURL : File.t -> string)
  (files : option (list File.t)) (s : State) : State * option string :=
  match ImageDropzone.handleFileChange createObjectURL files with
  | ImageDropzone.Dropped imageFile => (handleImageDrop imageFile s, None)
  | ImageDropzone.Alerted message => (s, Some message)
  | ImageDropzone.Ignored => (s, None)
  end.


(** [isSaveDisabled] *)
Definition isSaveDisabled (s : State) : bool :=
  isLoading s
  || negb (truthy (trim (backgroundPrompt s)))
  || existsb (String.eqb (trim (backgroundPrompt s)))
       (List.map prompt BACKGROUND_PRESETS ++ userPresets s)%list.

(** The strings of a parsed JSON array of strings. *)
Fixpoint stringItems (items : list JSON.value) : option (list string) :=
  match items with
  | [] => Some []
  | JSON.JString x :: rest =>
      match stringItems rest with
      | Some xs => Some (x :: xs)
      | None => None
      end
  | _ :: _ => None
  end.

(** The effect run on mount: [setUserPresets(JSON.parse(savedPresets))]
    when the store has a non-empty entry; a [SyntaxError] is caught and
    logged.  The parsed value is stored unchecked, so the result is [None]
    when it is not an array of strings: the state variable then holds a
    value outside its declared type [string[]], which [State] does not
    represent. *)
Definition loadUserPresets (store : LocalStorage.t) (s : State) : option State :=
  match LocalStorage.getItem USER_PRESETS_STORAGE_KEY store with
  | None => Some s
  | Some savedPresets =>
      if truthy savedPresets then
        match JSON.parse savedPresets with
        | None => Some s
        | Some (JSON.JArray items) =>
            match stringItems items with
            | Some presets => Some (setUserPresets presets s)
            | None => None
            end
        | Some _ => None
        end
      else Some s
  end.

End ProductStudio.

(** *** [components/ImageEditor] *)

Module ImageEditor.

Record State : Type := {
  sourceImage : option ImageFile;
  prompt : string;
  isLoading : bool;
  error : option string;
  resultImage : option string
}.

Definition setIsLoading (v : bool) (s : State) : State :=
  {| sourceImage := sourceImage s; prompt := prompt s; isLoading := v;
     error := error s; resultImage := resultImage s |}.

Definition setError (v : option string) (s : State) : State :=
  {| sourceImage := sourceImage s; prompt := prompt s; isLoading := isLoading s;
     error := v; resultImage := resultImage s |}.

Definition setResultImage (v : option string) (s : State) : State :=
  {| sourceImage := sourceImage s; prompt := prompt s; isLoading := isLoading s;
     error := error s; resultImage := v |}.

Definition uploadMissing : string := "Please upload an image to edit.".
Definition promptMissing : string := "Please enter an editing prompt.".
Definition editFailed : string :=
  "An error occurred while editing the image. Please try again.".

(** [handleSubmit] *)
Definition handleSubmit (s : State) (w : World) : list Event * State :=
  match sourceImage s with
  | None => ([], setError (Some uploadMissing) s)
  | Some image =>
      if negb (truthy (prompt s)) then ([], setError (Some promptMissing) s)
      else
        let s1 := setError None (setIsLoading true s) in
        let '(events, outcome) :=
          GeminiService.editImageWithPrompt (file image) (prompt s) w in
        let s2 :=
          match outcome with
          | Ok editedImage => setResultImage (Some editedImage) s1
          | Throw _ => setError (Some editFailed) s1
          end in
        (events, setIsLoading false s2)
  end.

Definition setSourceImage (v : option ImageFile) (s : State) : State :=
  {| sourceImage := v; prompt := prompt s; isLoading := isLoading s;
     error := error s; resultImage := resultImage s |}.

(** [handleImageDrop] *)
Definition handleImageDrop (imageFile : ImageFile) (s : State) : State :=
  setResultImage None (setSourceImage (Some imageFile) s).

(** The dropzone of the view, wired to [handleImageDrop]. *)
Definition dropFiles (createObjectURL : File.t -> string)
  (files : option (list File.t)) (s : State) : State * option string :=
  match ImageDropzone.handleFileChange createObjectURL files with
  | ImageDropzone.Dropped imageFile => (handleImageDrop imageFile s, None)
  | ImageDropzone.Alerted message => (s, Some message)
  | ImageDropzone.Ignored => (s, None)
  end.

End ImageEditor.

(** *** [components/StyleCopier] *)

Module StyleCopier.

Inductive CompositeStep : Type := initial | preview | final.

Record State : Type := {
  sourceImages : list ImageFile;
  targetImage : option ImageFile;
  resultImage : option string;
  additionalPrompt : string;
  copiedSuggestionIndex : option nat;
  copyProductStyleToggle : bool;
  copyBackgroundStyleToggle : bool;
  isTransparent : bool;
  productDetails : option JSON.value;
  productDetailsEnabled : bool;
  isGeneratingImage : bool;
  isGeneratingDetails : bool;
  error : option string;
  generatedBackground : option string;
  compositeStep : CompositeStep
}.

Definition initialState : State := {|
  sourceImages := [];
  targetImage := None;
  resultImage := None;
  additionalPrompt := EmptyString;
  copiedSuggestionIndex := None;
  copyProductStyleToggle := true;
  copyBackgroundStyleToggle := false;
  isTransparent := false;
  productDetails := None;
  productDetailsEnabled := false;
  isGeneratingImage := false;
  isGeneratingDetails := false;
  error := None;
  generatedBackground := None;
  compositeStep := initial
|}.

Definition setSourceImages (v : list ImageFile) (s : State) : State :=
  {| sourceImages := v; targetImage := targetImage s; resultImage := resultImage s;
     additionalPrompt := additionalPrompt s;
     copiedSuggestionIndex := copiedSuggestionIndex s;
     copyProductStyleToggle := copyProductStyleToggle s;
     copyBackgroundStyleToggle := copyBackgroundStyleToggle s;
     isTransparent := isTransparent s; productDetails := productDetails s;
     productDetailsEnabled := productDetailsEnabled s;
     isGeneratingImage := isGeneratingImage s;
     isGeneratingDetails := isGeneratingDetails s; error := error s;
     generatedBackground := generatedBackground s; compositeStep := compositeStep s |}.

Definition setResultImage (v : option string) (s : State) : State :=
  {| sourceImages := sourceImages s; targetImage := targetImage s; resultImage := v;
     additionalPrompt := additionalPrompt s;
     copiedSuggestionIndex := copiedSuggestionIndex s;
     copyProductStyleToggle := copyProductStyleToggle s;
     copyBackgroundStyleToggle := copyBackgroundStyleToggle s;
     isTransparent := isTransparent s; productDetails := productDetails s;
     productDetailsEnabled := productDetailsEnabled s;
     isGeneratingImage := isGeneratingImage s;
     isGeneratingDetails := isGeneratingDetails s; error := error s;
     generatedBackground := generatedBackground s; compositeStep := compositeStep s |}.

Definition setProductDetails (v : option JSON.value) (s : State) : State :=
  {| sourceImages := sourceImages s; targetImage := targetImage s;
     resultImage := resultImage s; additionalPrompt := additionalPrompt s;
     copiedSuggestionIndex := copiedSuggestionIndex s;
     copyProductStyleToggle := copyProductStyleToggle s;
     copyBackgroundStyleToggle := copyBackgroundStyleToggle s;
     isTransparent := isTransparent s; productDetails := v;
     productDetailsEnabled := productDetailsEnabled s;
     isGeneratingImage := isGeneratingImage s;
     isGeneratingDetails := isGeneratingDetails s; error := error s;
     generatedBackground := generatedBackground s; compositeStep := compositeStep s |}.

Definition setIsGeneratingImage (v : bool) (s : State) : State :=
  {| sourceImages := sourceImages s; targetImage := targetImage s;
     resultImage := resultImage s; additionalPrompt := additionalPrompt s;
     copiedSuggestionIndex := copiedSuggestionIndex s;
     copyProductStyleToggle := copyProductStyleToggle s;
     copyBackgroundStyleToggle := copyBackgroundStyleToggle s;
     isTransparent := isTransparent s; productDetails := productDetails s;
     productDetailsEnabled := productDetailsEnabled s;
     isGeneratingImage := v;
     isGeneratingDetails := isGeneratingDetails s; error := error s;
     generatedBackground := generatedBackground s; compositeStep := compositeStep s |}.

Definition setIsGeneratingDetails (v : bool) (s : State) : State :=
  {| sourceImages := sourceImages s; targetImage := targetImage s;
     resultImage := resultImage s; additionalPrompt := additionalPrompt s;
     copiedSuggestionIndex := copiedSuggestionIndex s;
     copyProductStyleToggle := copyProductStyleToggle s;
     copyBackgroundStyleToggle := copyBackgroundStyleToggle s;
     isTransparent := isTransparent s; productDetails := productDetails s;
     productDetailsEnabled := productDetailsEnabled s;
     isGeneratingImage := isGeneratingImage s;
     isGeneratingDetails := v; error := error s;
     generatedBackground := generatedBackground s; compositeStep := compositeStep s |}.

Definition setError (v : option string) (s : State) : State :=
  {| sourceImages := sourceImages s; targetImage := targetImage s;
     resultImage := resultImage s; additionalPrompt := additionalPrompt s;
     copiedSuggestionIndex := copiedSuggestionIndex s;
     copyProductStyleToggle := copyProductStyleToggle s;
     copyBackgroundStyleToggle := copyBackgroundStyleToggle s;
     isTransparent := isTransparent s; productDetails := productDetails s;
     productDetailsEnabled := productDetailsEnabled s;
     isGeneratingImage := isGeneratingImage s;
     isGeneratingDetails := isGeneratingDetails s; error := v;
     generatedBackground := generatedBackground s; compositeStep := compositeStep s |}.

Definition setGeneratedBackground (v : option string) (s : State) : State :=
  {| sourceImages := sourceImages s; targetImage := targetImage s;
     resultImage := resultImage s; additionalPrompt := additionalPrompt s;
     copiedSuggestionIndex := copiedSuggestionIndex s;
     copyProductStyleToggle := copyProductStyleToggle s;
     copyBackgroundStyleToggle := copyBackgroundStyleToggle s;
     isTransparent := isTransparent s; productDetails := productDetails s;
     productDetailsEnabled := productDetailsEnabled s;
     isGeneratingImage := isGeneratingImage s;
     isGeneratingDetails := isGeneratingDetails s; error := error s;
     generatedBackground := v; compositeStep := compositeStep s |}.

Definition setCompositeStep (v : CompositeStep) (s : State) : State :=
  {| sourceImages := sourceImages s; targetImage := targetImage s;
     resultImage := resultImage s; additionalPrompt := additionalPrompt s;
     copiedSuggestionIndex := copiedSuggestionIndex s;
     copyProductStyleToggle := copyProductStyleToggle s;
     copyBackgroundStyleToggle := copyBackgroundStyleToggle s;
     isTransparent := isTransparent s; productDetails := productDetails s;
     productDetailsEnabled := productDetailsEnabled s;
     isGeneratingImage := isGeneratingImage s;
     isGeneratingDetails := isGeneratingDetails s; error := error s;
     generatedBackground := generatedBackground s; compositeStep := v |}.

(** [handleSourceImagesAdd]: the functional update of [sourceImages].
    [createObjectURL] is the browser's [URL.createObjectURL]. *)
Definition handleSourceImagesAdd (createObjectURL : File.t -> string)
  (files : list File.t) (prev : list ImageFile) : list ImageFile :=
  let maxFiles := 5%nat in
  let newImageFiles :=
    List.map (fun f => {| file := f; previewUrl := createObjectURL f |}) files in
  let combined := (prev ++ newImageFiles)%list in
  firstn maxFiles combined.

(** An addition through the dropzone: [handleFiles] of the dropzone, wired
    to [handleSourceImagesAdd] with [maxFiles={5}] as the view renders it.
    [seen] is the value of [sourceImages] the dropzone was last rendered
    with. *)
Definition dropFiles (createObjectURL : File.t -> string) (maxFiles : nat)
  (seen : list ImageFile) (files : option (list File.t)) (s : State) : State :=
  match MultiImageDropzone.handleFiles seen maxFiles files with
  | Some addedFiles =>
      setSourceImages (handleSourceImagesAdd createObjectURL addedFiles (sourceImages s)) s
  | None => s
  end.

Definition imagesMissing : string := "Please upload both source and target images.".
Definition optionMissing : string :=
  "Please select at least one copy option or transparent background.".
Definition backgroundUnexpected : string :=
  "An unexpected error occurred while generating the background.".
Definition imageUnexpected : string :=
  "An unexpected error occurred while generating the image.".
Definition compositionUnexpected : string :=
  "An unexpected error occurred during the final composition step.".
Definition detailsUnexpected : string :=
  "An unexpected error occurred while generating product details.".

(** [if (e instanceof Error) setError(e.message) else setError(fallback)] *)
Definition reportError (fallback : string) (e : Thrown) (s : State) : State :=
  if instanceofError e then setError (Some (messageOf e)) s
  else setError (Some fallback) s.

(** [handleInitialGenerate] *)
Definition handleInitialGenerate (s : State) (w : World) : list Event * State :=
  match sourceImages s, targetImage s with
  | _ :: _, Some target =>
      if negb (copyProductStyleToggle s) && negb (copyBackgroundStyleToggle s)
           && negb (isTransparent s) then
        ([], setError (Some optionMissing) s)
      else
        let s1 :=
          setGeneratedBackground None
            (setResultImage None (setError None (setIsGeneratingImage true s))) in
        if copyBackgroundStyleToggle s && negb (isTransparent s) then
          let s2 := setCompositeStep preview s1 in
          let '(events, outcome) :=
            GeminiService.generateStyledBackground (List.map file (sourceImages s))
              (Some (additionalPrompt s)) w in
          let s3 :=
            match outcome with
            | Ok bg => setGeneratedBackground (Some bg) s2
            | Throw e => setCompositeStep initial (reportError backgroundUnexpected e s2)
            end in
          (events, setIsGeneratingImage false s3)
        else
          let s2 := setCompositeStep final s1 in
          let '(events, outcome) :=
            GeminiService.copyProductStyle (List.map file (sourceImages s)) (file target)
              {| GeminiService.CopyStyleOptions.copyProductStyle := copyProductStyleToggle s;
                 GeminiService.CopyStyleOptions.copyBackgroundStyle := false;
                 GeminiService.CopyStyleOptions.isTransparent := isTransparent s;
                 GeminiService.CopyStyleOptions.prompt := Some (additionalPrompt s) |} w in
          let s3 :=
            match outcome with
            | Ok finalImage => setResultImage (Some finalImage) s2
            | Throw e => reportError imageUnexpected e s2
            end in
          (events, setIsGeneratingImage false s3)
  | _, _ => ([], setError (Some imagesMissing) s)
  end.

(** [handleComposite] *)
Definition handleComposite (s : State) (w : World) : list Event * State :=
  match generatedBackground s, targetImage s with
  | Some background, Some target =>
      if negb (truthy background) then ([], s)
      else
        let s1 := setCompositeStep final (setError None (setIsGeneratingImage true s)) in
        let '(events, outcome) :=
          match base64ToFile background "background.png" "image/png" with
          | Throw e => ([], Throw e)
          | Ok backgroundImageFile =>
              GeminiService.compositeProductWithBackground (file target) backgroundImageFile
                (copyProductStyleToggle s)
                (if copyProductStyleToggle s then Some (List.map file (sourceImages s))
                 else None) w
          end in
        let s2 :=
          match outcome with
          | Ok finalImage => setResultImage (Some finalImage) s1
          | Throw e => reportError compositionUnexpected e s1
          end in
        (events, setIsGeneratingImage false s2)
  | _, _ => ([], s)
  end.

(** [handleGenerateDetails] *)
Definition handleGenerateDetails (s : State) (w : World) : list Event * State :=
  match targetImage s with
  | None => ([], s)
  | Some target =>
      let s1 := setProductDetails None (setError None (setIsGeneratingDetails true s)) in
      let '(events, outcome) := GeminiService.generateProductDetails (file target) w in
      let s2 :=
        match outcome with
        | Ok details => setProductDetails (Some details) s1
        | Throw e => reportError detailsUnexpected e s1
        end in
      (events, setIsGeneratingDetails false s2)
  end.

Definition setTargetImage (v : option ImageFile) (s : State) : State :=
  {| sourceImages := sourceImages s; targetImage := v; resultImage := resultImage s;
     additionalPrompt := additionalPrompt s;
     copiedSuggestionIndex := copiedSuggestionIndex s;
     copyProductStyleToggle := copyProductStyleToggle s;
     copyBackgroundStyleToggle := copyBackgroundStyleToggle s;
     isTransparent := isTransparent s; productDetails := productDetails s;
     productDetailsEnabled := productDetailsEnabled s;
     isGeneratingImage := isGeneratingImage s;
     isGeneratingDetails := isGeneratingDetails s; error := error s;
     generatedBackground := generatedBackground s; compositeStep := compositeStep s |}.

Definition setCopyBackgroundStyleToggle (v : bool) (s : State) : State :=
  {| sourceImages := sourceImages s; targetImage := targetImage s;
     resultImage := resultImage s; additionalPrompt := additionalPrompt s;
     copiedSuggestionIndex := copiedSuggestionIndex s;
     copyProductStyleToggle := copyProductStyleToggle s;
     copyBackgroundStyleToggle := v;
     isTransparent := isTransparent s; productDetails := productDetails s;
     productDetailsEnabled := productDetailsEnabled s;
     isGeneratingImage := isGeneratingImage s;
     isGeneratingDetails := isGeneratingDetails s; error := error s;
     generatedBackground := generatedBackground s; compositeStep := compositeStep s |}.

Definition setIsTransparent (v : bool) (s : State) : State :=
  {| sourceImages := sourceImages s; targetImage := targetImage s;
     resultImage := resultImage s; additionalPrompt := additionalPrompt s;
     copiedSuggestionIndex := copiedSuggestionIndex s;
     copyProductStyleToggle := copyProductStyleToggle s;
     copyBackgroundStyleToggle := copyBackgroundStyleToggle s;
     isTransparent := v; productDetails := productDetails s;
     productDetailsEnabled := productDetailsEnabled s;
     isGeneratingImage := isGeneratingImage s;
     isGeneratingDetails := isGeneratingDetails s; error := error s;
     generatedBackground := generatedBackground s; compositeStep := compositeStep s |}.

(** [prev.filter((_, i) => i !== index)], from position [i] on. *)
Fixpoint removeIndex {A} (i index : nat) (l : list A) : list A :=
  match l with
  | [] => []
  | x :: rest =>
      if (i =? index)%nat then removeIndex (S i) index rest
      else x :: removeIndex (S i) index rest
  end.

(** [handleSourceImageRemove]: the functional update of [sourceImages]. *)
Definition handleSourceImageRemove (index : nat) (prev : list ImageFile)
  : list ImageFile :=
  removeIndex 0 index prev.

(** [handleTargetImageDrop] *)
Definition handleTargetImageDrop (imageFile : ImageFile) (s : State) : State :=
  setCompositeStep initial
    (setProductDetails None (setResultImage None (setTargetImage (Some imageFile) s))).

(** The target dropzone of the view, wired to [handleTargetImageDrop]. *)
Definition dropTarget (createObjectURL : File.t -> string)
  (files : option (list File.t)) (s : State) : State * option string :=
  match ImageDropzone.handleFileChange createObjectURL files with
  | ImageDropzone.Dropped imageFile => (handleTargetImageDrop imageFile s, None)
  | ImageDropzone.Alerted message => (s, Some message)
  | ImageDropzone.Ignored => (s, None)
  end.

Definition setCopyProductStyleToggle (v : bool) (s : State) : State :=
  {| sourceImages := sourceImages s; targetImage := targetImage s;
     resultImage := resultImage s; additionalPrompt := additionalPrompt s;
     copiedSuggestionIndex := copiedSuggestionIndex s;
     copyProductStyleToggle := v;
     copyBackgroundStyleToggle := copyBackgroundStyleToggle s;
     isTransparent := isTransparent s; productDetails := productDetails s;
     productDetailsEnabled := productDetailsEnabled s;
     isGeneratingImage := isGeneratingImage s;
     isGeneratingDetails := isGeneratingDetails s; error := error s;
     generatedBackground := generatedBackground s; compositeStep := compositeStep s |}.

Definition setAdditionalPrompt (v : string) (s : State) : State :=
  {| sourceImages := sourceImages s; targetImage := targetImage s;
     resultImage := resultImage s; additionalPrompt := v;
     copiedSuggestionIndex := copiedSuggestionIndex s;
     copyProductStyleToggle := copyProductStyleToggle s;
     copyBackgroundStyleToggle := copyBackgroundStyleToggle s;
     isTransparent := isTransparent s; productDetails := productDetails s;
     productDetailsEnabled := productDetailsEnabled s;
     isGeneratingImage := isGeneratingImage s;
     isGeneratingDetails := isGeneratingDetails s; error := error s;
     generatedBackground := generatedBackground s; compositeStep := compositeStep s |}.

(** [isLoading] *)
Definition isLoading (s : State) : bool := isGeneratingImage s || isGeneratingDetails s.

(** The [onChange] of the "Transparent Background" checkbox. *)
Definition changeTransparent (checked : bool) (s : State) : State :=
  let s := setIsTransparent checked s in
  if checked then setCopyBackgroundStyleToggle false s else s.

(** The [onClick] of "Discard & Restart". *)
Definition discardBackground (s : State) : State :=
  setGeneratedBackground None (setCompositeStep initial s).

End StyleCopier.

(** *** [components/ImageGenerator] *)

Module ImageGenerator.

Record State : Type := {
  prompt : string;
  aspectRatio : AspectRatio;
  isLoading : bool;
  error : option string;
  resultImage : option string;
  advancedOptionsOpen : bool;
  style : string;
  negativePrompt : string;
  seed : string
}.

Definition initialState : State := {|
  prompt := "A majestic lion with a glowing mane, standing on a cliff overlooking a futuristic city at sunset.";
  aspectRatio := R1_1;
  isLoading := false;
  error := None;
  resultImage := None;
  advancedOptionsOpen := false;
  style := "Photorealistic";
  negativePrompt := EmptyString;
  seed := EmptyString
|}.

Definition setIsLoading (v : bool) (s : State) : State :=
  {| prompt := prompt s; aspectRatio := aspectRatio s; isLoading := v; error := error s;
     resultImage := resultImage s; advancedOptionsOpen := advancedOptionsOpen s;
     style := style s; negativePrompt := negativePrompt s; seed := seed s |}.

Definition setError (v : option string) (s : State) : State :=
  {| prompt := prompt s; aspectRatio := aspectRatio s; isLoading := isLoading s; error := v;
     resultImage := resultImage s; advancedOptionsOpen := advancedOptionsOpen s;
     style := style s; negativePrompt := negativePrompt s; seed := seed s |}.

Definition setResultImage (v : option string) (s : State) : State :=
  {| prompt := prompt s; aspectRatio := aspectRatio s; isLoading := isLoading s;
     error := error s; resultImage := v; advancedOptionsOpen := advancedOptionsOpen s;
     style := style s; negativePrompt := negativePrompt s; seed := seed s |}.

Definition setSeed (v : string) (s : State) : State :=
  {| prompt := prompt s; aspectRatio := aspectRatio s; isLoading := isLoading s;
     error := error s; resultImage := resultImage s;
     advancedOptionsOpen := advancedOptionsOpen s;
     style := style s; negativePrompt := negativePrompt s; seed := v |}.

(** The [onChange] of the seed field: only digits are kept. *)
Definition changeSeed (value : string) (s : State) : State :=
  setSeed (onlyDigits value) s.

Definition promptMissing : string := "Please enter a prompt to generate an image.".
Definition generationFailed : string :=
  "An error occurred while generating the image. Please try again.".

(** [handleSubmit] *)
Definition handleSubmit (s : State) (w : World) : list Event * State :=
  if negb (truthy (prompt s)) then ([], setError (Some promptMissing) s)
  else
    let s1 := setError None (setIsLoading true s) in
    let finalPrompt := style s ++ ", " ++ prompt s in
    let seedValue := parseInt10 (seed s) in
    let trimmedNegative := trim (negativePrompt s) in
    let '(events, outcome) :=
      GeminiService.generateImage finalPrompt (aspectRatio s)
        (if truthy trimmedNegative then Some trimmedNegative else None)
        seedValue w in
    let s2 :=
      match outcome with
      | Ok generatedImage => setResultImage (Some generatedImage) s1
      | Throw _ => setError (Some generationFailed) s1
      end in
    (events, setIsLoading false s2).

End ImageGenerator.

(** ** Canvas dimensions as the specification states them *)

(** The numbers of a ratio, as the specification reads them: [w:h]. *)
Definition ratioNumbers (r : AspectRatio) : Z * Z :=
  match r with
  | R1_1 => (1, 1)
  | R16_9 => (16, 9)
  | R9_16 => (9, 16)
  | R4_3 => (4, 3)
  | R3_4 => (3, 4)
  end%Z.

(** Round-half-up, as the specification states it: [r] is the integer with
    [r - 1/2 <= q < r + 1/2]. *)
Definition roundHalfUp (q : Q) (r : Z) : Prop :=
  (inject_Z r - (1 # 2) <= q)%Q /\ (q < inject_Z r + (1 # 2))%Q.

(** ** The operations as the specification lists them *)

(** The value or thrown value an operation settles with, and the effects it
    started. *)
Definition outcome {A} (m : M A) (w : World) : Outcome A := snd (m w).
Definition events {A} (m : M A) (w : World) : list Event := fst (m w).

(** The request part a readable file becomes. *)
Definition partOfFile (w : World) (f : File.t) : RequestPart :=
  InlineDataPart
    (match readAsDataURL w f with
     | Some url => nth_error (split "," url) 1
     | None => None
     end)
    (File.type f).

(** The outcome of the extraction shared by the five operations, before
    any wrapper. *)
Definition extraction (response : GenerateContentResponse) (msg : string)
  : Outcome string :=
  match GeminiService.firstPart response with
  | Throw e => Throw e
  | Ok (Some p) =>
      match inlineData p with
      | Some blob => Ok (data blob)
      | None => Throw (JsError msg)
      end
  | Ok None => Throw (JsError msg)
  end.

(** The five remote image-producing operations built on [generateContent],
    with their arguments. *)
Inductive ImageOperation : Type :=
| CompositeProductImage (productImage : File.t) (backgroundPrompt : string)
    (isTransparent : bool) (aspectRatio : AspectRatio)
| EditImageWithPrompt (sourceImage : File.t) (prompt : string)
| CopyProductStyle (sourceImages : list File.t) (targetImage : File.t)
    (options : GeminiService.CopyStyleOptions.t)
| GenerateStyledBackground (sourceImages : list File.t) (additionalPrompt : option string)
| CompositeProductWithBackground (targetImage backgroundImage : File.t)
    (copyProductStyle : bool) (sourceStyleImages : option (list File.t)).

Definition runOperation (op : ImageOperation) : M string :=
  match op with
  | CompositeProductImage productImage backgroundPrompt isTransparent aspectRatio =>
      GeminiService.compositeProductImage productImage backgroundPrompt isTransparent
        aspectRatio
  | EditImageWithPrompt sourceImage prompt =>
      GeminiService.editImageWithPrompt sourceImage prompt
  | CopyProductStyle sourceImages targetImage options =>
      GeminiService.copyProductStyle sourceImages targetImage options
  | GenerateStyledBackground sourceImages additionalPrompt =>
      GeminiService.generateStyledBackground sourceImages additionalPrompt
  | CompositeProductWithBackground targetImage backgroundImage copyProductStyle
      sourceStyleImages =>
      GeminiService.compositeProductWithBackground targetImage backgroundImage
        copyProductStyle sourceStyleImages
  end.

(** The [catch] block of an operation: the prefix put before the message of
    a caught [Error] and the message used for any other thrown value.  The
    first two operations have no [catch] block. *)
Definition wrapperOf (op : ImageOperation) : option (string * string) :=
  match op with
  | CompositeProductImage _ _ _ _ => None
  | EditImageWithPrompt _ _ => None
  | CopyProductStyle _ _ _ =>
      Some ("Image processing failed: ", "An unknown network or API error occurred.")
  | GenerateStyledBackground _ _ =>
      Some ("Background generation failed: ",
            "An unknown network or API error occurred while generating the background.")
  | CompositeProductWithBackground _ _ _ _ =>
      Some ("Image composition failed: ",
            "An unknown network or API error occurred during the final composition.")
  end.

(** What a [catch] block with prefix and fallback message rethrows. *)
Definition wrapWith (wrapper : option (string * string)) (cause : Thrown) : Thrown :=
  match wrapper with
  | None => cause
  | Some (prefix, unknownMessage) =>
      match cause with
      | JsError message => JsError (prefix ++ message)
      | NonError _ => JsError unknownMessage
      end
  end.

(** The message an operation raises when it finds no image. *)
Definition noImageMessage (op : ImageOperation) : string :=
  match op with
  | CompositeProductImage _ _ _ _ => GeminiService.noImageData
  | EditImageWithPrompt _ _ => GeminiService.noImageData
  | CopyProductStyle _ _ _ => GeminiService.copyStyleNoImage
  | GenerateStyledBackground _ _ => GeminiService.styledBackgroundNoImage
  | CompositeProductWithBackground _ _ _ _ => GeminiService.compositeNoImage
  end.

(** [NoImageReturned] as the caller of an operation sees it. *)
Definition NoImageReturned (op : ImageOperation) : Thrown :=
  wrapWith (wrapperOf op) (JsError (noImageMessage op)).

(** The selection [copyProductStyle] accepts: one of the three toggles set. *)
Definition selectionMade (op : ImageOperation) : bool :=
  match op with
  | CopyProductStyle _ _ options =>
      GeminiService.CopyStyleOptions.copyProductStyle options
      || GeminiService.CopyStyleOptions.copyBackgroundStyle options
      || GeminiService.CopyStyleOptions.isTransparent options
  | _ => true
  end.

(** Every file read succeeds. *)
Definition readsSucceed (w : World) : Prop :=
  forall f, readAsDataURL w f <> None.

(** The remote service answers every [generateContent] request with
    [response]. *)
Definition answers (w : World) (response : GenerateContentResponse) : Prop :=
  forall request, generateContentApi w request = Ok response.

(** The remote call fails with [cause], whichever the request. *)
Definition remoteFails (w : World) (cause : Thrown) : Prop :=
  (forall request, generateContentApi w request = Throw cause) /\
  (forall request, generateImagesApi w request = Throw cause).

(** The specification's reading of the response: the parts of the first
    candidate, scanned for the first one with inline image bytes. *)
Definition firstCandidateParts (response : GenerateContentResponse) : list Part :=
  match candidates response with
  | Some (candidate :: _) =>
      match content candidate with
      | Some c => match parts c with Some ps => ps | None => [] end
      | None => []
      end
  | _ => []
  end.

Fixpoint firstInlineImage (ps : list Part) : option string :=
  match ps with
  | [] => None
  | p :: rest =>
      match inlineData p with
      | Some blob => Some (data blob)
      | None => firstInlineImage rest
      end
  end.

(** The first property as the specification words it: the operation returns
    the first inline-image part found by scanning, and fails with
    [NoImageReturned] exactly when there is none. *)
Definition returnsFirstInlineImage (op : ImageOperation) (w : World)
  (response : GenerateContentResponse) : Prop :=
  (forall d, firstInlineImage (firstCandidateParts response) = Some d ->
             outcome (runOperation op) w = Ok d) /\
  (outcome (runOperation op) w = Throw (NoImageReturned op) <->
   firstInlineImage (firstCandidateParts response) = None).

(** A failure is re-wrapped when the thrown value is a new [Error] whose
    message puts a non-empty task prefix before the message of the cause. *)
Definition rewrapped (cause raised : Thrown) : Prop :=
  match cause with
  | JsError message =>
      exists prefix, prefix <> EmptyString /\ raised = JsError (prefix ++ message)
  | NonError _ => exists message, raised = JsError message
  end.

(** [s] after the first occurrence of [p], if [p] occurs. *)
Fixpoint dropPrefix (p s : string) : option string :=
  match p, s with
  | EmptyString, _ => Some s
  | String a p', String b s' => if Ascii.eqb a b then dropPrefix p' s' else None
  | String _ _, EmptyString => None
  end.

Fixpoint afterFirst (p s : string) : option string :=
  match dropPrefix p s with
  | Some rest => Some rest
  | None =>
      match s with
      | EmptyString => None
      | String _ s' => afterFirst p s'
      end
  end.

(** The strings of [ps] occur in [s] one after the other, without overlap. *)
Fixpoint includesInOrder (ps : list string) (s : string) : bool :=
  match ps with
  | [] => true
  | p :: rest =>
      match afterFirst p s with
      | Some s' => includesInOrder rest s'
      | None => false
      end
  end.

(** The scenario of the specification's end-to-end test. *)
Definition studioWhite : string :=
  "A clean, white studio background with soft, diffused lighting.".

Definition fiveSteps : list string :=
  ["1.  **Isolate Product:** Perfectly isolate the main product";
   "2.  **Create Background:** Generate a new, photorealistic background";
   "3.  **Composite:** Place the isolated product onto the new background";
   "4.  **Integrate:**";
   "5.  **Add Shadow:** Create a natural, soft contact shadow"].

Definition canvasPhrase : string :=
  "1500 pixel wide landscape canvas with a 16:9 aspect ratio".

(** The first part of the first candidate, as far as it carries inline
    image bytes. *)
Definition headInline (response : GenerateContentResponse) : option string :=
  match firstCandidateParts response with
  | p :: _ => option_map data (inlineData p)
  | [] => None
  end.

(** The first candidate has a [content] without a [parts] array. *)
Definition partsMissing (response : GenerateContentResponse) : bool :=
  match candidates response with
  | Some (candidate :: _) =>
      match content candidate with
      | Some c => match parts c with None => true | Some _ => false end
      | None => false
      end
  | _ => false
  end.

(** All seven remote operations. *)
Inductive RemoteOperation : Type :=
| ImageOp (op : ImageOperation)
| GenerateImage (prompt : string) (aspectRatio : AspectRatio)
    (negativePrompt : option string) (seed : option Z)
| GenerateProductDetails (productImage : File.t).

Definition thrown {A} (o : Outcome A) : option Thrown :=
  match o with
  | Ok _ => None
  | Throw e => Some e
  end.

Definition thrownBy (op : RemoteOperation) (w : World) : option Thrown :=
  match op with
  | ImageOp op => thrown (outcome (runOperation op) w)
  | GenerateImage prompt aspectRatio negativePrompt seed =>
      thrown (outcome (GeminiService.generateImage prompt aspectRatio negativePrompt seed) w)
  | GenerateProductDetails productImage =>
      thrown (outcome (GeminiService.generateProductDetails productImage) w)
  end.

Definition remoteWrapper (op : RemoteOperation) : option (string * string) :=
  match op with
  | ImageOp op => wrapperOf op
  | GenerateImage _ _ _ _ => None
  | GenerateProductDetails _ =>
      Some (GeminiService.detailsPrefix, GeminiService.detailsUnknown)
  end.

Definition remoteSelectionMade (op : RemoteOperation) : bool :=
  match op with
  | ImageOp op => selectionMade op
  | _ => true
  end.

(** [MalformedResponse] as the caller of [generateProductDetails] sees it. *)
Definition MalformedResponse : Thrown :=
  JsError (GeminiService.detailsPrefix ++ GeminiService.unreadableDetails).

(** ** Concrete inputs *)

(** A three-byte file of type [image/png]. *)
Definition pngFile : File.t :=
  {| File.name := "product.png"; File.type := "image/png";
     File.bytes := [Byte.x89; Byte.x50; Byte.x4e] |}.

(** A browser that reads every file into its data URL. *)
Definition browserRead (f : File.t) : option string :=
  Some (Base64.dataURL (File.type f) (File.bytes f)).

Definition imageBlob : Blob := {| data := "iVBORw0KGgo="; mimeType := "image/png" |}.

Definition imagePartOnly : GenerateContentResponse :=
  {| candidates :=
       Some [ {| content := Some {| parts :=
         Some [ {| inlineData := Some imageBlob; partText := None |} ] |} |} ];
     text := None |}.

(** A response whose first part is text and whose second part is the
    image. *)
Definition textThenImage : GenerateContentResponse :=
  {| candidates :=
       Some [ {| content := Some {| parts :=
         Some [ {| inlineData := None; partText := Some "Here is your image." |};
                {| inlineData := Some imageBlob; partText := None |} ] |} |} ];
     text := Some "Here is your image." |}.

(** A response with a single text part: no image. *)
Definition textOnly : GenerateContentResponse :=
  {| candidates :=
       Some [ {| content := Some {| parts :=
         Some [ {| inlineData := None; partText := Some "I cannot help with that." |} ] |} |} ];
     text := Some "I cannot help with that." |}.

Definition noImages : GenerateImagesResponse := {| generatedImages := None |}.

Definition answeringWorld (response : GenerateContentResponse) : World :=
  {| readAsDataURL := browserRead;
     generateContentApi := fun _ => Ok response;
     generateImagesApi := fun _ => Ok noImages |}.

Definition failingWorld (cause : Thrown) : World :=
  {| readAsDataURL := browserRead;
     generateContentApi := fun _ => Throw cause;
     generateImagesApi := fun _ => Throw cause |}.

Definition noSelection (additionalPrompt : option string) : GeminiService.CopyStyleOptions.t :=
  {| GeminiService.CopyStyleOptions.copyProductStyle := false;
     GeminiService.CopyStyleOptions.copyBackgroundStyle := false;
     GeminiService.CopyStyleOptions.isTransparent := false;
     GeminiService.CopyStyleOptions.prompt := additionalPrompt |}.

Definition productStyleOnly : GeminiService.CopyStyleOptions.t :=
  {| GeminiService.CopyStyleOptions.copyProductStyle := true;
     GeminiService.CopyStyleOptions.copyBackgroundStyle := false;
     GeminiService.CopyStyleOptions.isTransparent := false;
     GeminiService.CopyStyleOptions.prompt := None |}.

(** The third property as the specification words it: a lower-level failure
    with [cause] reaches the caller re-wrapped. *)
Definition failureRewrapped (op : RemoteOperation) (w : World) (cause : Thrown) : Prop :=
  exists raised, thrownBy op w = Some raised /\ rewrapped cause raised.

(** The shape [generateProductDetails] asks the service for: an object whose
    seven required properties are strings. *)
Definition isStringField (v : JSON.value) (key : string) : bool :=
  match JSON.field key v with
  | Some (JSON.JString _) => true
  | _ => false
  end.

Definition matchesShape (v : JSON.value) : bool :=
  match v with
  | JSON.JObject _ => forallb (isStringField v) GeminiService.productDetailFields
  | _ => false
  end.

Definition validAgainstShape (body : string) : bool :=
  match JSON.parse (trim body) with
  | Some v => matchesShape v
  | None => false
  end.

(** The ninth property as the specification words it: a body valid against
    the shape is returned as parsed, any other body is a
    [MalformedResponse]. *)
Definition describesAsSpecified (productImage : File.t) (w : World) (body : string)
  : Prop :=
  if validAgainstShape body then
    exists v, JSON.parse (trim body) = Some v /\
              outcome (GeminiService.generateProductDetails productImage) w = Ok v
  else
    outcome (GeminiService.generateProductDetails productImage) w = Throw MalformedResponse.

(** A response carrying [body] as its text. *)
Definition textResponse (body : string) : GenerateContentResponse :=
  {| candidates :=
       Some [ {| content := Some {| parts :=
         Some [ {| inlineData := None; partText := Some body |} ] |} |} ];
     text := Some body |}.

Definition quoted (s : string) : string := dquote ++ s ++ dquote.

(** The mocked body of the specification's end-to-end scenario. *)
Definition mockedDetails : string :=
  "{" ++ quoted "specifications" ++ ":" ++ quoted "..." ++ ","
      ++ quoted "usageInstructions" ++ ":" ++ quoted "..." ++ ","
      ++ quoted "compatibility" ++ ":" ++ quoted "..." ++ ","
      ++ quoted "maintenanceTips" ++ ":" ++ quoted "..." ++ ","
      ++ quoted "performanceMetrics" ++ ":" ++ quoted "..." ++ ","
      ++ quoted "warranty" ++ ":" ++ quoted "..." ++ ","
      ++ quoted "status" ++ ":" ++ quoted "..." ++ "}".

(** ** View states of the scenarios *)

Definition productPhoto : ImageFile :=
  {| file := pngFile; previewUrl := "blob:product" |}.

(** A Product Studio showing the result of an earlier run. *)
Definition studioShowingResult : ProductStudio.State :=
  {| ProductStudio.productImage := Some productPhoto;
     ProductStudio.backgroundPrompt := studioWhite;
     ProductStudio.userPresets := [];
     ProductStudio.isTransparent := false;
     ProductStudio.isLoading := false;
     ProductStudio.error := None;
     ProductStudio.resultImage := Some "iVBORw0KGgo=";
     ProductStudio.exportQuality := High;
     ProductStudio.aspectRatio := R16_9;
     ProductStudio.isDownloading := false |}.

(** An Image Editor showing the result of an earlier run. *)
Definition editorShowingResult : ImageEditor.State :=
  {| ImageEditor.sourceImage := Some productPhoto;
     ImageEditor.prompt := "Add a retro, vintage filter.";
     ImageEditor.isLoading := false;
     ImageEditor.error := None;
     ImageEditor.resultImage := Some "iVBORw0KGgo=" |}.

(** The second property as the specification words it, for the Product
    Studio: apart from the error message, the state after the handler is the
    state before it. *)
Definition leftAsBefore (before after : ProductStudio.State) : Prop :=
  ProductStudio.setError (ProductStudio.error before) after = before.

(** The response has no image in the place the operations look at. *)
Definition noImageIn (response : GenerateContentResponse) : Prop :=
  headInline response = None /\ partsMissing response = false.

Definition emptyStore : LocalStorage.t :=
  {| LocalStorage.items := ∅; LocalStorage.full := false |}.

(** [file.type.startsWith('image/')] *)
Definition isImage (f : File.t) : bool := startsWith "image/" (File.type f).

(** A sequence of additions through the dropzone of the Style Copier, each
    handled after the view has been rendered with the state the previous one
    left. *)
Fixpoint dropAll (createObjectURL : File.t -> string) (maxFiles : nat)
  (batches : list (option (list File.t))) (s : StyleCopier.State) : StyleCopier.State :=
  match batches with
  | [] => s
  | files :: rest =>
      dropAll createObjectURL maxFiles rest
        (StyleCopier.dropFiles createObjectURL maxFiles (StyleCopier.sourceImages s) files s)
  end.

Definition textFile : File.t :=
  {| File.name := "notes.txt"; File.type := "text/plain"; File.bytes := [Byte.x68; Byte.x69] |}.

(** The bound the dropzone keeps: at most [maxFiles] images and at most
    five, all of an image type. *)
Definition withinCap (maxFiles : nat) (images : list ImageFile) : Prop :=
  (length images <= maxFiles)%nat /\ (length images <= 5)%nat /\
  Forall (fun i => isImage (file i) = true) images.

(** ** Devices of the base64 round trip *)

(** The 6-bit values of a byte sequence, without padding. *)
Fixpoint sextetValues (bs : list Byte.byte) : list N :=
  match bs with
  | [] => []
  | [a] =>
      let a := Byte.to_N a in
      [a / 4; (a mod 4) * 16]
  | [a; b] =>
      let a := Byte.to_N a in
      let b := Byte.to_N b in
      [a / 4; (a mod 4) * 16 + b / 16; (b mod 16) * 4]
  | a :: b :: c :: rest =>
      let a := Byte.to_N a in
      let b := Byte.to_N b in
      let c := Byte.to_N c in
      a / 4 :: (a mod 4) * 16 + b / 16 :: (b mod 16) * 4 + c / 64 :: c mod 64
        :: sextetValues rest
  end%N.

(** What is checked of each of the 64 characters of the alphabet: it
    decodes to its index, and is neither white space, nor the padding
    character, nor a comma. *)
Definition goodSextet (k : nat) : bool :=
  let n := N.of_nat k in
  let c := Base64.sextetChar n in
  match Base64.charSextet c with
  | Some m => (m =? n)%N
  | None => false
  end
  && negb (Base64.isAsciiWhitespace c)
  && negb (Ascii.eqb c Base64.padChar)
  && negb (Ascii.eqb c ",").

(** A string [trim] leaves as it is. *)
Definition trimmed (s : string) : Prop := trim s = s.

(** ** Devices of the further properties *)

(** The files an operation reads, in the order it starts reading them. *)
Definition inputFiles (op : ImageOperation) : list File.t :=
  match op with
  | CompositeProductImage productImage _ _ _ => [productImage]
  | EditImageWithPrompt sourceImage _ => [sourceImage]
  | CopyProductStyle sourceImages targetImage _ => (sourceImages ++ [targetImage])%list
  | GenerateStyledBackground sourceImages _ => sourceImages
  | CompositeProductWithBackground targetImage backgroundImage _ sourceStyleImages =>
      (targetImage :: backgroundImage
         :: match sourceStyleImages with Some images => images | None => [] end)%list
  end.

(** The files whose encodings are the image parts of the request, in the
    order of the parts. *)
Definition partFiles (op : ImageOperation) : list File.t :=
  match op with
  | CompositeProductWithBackground targetImage backgroundImage _ sourceStyleImages =>
      (match sourceStyleImages with Some images => images | None => [] end
       ++ [targetImage; backgroundImage])%list
  | _ => inputFiles op
  end.

(** The text part of the request of an operation. *)
Definition promptOf (op : ImageOperation) : string :=
  match op with
  | CompositeProductImage _ backgroundPrompt isTransparent aspectRatio =>
      GeminiService.compositePrompt backgroundPrompt isTransparent
        (GeminiService.getCanvasDescription aspectRatio)
  | EditImageWithPrompt _ prompt => prompt
  | CopyProductStyle _ _ options =>
      GeminiService.copyStylePrompt
        (GeminiService.CopyStyleOptions.copyProductStyle options)
        (GeminiService.CopyStyleOptions.isTransparent options)
        (GeminiService.CopyStyleOptions.prompt options)
  | GenerateStyledBackground _ additionalPrompt =>
      GeminiService.styledBackgroundPrompt additionalPrompt
  | CompositeProductWithBackground _ _ copyProductStyle sourceStyleImages =>
      GeminiService.compositeWithBackgroundPrompt copyProductStyle sourceStyleImages
  end.

(** The one request of an operation, for the encodings world [w] gives. *)
Definition requestOf (w : World) (op : ImageOperation) : GenerateContentParameters :=
  {| model := GeminiService.imageModel;
     contents := (List.map (partOfFile w) (partFiles op) ++ [TextPart (promptOf op)])%list;
     config := ImageModality |}.

Definition readable (w : World) (f : File.t) : bool :=
  match readAsDataURL w f with Some _ => true | None => false end.

(** An event that is a call of the remote service. *)
Definition isCall (e : Event) : bool :=
  match e with
  | ReadFile _ => false
  | GenerateContent _ => true
  | GenerateImages _ => true
  end.

Definition remoteInputFiles (op : RemoteOperation) : list File.t :=
  match op with
  | ImageOp op => inputFiles op
  | GenerateImage _ _ _ _ => []
  | GenerateProductDetails productImage => [productImage]
  end.

Definition eventsOf (op : RemoteOperation) (w : World) : list Event :=
  match op with
  | ImageOp op => events (runOperation op) w
  | GenerateImage prompt aspectRatio negativePrompt seed =>
      events (GeminiService.generateImage prompt aspectRatio negativePrompt seed) w
  | GenerateProductDetails productImage =>
      events (GeminiService.generateProductDetails productImage) w
  end.

(** The message of the thrown value a failed file read rejects with. *)
Definition readFailure : Thrown := NonError "ProgressEvent".

(** The reads of an operation, as the groups it awaits one after the other:
    a group is one [await] of a file or of a [Promise.all] over files. *)
Definition readStages (op : ImageOperation) : list (list File.t) :=
  match op with
  | CompositeProductImage productImage _ _ _ => [[productImage]]
  | EditImageWithPrompt sourceImage _ => [[sourceImage]]
  | CopyProductStyle sourceImages targetImage _ => [sourceImages; [targetImage]]
  | GenerateStyledBackground sourceImages _ => [sourceImages]
  | CompositeProductWithBackground targetImage backgroundImage _ sourceStyleImages =>
      [[targetImage]; [backgroundImage];
       match sourceStyleImages with Some images => images | None => [] end]
  end.

(** The reads that are started: every file of a group, and the next group
    only when every file of the group was read. *)
Fixpoint startedReads (w : World) (stages : list (list File.t)) : list File.t :=
  match stages with
  | [] => []
  | stage :: rest =>
      (stage ++ if forallb (readable w) stage then startedReads w rest else [])%list
  end.

(** A world in which [unreadable] cannot be read and every other file is
    read as a browser reads it. *)
Definition worldWithout (unreadable : File.t -> bool)
  (response : GenerateContentResponse) : World :=
  {| readAsDataURL := fun f => if unreadable f then None else browserRead f;
     generateContentApi := fun _ => Ok response;
     generateImagesApi := fun _ => Ok noImages |}.

Definition isTextFile (f : File.t) : bool := String.eqb (File.type f) "text/plain".

Definition announcesStyleImages : string :=
  "The images are provided in this order: source style images, target product, then background.".

Definition announcesNoStyleImages : string :=
  "The images are provided in this order: target product, then background.".

(** What a user does with the presets of the Product Studio: types or picks
    a background description, saves it, deletes a preset. *)
Inductive PresetAction : Type :=
| TypePrompt (text : string)
| SavePreset
| DeletePreset (preset : string).

Definition presetStep (a : PresetAction) (c : ProductStudio.State * LocalStorage.t)
  : ProductStudio.State * LocalStorage.t :=
  match a with
  | TypePrompt text => (ProductStudio.setBackgroundPrompt text (fst c), snd c)
  | SavePreset => ProductStudio.handleSavePreset (fst c) (snd c)
  | DeletePreset preset => ProductStudio.handleDeletePreset preset (fst c) (snd c)
  end.

Definition presetRun (actions : list PresetAction)
  (c : ProductStudio.State * LocalStorage.t) : ProductStudio.State * LocalStorage.t :=
  fold_left (fun c a => presetStep a c) actions c.

(** The store holds the user presets of the state: their JSON under the
    fixed key, or no entry while there has been none to write. *)
Definition storeHolds (presets : list string) (store : LocalStorage.t) : Prop :=
  LocalStorage.full store = false /\
  (LocalStorage.getItem ProductStudio.USER_PRESETS_STORAGE_KEY store
   = Some (JSON.stringifyStrings presets)
   \/ (LocalStorage.getItem ProductStudio.USER_PRESETS_STORAGE_KEY store = None
       /\ presets = [])).

Definition builtinPrompts : list string :=
  List.map ProductStudio.prompt ProductStudio.BACKGROUND_PRESETS.

(** What the handlers keep true of the user presets: no string twice, and
    each one trimmed, not empty and not a built-in prompt. *)
Definition presetsTidy (presets : list string) : Prop :=
  List.NoDup presets /\
  Forall (fun p => trimmed p /\ truthy p = true /\ ~ In p builtinPrompts) presets.

(** What the Style Copier validates before it generates: at least one
    source image, a target image and one of the three options. *)
Definition copierValid (s : StyleCopier.State) : bool :=
  match StyleCopier.sourceImages s, StyleCopier.targetImage s with
  | _ :: _, Some _ =>
      StyleCopier.copyProductStyleToggle s || StyleCopier.copyBackgroundStyleToggle s
      || StyleCopier.isTransparent s
  | _, _ => false
  end.

(** The operation [handleInitialGenerate] starts on a valid state. *)
Definition initialOperation (s : StyleCopier.State) (target : ImageFile) : ImageOperation :=
  if StyleCopier.copyBackgroundStyleToggle s && negb (StyleCopier.isTransparent s) then
    GenerateStyledBackground (List.map file (StyleCopier.sourceImages s))
      (Some (StyleCopier.additionalPrompt s))
  else
    CopyProductStyle (List.map file (StyleCopier.sourceImages s)) (file target)
      {| GeminiService.CopyStyleOptions.copyProductStyle := StyleCopier.copyProductStyleToggle s;
         GeminiService.CopyStyleOptions.copyBackgroundStyle := false;
         GeminiService.CopyStyleOptions.isTransparent := StyleCopier.isTransparent s;
         GeminiService.CopyStyleOptions.prompt := Some (StyleCopier.additionalPrompt s) |}.

(** The style images [handleComposite] passes on: the source images when the
    product style is copied, none otherwise. *)
Definition compositeStyleImages (s : StyleCopier.State) : option (list File.t) :=
  if StyleCopier.copyProductStyleToggle s
  then Some (List.map file (StyleCopier.sourceImages s)) else None.

(** The file [handleComposite] makes of a background of the given bytes. *)
Definition backgroundFile (bytes : list Byte.byte) : File.t :=
  {| File.name := "background.png"; File.type := "image/png"; File.bytes := bytes |}.

(** A world whose file reads are those of a browser. *)
Definition browserReads (w : World) : Prop :=
  forall f, readAsDataURL w f = browserRead f.

(** What a user does in the Style Copier.  The controls are those the view
    renders: the dropzone of the source images (with the list [seen] it was
    last rendered with) and their remove buttons, the dropzone of the target
    image, the two toggles and the check box, which are disabled while the
    view is loading, the toggle of the background style also while the
    transparent background is checked, the field of the instructions, and
    the three handlers that await the service, each taken as one step. *)
Inductive CopierAction : Type :=
| AddSources (seen : list ImageFile) (files : option (list File.t))
| RemoveSource (index : nat)
| DropTargetFiles (files : option (list File.t))
| ClickProductToggle
| ClickBackgroundToggle
| ChangeTransparent (checked : bool)
| TypeInstructions (text : string)
| RunInitialGenerate (w : World)
| RunComposite (w : World)
| RunGenerateDetails (w : World).

Definition copierStep (createObjectURL : File.t -> string) (s : StyleCopier.State)
  (a : CopierAction) : StyleCopier.State :=
  match a with
  | AddSources seen files => StyleCopier.dropFiles createObjectURL 5 seen files s
  | RemoveSource index =>
      StyleCopier.setSourceImages
        (StyleCopier.handleSourceImageRemove index (StyleCopier.sourceImages s)) s
  | DropTargetFiles files => fst (StyleCopier.dropTarget createObjectURL files s)
  | ClickProductToggle =>
      if StyleCopier.isLoading s then s
      else StyleCopier.setCopyProductStyleToggle
             (negb (StyleCopier.copyProductStyleToggle s)) s
  | ClickBackgroundToggle =>
      if StyleCopier.isLoading s || StyleCopier.isTransparent s then s
      else StyleCopier.setCopyBackgroundStyleToggle
             (negb (StyleCopier.copyBackgroundStyleToggle s)) s
  | ChangeTransparent checked =>
      if StyleCopier.isLoading s then s else StyleCopier.changeTransparent checked s
  | TypeInstructions text =>
      if StyleCopier.isLoading s then s else StyleCopier.setAdditionalPrompt text s
  | RunInitialGenerate w => snd (StyleCopier.handleInitialGenerate s w)
  | RunComposite w => snd (StyleCopier.handleComposite s w)
  | RunGenerateDetails w => snd (StyleCopier.handleGenerateDetails s w)
  end.

Definition copierRun (createObjectURL : File.t -> string) (actions : list CopierAction)
  (s : StyleCopier.State) : StyleCopier.State :=
  fold_left (copierStep createObjectURL) actions s.

(** What the view keeps true of the inputs of its requests. *)
Definition copierTidy (s : StyleCopier.State) : Prop :=
  (length (StyleCopier.sourceImages s) <= 5)%nat /\
  Forall (fun i => isImage (file i) = true) (StyleCopier.sourceImages s) /\
  (forall target, StyleCopier.targetImage s = Some target -> isImage (file target) = true) /\
  StyleCopier.isTransparent s && StyleCopier.copyBackgroundStyleToggle s = false.

(** The fields the awaiting handlers only read. *)
Definition sameInputs (s s' : StyleCopier.State) : Prop :=
  StyleCopier.sourceImages s' = StyleCopier.sourceImages s /\
  StyleCopier.targetImage s' = StyleCopier.targetImage s /\
  StyleCopier.isTransparent s' = StyleCopier.isTransparent s /\
  StyleCopier.copyBackgroundStyleToggle s' = StyleCopier.copyBackgroundStyleToggle s /\
  StyleCopier.copyProductStyleToggle s' = StyleCopier.copyProductStyleToggle s /\
  StyleCopier.additionalPrompt s' = StyleCopier.additionalPrompt s.

(** * Properties *)

(** ** Canvas dimensions *)

Lemma Math_round_roundHalfUp (q : Q) : roundHalfUp q (Math_round q).
Proof.
  unfold roundHalfUp, Math_round.
  pose proof (Qfloor_le (q + (1 # 2))) as Hle.
  pose proof (Qlt_floor (q + (1 # 2))) as Hlt.
  rewrite inject_Z_plus in Hlt.
  split.
  - apply (Qplus_le_l _ _ (1 # 2)).
    setoid_replace (inject_Z (Qfloor (q + (1 # 2))) - (1 # 2) + (1 # 2))%Q
      with (inject_Z (Qfloor (q + (1 # 2)))) using relation Qeq by ring.
    exact Hle.
  - apply (Qplus_lt_l _ _ (1 # 2)).
    setoid_replace (inject_Z (Qfloor (q + (1 # 2))) + (1 # 2) + (1 # 2))%Q
      with (inject_Z (Qfloor (q + (1 # 2))) + inject_Z 1)%Q using relation Qeq by ring.
    exact Hlt.
Qed.

Lemma roundHalfUp_unique (q : Q) (r1 r2 : Z) :
  roundHalfUp q r1 -> roundHalfUp q r2 -> r1 = r2.
Proof.
  unfold roundHalfUp. intros [Hl1 Hu1] [Hl2 Hu2].
  assert (H12 : (inject_Z r1 - (1 # 2) < inject_Z r2 + (1 # 2))%Q)
    by (eapply Qle_lt_trans; eauto).
  assert (H21 : (inject_Z r2 - (1 # 2) < inject_Z r1 + (1 # 2))%Q)
    by (eapply Qle_lt_trans; eauto).
  unfold Qlt, Qminus, Qplus, Qopp, inject_Z in H12, H21. simpl in H12, H21.
  lia.
Qed.

(** The numbers the program reads from the string of a ratio are the
    numbers of the ratio. *)
Lemma ratioNumbers_parsed (r : AspectRatio) :
  List.map Number (split ":" (aspectRatioString r))
  = [Some (fst (ratioNumbers r)); Some (snd (ratioNumbers r))].
Proof. destruct r; reflexivity. Qed.

(** C4.  For each of the five aspect ratios and each quality tier
    (Standard 1024, High 1500, Maximum 1500), [getCanvasDimensions] returns
    width = resolution and height = round(resolution * h / w) when w >= h,
    and width = round(resolution * w / h) and height = resolution when w < h,
    where round is round-half-up. *)
Theorem getCanvasDimensions_spec (q : ExportQuality) (r : AspectRatio) :
  let res := FileUtils.resolution (FileUtils.QUALITY_PRESETS q) in
  let '(w, h) := ratioNumbers r in
  res = match q with Standard => 1024 | High => 1500 | Maximum => 1500 end%Z /\
  exists d, FileUtils.getCanvasDimensions res r = Some d /\
    if (w >=? h)%Z then
      FileUtils.width d = res /\
      roundHalfUp (inject_Z res * inject_Z h / inject_Z w) (FileUtils.height d)
    else
      roundHalfUp (inject_Z res * inject_Z w / inject_Z h) (FileUtils.width d) /\
      FileUtils.height d = res.
Proof.
  destruct q, r; cbn -[roundHalfUp Math_round Qdiv Qmult inject_Z];
    (split; [reflexivity|]); eexists; (split; [reflexivity|]);
    cbn -[roundHalfUp Math_round Qdiv Qmult inject_Z];
    (split; try reflexivity);
    unfold roundHalfUp; vm_compute; split; congruence.
Qed.

(** The pixel sizes the fifteen combinations give. *)
Lemma getCanvasDimensions_table :
  List.map (fun q => List.map (fun r =>
      FileUtils.getCanvasDimensions (FileUtils.resolution (FileUtils.QUALITY_PRESETS q)) r)
      ASPECT_RATIOS) QUALITIES
  = [ [ Some (FileUtils.Build_Dimensions 1024 1024); Some (FileUtils.Build_Dimensions 1024 576);
        Some (FileUtils.Build_Dimensions 576 1024); Some (FileUtils.Build_Dimensions 1024 768);
        Some (FileUtils.Build_Dimensions 768 1024) ];
      [ Some (FileUtils.Build_Dimensions 1500 1500); Some (FileUtils.Build_Dimensions 1500 844);
        Some (FileUtils.Build_Dimensions 844 1500); Some (FileUtils.Build_Dimensions 1500 1125);
        Some (FileUtils.Build_Dimensions 1125 1500) ];
      [ Some (FileUtils.Build_Dimensions 1500 1500); Some (FileUtils.Build_Dimensions 1500 844);
        Some (FileUtils.Build_Dimensions 844 1500); Some (FileUtils.Build_Dimensions 1500 1125);
        Some (FileUtils.Build_Dimensions 1125 1500) ] ]%Z.
Proof. vm_compute. reflexivity. Qed.

(** ** Running the operations *)

Lemma outcome_bind {A B} (m : M A) (k : A -> M B) (w : World) :
  outcome (bind m k) w =
  match outcome m w with
  | Ok a => outcome (k a) w
  | Throw e => Throw e
  end.
Proof.
  unfold outcome, bind. destruct (m w) as [t [a | e]]; simpl; [|reflexivity].
  destruct (k a w); reflexivity.
Qed.

Lemma events_bind {A B} (m : M A) (k : A -> M B) (w : World) :
  events (bind m k) w =
  match outcome m w with
  | Ok a => (events m w ++ events (k a) w)%list
  | Throw e => events m w
  end.
Proof.
  unfold events, outcome, bind. destruct (m w) as [t [a | e]]; simpl; [|reflexivity].
  destruct (k a w); reflexivity.
Qed.

Lemma outcome_tryCatch {A} (body : M A) (handler : Thrown -> M A) (w : World) :
  outcome (tryCatch body handler) w =
  match outcome body w with
  | Ok a => Ok a
  | Throw e => outcome (handler e) w
  end.
Proof.
  unfold outcome, tryCatch. destruct (body w) as [t [a | e]]; simpl; [reflexivity|].
  destruct (handler e w); reflexivity.
Qed.

Lemma outcome_rethrow {A} (prefix unknownMessage : string) (e : Thrown) (w : World) :
  outcome (@GeminiService.rethrow A prefix unknownMessage e) w =
  Throw (wrapWith (Some (prefix, unknownMessage)) e).
Proof. destruct e; reflexivity. Qed.

(** A [catch] block that rethrows wraps whatever its [try] block throws. *)
Lemma outcome_wrapped {A} (body : M A) (prefix unknownMessage : string) (w : World) :
  outcome (tryCatch body (GeminiService.rethrow prefix unknownMessage)) w =
  match outcome body w with
  | Ok a => Ok a
  | Throw e => Throw (wrapWith (Some (prefix, unknownMessage)) e)
  end.
Proof.
  rewrite outcome_tryCatch. destruct (outcome body w); [reflexivity|].
  apply outcome_rethrow.
Qed.

Lemma fileToGenerativePart_run (w : World) (f : File.t) :
  GeminiService.fileToGenerativePart f w =
  ([ReadFile f],
   match readAsDataURL w f with
   | Some _ => Ok (partOfFile w f)
   | None => Throw (NonError "ProgressEvent")
   end).
Proof.
  unfold GeminiService.fileToGenerativePart, fileToBase64, bind, readFile, ret, partOfFile.
  destruct (readAsDataURL w f); reflexivity.
Qed.

Section ReadableFiles.

Variable w : World.
Hypothesis Hr : readsSucceed w.

Lemma fileToGenerativePart_ok (f : File.t) :
  outcome (GeminiService.fileToGenerativePart f) w = Ok (partOfFile w f).
Proof.
  unfold outcome. rewrite fileToGenerativePart_run. simpl.
  specialize (Hr f). destruct (readAsDataURL w f); [reflexivity|congruence].
Qed.

Lemma promiseAllMap_run (l : list File.t) :
  promiseAllMap GeminiService.fileToGenerativePart l w =
  (List.map ReadFile l, Ok (List.map (partOfFile w) l)).
Proof.
  induction l as [|f l IH]; [reflexivity|].
  cbn [promiseAllMap]. rewrite fileToGenerativePart_run, IH.
  specialize (Hr f). destruct (readAsDataURL w f); [reflexivity|congruence].
Qed.

Lemma promiseAllMap_ok (l : list File.t) :
  outcome (promiseAllMap GeminiService.fileToGenerativePart l) w =
  Ok (List.map (partOfFile w) l).
Proof. unfold outcome. rewrite promiseAllMap_run. reflexivity. Qed.

End ReadableFiles.

Lemma outcome_generateContent (w : World) (request : GenerateContentParameters) :
  outcome (generateContent request) w = generateContentApi w request.
Proof. reflexivity. Qed.

(** What the closing lines of an image operation settle with. *)
Lemma outcome_returnInlineData (response : GenerateContentResponse) (msg : string)
  (w : World) :
  outcome (GeminiService.returnInlineData response msg) w =
  match GeminiService.firstPart response with
  | Throw e => Throw e
  | Ok (Some p) =>
      match inlineData p with
      | Some blob => Ok (data blob)
      | None => Throw (JsError msg)
      end
  | Ok None => Throw (JsError msg)
  end.
Proof.
  unfold GeminiService.returnInlineData.
  destruct (GeminiService.firstPart response) as [[p|]|e]; try reflexivity.
  destruct (inlineData p); reflexivity.
Qed.

Ltac by_extraction response :=
  let p := fresh "p" in
  let e := fresh "e" in
  destruct (GeminiService.firstPart response) as [[p|]|e];
  try reflexivity; destruct (inlineData p); reflexivity.

(** With readable files and a service that answers, an operation settles
    with the extraction from the response, passed through its wrapper. *)
Lemma runOperation_answered (op : ImageOperation) (w : World)
  (response : GenerateContentResponse) :
  selectionMade op = true -> readsSucceed w -> answers w response ->
  outcome (runOperation op) w =
  match extraction response (noImageMessage op) with
  | Ok d => Ok d
  | Throw e => Throw (wrapWith (wrapperOf op) e)
  end.
Proof.
  intros Hsel Hr Ha. unfold extraction.
  destruct op as [f bg t r | f pr | srcs tgt o | srcs ap | tgt bgi cps ssi]; cbn [runOperation].
  - unfold GeminiService.compositeProductImage.
    rewrite outcome_bind, fileToGenerativePart_ok by assumption.
    rewrite outcome_bind, outcome_generateContent, Ha, outcome_returnInlineData.
    cbn [wrapperOf wrapWith noImageMessage].
    by_extraction response.
  - unfold GeminiService.editImageWithPrompt.
    rewrite outcome_bind, fileToGenerativePart_ok by assumption.
    rewrite outcome_bind, outcome_generateContent, Ha, outcome_returnInlineData.
    cbn [wrapperOf wrapWith noImageMessage].
    by_extraction response.
  - unfold GeminiService.copyProductStyle.
    cbn [selectionMade] in Hsel.
    destruct (GeminiService.CopyStyleOptions.copyProductStyle o),
             (GeminiService.CopyStyleOptions.copyBackgroundStyle o),
             (GeminiService.CopyStyleOptions.isTransparent o);
      try discriminate Hsel; cbn [negb andb];
      rewrite outcome_wrapped, outcome_bind, promiseAllMap_ok by assumption;
      rewrite outcome_bind, fileToGenerativePart_ok by assumption;
      rewrite outcome_bind, outcome_generateContent, Ha, outcome_returnInlineData;
      cbn [wrapperOf noImageMessage];
      by_extraction response.
  - unfold GeminiService.generateStyledBackground.
    rewrite outcome_wrapped, outcome_bind, promiseAllMap_ok by assumption.
    rewrite outcome_bind, outcome_generateContent, Ha, outcome_returnInlineData.
    cbn [wrapperOf noImageMessage].
    by_extraction response.
  - unfold GeminiService.compositeProductWithBackground.
    rewrite outcome_wrapped, outcome_bind, fileToGenerativePart_ok by assumption.
    rewrite outcome_bind, fileToGenerativePart_ok by assumption.
    rewrite outcome_bind.
    assert (Hs : exists ps,
      outcome (match ssi with
               | Some images => promiseAllMap GeminiService.fileToGenerativePart images
               | None => ret []
               end) w = Ok ps).
    { destruct ssi; [rewrite promiseAllMap_ok by assumption|]; eexists; reflexivity. }
    destruct Hs as [ps ->].
    rewrite outcome_bind, outcome_generateContent, Ha, outcome_returnInlineData.
    cbn [wrapperOf noImageMessage].
    by_extraction response.
Qed.

Lemma string_app_inv_head (p a b : string) : p ++ a = p ++ b -> a = b.
Proof. induction p as [|c p IH]; simpl; intros H; [assumption|]. injection H. auto. Qed.

Lemma wrapWith_message_injective (wrapper : option (string * string)) (m1 m2 : string) :
  wrapWith wrapper (JsError m1) = wrapWith wrapper (JsError m2) -> m1 = m2.
Proof.
  destruct wrapper as [[prefix unknownMessage]|]; simpl; intros H; injection H.
  - apply string_app_inv_head.
  - auto.
Qed.

(** [firstPart] in terms of the structure of the response. *)
Lemma firstPart_structure (response : GenerateContentResponse) :
  GeminiService.firstPart response =
  if partsMissing response then Throw (JsError GeminiService.typeErrorMessage)
  else Ok (head (firstCandidateParts response)).
Proof.
  unfold GeminiService.firstPart, partsMissing, firstCandidateParts.
  destruct (candidates response) as [[|c cs]|]; try reflexivity. simpl.
  destruct (content c) as [ct|]; try reflexivity.
  destruct (parts ct) as [[|p ps]|]; reflexivity.
Qed.

Lemma typeError_is_not_noImage (op : ImageOperation) :
  GeminiService.typeErrorMessage <> noImageMessage op.
Proof. destruct op; discriminate. Qed.

Lemma partsMissing_no_parts (response : GenerateContentResponse) :
  partsMissing response = true -> firstCandidateParts response = [].
Proof.
  unfold partsMissing, firstCandidateParts.
  destruct (candidates response) as [[|c cs]|]; try discriminate.
  destruct (content c) as [ct|]; try discriminate.
  destruct (parts ct); [discriminate|reflexivity].
Qed.

(** C1 (amended).  With readable files and a service that answers, each of
    the five image operations returns the inline image bytes of the first
    part of the first candidate exactly when that part carries inline data,
    and fails with its [NoImageReturned] error exactly when the first
    candidate is missing, has no content, or has a parts array that is empty
    or starts with a part without inline data. *)
Theorem operation_returns_first_part (op : ImageOperation) (w : World)
  (response : GenerateContentResponse) :
  selectionMade op = true -> readsSucceed w -> answers w response ->
  (forall d, outcome (runOperation op) w = Ok d <-> headInline response = Some d) /\
  (outcome (runOperation op) w = Throw (NoImageReturned op) <->
   headInline response = None /\ partsMissing response = false).
Proof.
  intros Hsel Hr Ha. rewrite (runOperation_answered op w response Hsel Hr Ha).
  unfold extraction, headInline, NoImageReturned. rewrite firstPart_structure.
  pose proof (typeError_is_not_noImage op) as Hne.
  destruct (partsMissing response) eqn:Hm.
  - rewrite (partsMissing_no_parts _ Hm). split.
    + intros d; split; discriminate.
    + split.
      * intros H. injection H as H. apply wrapWith_message_injective in H. contradiction.
      * intros [_ H]; discriminate.
  - destruct (firstCandidateParts response) as [|p ps]; cbn [head].
    + split; [intros d; split; discriminate|]. split; auto.
    + destruct (inlineData p) as [blob|]; cbn [option_map].
      * split.
        -- intros d; split; intros H; injection H as ->; reflexivity.
        -- split; [discriminate|intros [H _]; discriminate].
      * split; [intros d; split; discriminate|]. split; auto.
Qed.

Lemma operation_returns_first_part_witness :
  selectionMade (CopyProductStyle [pngFile] pngFile productStyleOnly) = true /\
  readsSucceed (answeringWorld imagePartOnly) /\
  answers (answeringWorld imagePartOnly) imagePartOnly /\
  (forall d, outcome (runOperation (CopyProductStyle [pngFile] pngFile productStyleOnly))
                     (answeringWorld imagePartOnly) = Ok d <->
             headInline imagePartOnly = Some d) /\
  (outcome (runOperation (CopyProductStyle [pngFile] pngFile productStyleOnly))
           (answeringWorld imagePartOnly)
   = Throw (NoImageReturned (CopyProductStyle [pngFile] pngFile productStyleOnly)) <->
   headInline imagePartOnly = None /\ partsMissing imagePartOnly = false).
Proof.
  assert (Hr : readsSucceed (answeringWorld imagePartOnly)) by (intros f; discriminate).
  assert (Ha : answers (answeringWorld imagePartOnly) imagePartOnly)
    by (intros request; reflexivity).
  split; [reflexivity|]. split; [exact Hr|]. split; [exact Ha|].
  exact (operation_returns_first_part
           (CopyProductStyle [pngFile] pngFile productStyleOnly)
           (answeringWorld imagePartOnly) imagePartOnly eq_refl Hr Ha).
Defined.

(** C1, as the specification words it, fails: when the first part of the
    response is text and the image comes second, [compositeProductImage]
    raises its no-image error although scanning the parts finds an image. *)
Lemma first_inline_image_not_returned :
  ~ returnsFirstInlineImage (CompositeProductImage pngFile studioWhite false R16_9)
      (answeringWorld textThenImage) textThenImage.
Proof.
  intros [H _]. specialize (H "iVBORw0KGgo=" eq_refl).
  vm_compute in H. discriminate H.
Qed.

(** What the code does on that response. *)
Example composite_on_textThenImage :
  outcome (GeminiService.compositeProductImage pngFile studioWhite false R16_9)
          (answeringWorld textThenImage)
  = Throw (JsError "No image data received from API.") /\
  firstInlineImage (firstCandidateParts textThenImage) = Some "iVBORw0KGgo=".
Proof. split; vm_compute; reflexivity. Qed.

(** C6.  Called with [copyProductStyle], [copyBackgroundStyle] and
    [isTransparent] all false, [copyProductStyle] fails with the
    invalid-selection error (unwrapped) and has started no effect: no file
    has been read for encoding and no request has been sent. *)
Theorem copyProductStyle_invalid_selection (w : World) (sourceImages : list File.t)
  (targetImage : File.t) (options : GeminiService.CopyStyleOptions.t) :
  GeminiService.CopyStyleOptions.copyProductStyle options = false ->
  GeminiService.CopyStyleOptions.copyBackgroundStyle options = false ->
  GeminiService.CopyStyleOptions.isTransparent options = false ->
  outcome (GeminiService.copyProductStyle sourceImages targetImage options) w
  = Throw (JsError "At least one copy option or transparent background must be selected.") /\
  events (GeminiService.copyProductStyle sourceImages targetImage options) w = [].
Proof.
  intros H1 H2 H3. unfold outcome, events, GeminiService.copyProductStyle.
  rewrite H1, H2, H3. split; reflexivity.
Qed.

Lemma copyProductStyle_invalid_selection_witness :
  GeminiService.CopyStyleOptions.copyProductStyle (noSelection (Some "brighter")) = false /\
  GeminiService.CopyStyleOptions.copyBackgroundStyle (noSelection (Some "brighter")) = false /\
  GeminiService.CopyStyleOptions.isTransparent (noSelection (Some "brighter")) = false /\
  outcome (GeminiService.copyProductStyle [pngFile] pngFile (noSelection (Some "brighter")))
          (answeringWorld imagePartOnly)
  = Throw (JsError "At least one copy option or transparent background must be selected.") /\
  events (GeminiService.copyProductStyle [pngFile] pngFile (noSelection (Some "brighter")))
         (answeringWorld imagePartOnly) = [].
Proof.
  split; [reflexivity|]. split; [reflexivity|]. split; [reflexivity|].
  apply (copyProductStyle_invalid_selection (answeringWorld imagePartOnly) [pngFile]
           pngFile (noSelection (Some "brighter"))); reflexivity.
Defined.

(** With a selection made, the operation does read the files and send the
    request: the guard is what keeps the effects from starting. *)
Example copyProductStyle_with_selection_effects :
  List.length (events (GeminiService.copyProductStyle [pngFile] pngFile productStyleOnly)
                      (answeringWorld imagePartOnly)) = 3%nat.
Proof. vm_compute. reflexivity. Qed.

Lemma events_fileToGenerativePart (w : World) (f : File.t) :
  events (GeminiService.fileToGenerativePart f) w = [ReadFile f].
Proof. unfold events. rewrite fileToGenerativePart_run. reflexivity. Qed.

Lemma outcome_fileToGenerativePart (w : World) (f : File.t) :
  outcome (GeminiService.fileToGenerativePart f) w =
  match readAsDataURL w f with
  | Some _ => Ok (partOfFile w f)
  | None => Throw (NonError "ProgressEvent")
  end.
Proof. unfold outcome. rewrite fileToGenerativePart_run. reflexivity. Qed.

Lemma events_generateContent (w : World) (request : GenerateContentParameters) :
  events (generateContent request) w = [GenerateContent request].
Proof. reflexivity. Qed.

Lemma events_returnInlineData (response : GenerateContentResponse) (msg : string)
  (w : World) :
  events (GeminiService.returnInlineData response msg) w = [].
Proof.
  unfold GeminiService.returnInlineData.
  destruct (GeminiService.firstPart response) as [[p|]|e]; try reflexivity.
  destruct (inlineData p); reflexivity.
Qed.

(** C8.  For aspect ratio 16:9, a non-transparent background and the
    background text of the "Studio White" preset, the prompt
    [compositeProductImage] assembles contains the five steps (isolate,
    create background, composite, integrate, add shadow) in that order, the
    quoted background text, and the canvas phrase "1500 pixel wide landscape
    canvas with a 16:9 aspect ratio"; it is the text part of the one request
    the operation sends once the product image has been read. *)
Theorem composite_prompt_scenario :
  let prompt :=
    GeminiService.compositePrompt studioWhite false
      (GeminiService.getCanvasDescription R16_9) in
  includesInOrder fiveSteps prompt = true /\
  includes canvasPhrase prompt = true /\
  includes (dquote ++ studioWhite ++ dquote) prompt = true /\
  forall (w : World) (productImage : File.t),
    events (GeminiService.compositeProductImage productImage studioWhite false R16_9) w =
    match readAsDataURL w productImage with
    | Some _ =>
        [ReadFile productImage;
         GenerateContent {| model := "gemini-2.5-flash-image";
                            contents := [partOfFile w productImage; TextPart prompt];
                            config := ImageModality |}]
    | None => [ReadFile productImage]
    end.
Proof.
  intros prompt. split; [vm_compute; reflexivity|].
  split; [vm_compute; reflexivity|]. split; [vm_compute; reflexivity|].
  intros w productImage. unfold GeminiService.compositeProductImage.
  rewrite events_bind, events_fileToGenerativePart, outcome_fileToGenerativePart.
  destruct (readAsDataURL w productImage) as [url|]; [|reflexivity].
  rewrite events_bind, outcome_generateContent, events_generateContent.
  destruct (generateContentApi w _); [|reflexivity].
  rewrite events_returnInlineData. reflexivity.
Qed.

(** ** Failures and their wrappers *)

Lemma runOperation_remote_fails (op : ImageOperation) (w : World) (cause : Thrown) :
  selectionMade op = true -> readsSucceed w -> remoteFails w cause ->
  outcome (runOperation op) w = Throw (wrapWith (wrapperOf op) cause).
Proof.
  intros Hsel Hr [Hf _].
  destruct op as [f bg t r | f pr | srcs tgt o | srcs ap | tgt bgi cps ssi]; cbn [runOperation].
  - unfold GeminiService.compositeProductImage.
    rewrite outcome_bind, fileToGenerativePart_ok by assumption.
    rewrite outcome_bind, outcome_generateContent, Hf. reflexivity.
  - unfold GeminiService.editImageWithPrompt.
    rewrite outcome_bind, fileToGenerativePart_ok by assumption.
    rewrite outcome_bind, outcome_generateContent, Hf. reflexivity.
  - unfold GeminiService.copyProductStyle.
    cbn [selectionMade] in Hsel.
    destruct (GeminiService.CopyStyleOptions.copyProductStyle o),
             (GeminiService.CopyStyleOptions.copyBackgroundStyle o),
             (GeminiService.CopyStyleOptions.isTransparent o);
      try discriminate Hsel; cbn [negb andb];
      rewrite outcome_wrapped, outcome_bind, promiseAllMap_ok by assumption;
      rewrite outcome_bind, fileToGenerativePart_ok by assumption;
      rewrite outcome_bind, outcome_generateContent, Hf; reflexivity.
  - unfold GeminiService.generateStyledBackground.
    rewrite outcome_wrapped, outcome_bind, promiseAllMap_ok by assumption.
    rewrite outcome_bind, outcome_generateContent, Hf. reflexivity.
  - unfold GeminiService.compositeProductWithBackground.
    rewrite outcome_wrapped, outcome_bind, fileToGenerativePart_ok by assumption.
    rewrite outcome_bind, fileToGenerativePart_ok by assumption.
    rewrite outcome_bind.
    assert (Hs : exists ps,
      outcome (match ssi with
               | Some images => promiseAllMap GeminiService.fileToGenerativePart images
               | None => ret []
               end) w = Ok ps).
    { destruct ssi; [rewrite promiseAllMap_ok by assumption|]; eexists; reflexivity. }
    destruct Hs as [ps ->].
    rewrite outcome_bind, outcome_generateContent, Hf. reflexivity.
Qed.

Lemma generateImage_remote_fails (w : World) (cause : Thrown) (prompt : string)
  (aspectRatio : AspectRatio) (negativePrompt : option string) (seed : option Z) :
  remoteFails w cause ->
  outcome (GeminiService.generateImage prompt aspectRatio negativePrompt seed) w
  = Throw cause.
Proof.
  intros [_ Hf]. unfold GeminiService.generateImage.
  rewrite outcome_bind. unfold outcome at 1. cbn [generateImages snd].
  rewrite Hf. reflexivity.
Qed.

Lemma generateProductDetails_remote_fails (w : World) (cause : Thrown)
  (productImage : File.t) :
  readsSucceed w -> remoteFails w cause ->
  outcome (GeminiService.generateProductDetails productImage) w
  = Throw (wrapWith (Some (GeminiService.detailsPrefix, GeminiService.detailsUnknown)) cause).
Proof.
  intros Hr [Hf _]. unfold GeminiService.generateProductDetails.
  rewrite outcome_wrapped, outcome_bind, fileToGenerativePart_ok by assumption.
  rewrite outcome_bind, outcome_generateContent, Hf. reflexivity.
Qed.

(** Whatever the world, what an operation throws has been through its
    wrapper. *)
Lemma thrown_through_wrapper (op : RemoteOperation) (w : World) (raised : Thrown) :
  remoteSelectionMade op = true ->
  thrownBy op w = Some raised ->
  exists inner, raised = wrapWith (remoteWrapper op) inner.
Proof.
  intros Hsel H.
  assert (Hw : forall A (body : M A) prefix unknownMessage,
    thrown (outcome (tryCatch body (GeminiService.rethrow prefix unknownMessage)) w)
    = Some raised ->
    exists inner, raised = wrapWith (Some (prefix, unknownMessage)) inner).
  { intros A body prefix unknownMessage. rewrite outcome_wrapped.
    destruct (outcome body w) as [a|e]; [discriminate|].
    intros E. injection E as <-. eexists; reflexivity. }
  destruct op as [[f bg t r | f pr | srcs tgt o | srcs ap | tgt bgi cps ssi] | p r n s | f];
    cbn [thrownBy runOperation remoteWrapper wrapperOf] in *;
    try (exists raised; reflexivity); try (eapply Hw; exact H).
  unfold GeminiService.copyProductStyle in H. cbn [remoteSelectionMade selectionMade] in Hsel.
  destruct (GeminiService.CopyStyleOptions.copyProductStyle o),
           (GeminiService.CopyStyleOptions.copyBackgroundStyle o),
           (GeminiService.CopyStyleOptions.isTransparent o);
    try discriminate Hsel; cbn [negb andb] in H; eapply Hw; exact H.
Qed.

Lemma wrapper_prefix_nonempty (op : RemoteOperation) (prefix unknownMessage : string) :
  remoteWrapper op = Some (prefix, unknownMessage) -> prefix <> EmptyString.
Proof.
  destruct op as [[| | | |]| |]; cbn; intros H; try discriminate H;
    injection H as <- _; discriminate.
Qed.

Lemma wrapped_error_is_not_unknown (op : RemoteOperation) (m d : string) :
  wrapWith (remoteWrapper op) (JsError m) <> wrapWith (remoteWrapper op) (NonError d).
Proof. destruct op as [[| | | |]| |]; cbn; discriminate. Qed.

(** C3 (amended).  [copyProductStyle], [generateStyledBackground],
    [compositeProductWithBackground] and [generateProductDetails] have a
    [catch] block: whatever is thrown inside their [try] block reaches the
    caller as a new [Error] whose message is the task prefix followed by the
    message of the cause, or the task's fixed message when the cause is not
    an [Error]; causes with different messages stay different after the
    wrapping, and differ from the fixed message.  [compositeProductImage],
    [editImageWithPrompt] and [generateImage] have no [catch] block and let
    the cause through unchanged.  In particular a failure of the remote call
    reaches the caller as [wrapWith (remoteWrapper op) cause]. *)
Theorem failures_pass_through_wrapper (op : RemoteOperation) (w : World)
  (cause : Thrown) :
  remoteSelectionMade op = true -> readsSucceed w -> remoteFails w cause ->
  thrownBy op w = Some (wrapWith (remoteWrapper op) cause) /\
  (remoteWrapper op <> None -> rewrapped cause (wrapWith (remoteWrapper op) cause)) /\
  (forall w' raised, thrownBy op w' = Some raised ->
     exists inner, raised = wrapWith (remoteWrapper op) inner) /\
  (forall m1 m2, wrapWith (remoteWrapper op) (JsError m1)
                 = wrapWith (remoteWrapper op) (JsError m2) -> m1 = m2) /\
  (forall m d, wrapWith (remoteWrapper op) (JsError m)
               <> wrapWith (remoteWrapper op) (NonError d)).
Proof.
  intros Hsel Hr Hf. split; [|split; [|split; [|split]]].
  - destruct op as [op | p r n s | f]; cbn [thrownBy remoteWrapper].
    + rewrite (runOperation_remote_fails op w cause) by assumption. reflexivity.
    + rewrite (generateImage_remote_fails w cause) by assumption. reflexivity.
    + rewrite (generateProductDetails_remote_fails w cause) by assumption. reflexivity.
  - intros Hw. destruct (remoteWrapper op) as [[prefix unknownMessage]|] eqn:E;
      [|congruence].
    pose proof (wrapper_prefix_nonempty op prefix unknownMessage E) as Hne.
    destruct cause as [m|d]; cbn.
    + exists prefix. split; [assumption|reflexivity].
    + eexists; reflexivity.
  - intros w' raised. apply thrown_through_wrapper. assumption.
  - intros m1 m2. apply wrapWith_message_injective.
  - apply wrapped_error_is_not_unknown.
Qed.

Lemma failures_pass_through_wrapper_witness :
  remoteSelectionMade (GenerateProductDetails pngFile) = true /\
  readsSucceed (failingWorld (JsError "Failed to fetch")) /\
  remoteFails (failingWorld (JsError "Failed to fetch")) (JsError "Failed to fetch") /\
  thrownBy (GenerateProductDetails pngFile) (failingWorld (JsError "Failed to fetch"))
  = Some (JsError "Failed to generate details: Failed to fetch").
Proof.
  assert (Hr : readsSucceed (failingWorld (JsError "Failed to fetch")))
    by (intros f; discriminate).
  assert (Hf : remoteFails (failingWorld (JsError "Failed to fetch"))
                 (JsError "Failed to fetch"))
    by (split; intros request; reflexivity).
  split; [reflexivity|]. split; [exact Hr|]. split; [exact Hf|].
  exact (proj1 (failures_pass_through_wrapper (GenerateProductDetails pngFile)
                  (failingWorld (JsError "Failed to fetch")) (JsError "Failed to fetch")
                  eq_refl Hr Hf)).
Defined.

Lemma string_length_app (a b : string) :
  String.length (a ++ b) = (String.length a + String.length b)%nat.
Proof. induction a as [|c a IH]; simpl; [reflexivity|]. rewrite IH. reflexivity. Qed.

Lemma no_proper_prefix (p s : string) : s = p ++ s -> p = EmptyString.
Proof.
  intros H. apply (f_equal String.length) in H. rewrite string_length_app in H.
  destruct p; [reflexivity|]. simpl in H. lia.
Qed.

(** C3, as the specification words it, fails: [compositeProductImage] has no
    [catch] block, so a transport failure reaches the caller as it is, with
    no task prefix. *)
Lemma transport_failure_not_rewrapped :
  ~ failureRewrapped (ImageOp (CompositeProductImage pngFile studioWhite false R16_9))
      (failingWorld (JsError "Failed to fetch")) (JsError "Failed to fetch").
Proof.
  intros [raised [H [prefix [Hne Heq]]]].
  vm_compute in H. injection H as <-.
  injection Heq as Heq. apply no_proper_prefix in Heq. contradiction.
Qed.

(** The specific kinds after the wrapper of [copyProductStyle]: the no-image
    error, a transport [Error], and a thrown value that is not an [Error]
    give three different messages. *)
Example copyProductStyle_kinds_stay_apart :
  outcome (GeminiService.copyProductStyle [pngFile] pngFile productStyleOnly)
          (answeringWorld textOnly)
  = Throw (JsError "Image processing failed: The AI service did not return an image. This might be due to a content safety policy. Please try a different image or prompt.") /\
  outcome (GeminiService.copyProductStyle [pngFile] pngFile productStyleOnly)
          (failingWorld (JsError "Failed to fetch"))
  = Throw (JsError "Image processing failed: Failed to fetch") /\
  outcome (GeminiService.copyProductStyle [pngFile] pngFile productStyleOnly)
          (failingWorld (NonError "timeout"))
  = Throw (JsError "An unknown network or API error occurred.").
Proof. repeat split; vm_compute; reflexivity. Qed.

(** ** [generateProductDetails] *)

Lemma parse_empty : JSON.parse EmptyString = None.
Proof. reflexivity. Qed.

Lemma falsy_is_empty (s : string) : truthy s = false -> s = EmptyString.
Proof. destruct s; [reflexivity|discriminate]. Qed.

(** C9 (amended).  With a readable product image and a service that
    answers, [generateProductDetails] returns the value [JSON.parse] reads
    from the trimmed response text, as it is and whatever its shape, so a
    body with the seven string fields yields a record with those fields
    verbatim; it fails with [MalformedResponse] exactly when the text is
    missing, empty after trimming, or not valid JSON. *)
Theorem generateProductDetails_parses (w : World) (productImage : File.t)
  (response : GenerateContentResponse) :
  readsSucceed w -> answers w response ->
  outcome (GeminiService.generateProductDetails productImage) w =
  match text response with
  | Some body =>
      match JSON.parse (trim body) with
      | Some v => Ok v
      | None => Throw MalformedResponse
      end
  | None => Throw MalformedResponse
  end.
Proof.
  intros Hr Ha. unfold GeminiService.generateProductDetails.
  rewrite outcome_wrapped, outcome_bind, fileToGenerativePart_ok by assumption.
  rewrite outcome_bind, outcome_generateContent, Ha, outcome_tryCatch.
  destruct (text response) as [body|]; [|reflexivity].
  destruct (truthy (trim body)) eqn:Ht; cbn [negb].
  - destruct (JSON.parse (trim body)); reflexivity.
  - rewrite (falsy_is_empty _ Ht), parse_empty. reflexivity.
Qed.

Lemma generateProductDetails_parses_witness :
  readsSucceed (answeringWorld (textResponse mockedDetails)) /\
  answers (answeringWorld (textResponse mockedDetails)) (textResponse mockedDetails) /\
  exists v,
    outcome (GeminiService.generateProductDetails pngFile)
            (answeringWorld (textResponse mockedDetails)) = Ok v /\
    List.map (fun key => JSON.field key v) GeminiService.productDetailFields
    = List.repeat (Some (JSON.JString "...")) 7.
Proof.
  assert (Hr : readsSucceed (answeringWorld (textResponse mockedDetails)))
    by (intros f; discriminate).
  assert (Ha : answers (answeringWorld (textResponse mockedDetails))
                 (textResponse mockedDetails))
    by (intros request; reflexivity).
  split; [exact Hr|]. split; [exact Ha|].
  rewrite (generateProductDetails_parses _ pngFile _ Hr Ha).
  eexists. split; vm_compute; reflexivity.
Defined.

(** The two bodies of the specification's scenario, and a body that is not
    JSON. *)
Example details_of_empty_body :
  outcome (GeminiService.generateProductDetails pngFile)
          (answeringWorld (textResponse EmptyString))
  = Throw (JsError "Failed to generate details: Could not read the product details from the AI. The format might be incorrect.").
Proof. vm_compute. reflexivity. Qed.

Example details_of_blank_body :
  outcome (GeminiService.generateProductDetails pngFile)
          (answeringWorld (textResponse "   "))
  = Throw MalformedResponse.
Proof. vm_compute. reflexivity. Qed.

Example details_of_broken_body :
  outcome (GeminiService.generateProductDetails pngFile)
          (answeringWorld (textResponse "{specifications: none}"))
  = Throw MalformedResponse.
Proof. vm_compute. reflexivity. Qed.

(** C9, as the specification words it, fails: the body [{}] is valid JSON
    that does not have the seven fields, and it is returned as it is, not
    rejected as malformed. *)
Lemma wrong_shape_not_rejected :
  ~ describesAsSpecified pngFile (answeringWorld (textResponse "{}")) "{}".
Proof.
  unfold describesAsSpecified.
  replace (validAgainstShape "{}") with false by (vm_compute; reflexivity).
  intros H. vm_compute in H. discriminate H.
Qed.

Example details_of_wrong_shape :
  outcome (GeminiService.generateProductDetails pngFile)
          (answeringWorld (textResponse "{}"))
  = Ok (JSON.JObject []) /\
  matchesShape (JSON.JObject []) = false.
Proof. split; vm_compute; reflexivity. Qed.

(** ** The views on a response without an image *)

Lemma runOperation_no_image (op : ImageOperation) (w : World)
  (response : GenerateContentResponse) :
  selectionMade op = true -> readsSucceed w -> answers w response ->
  noImageIn response ->
  outcome (runOperation op) w = Throw (NoImageReturned op).
Proof.
  intros Hsel Hr Ha [Hh Hm].
  rewrite (runOperation_answered op w response Hsel Hr Ha).
  unfold extraction. rewrite firstPart_structure, Hm.
  unfold headInline in Hh.
  destruct (firstCandidateParts response) as [|p ps]; cbn [head]; [reflexivity|].
  destruct (inlineData p); [discriminate Hh|reflexivity].
Qed.

(** A run whose outcome is known, split into its two components. *)
Lemma run_with_outcome {A} (m : M A) (w : World) (o : Outcome A) :
  outcome m w = o -> m w = (events m w, o).
Proof. unfold outcome, events. intros <-. destruct (m w); reflexivity. Qed.

Ltac settle_no_image op w response Hr Ha Hn :=
  let E := fresh "E" in
  pose proof (run_with_outcome _ w _
                (runOperation_no_image op w response eq_refl Hr Ha Hn)) as E;
  cbn [runOperation] in E; rewrite E; clear E.

Lemma studio_submit_no_image (w : World) (response : GenerateContentResponse)
  (s : ProductStudio.State) (image : ImageFile) :
  readsSucceed w -> answers w response -> noImageIn response ->
  ProductStudio.productImage s = Some image ->
  truthy (ProductStudio.backgroundPrompt s) || ProductStudio.isTransparent s = true ->
  snd (ProductStudio.handleSubmit s w) =
  ProductStudio.setIsLoading false
    (ProductStudio.setError (Some ProductStudio.generationFailed)
       (ProductStudio.setResultImage None s)).
Proof.
  intros Hr Ha Hn Hi Hb. unfold ProductStudio.handleSubmit. rewrite Hi.
  replace (negb (truthy (ProductStudio.backgroundPrompt s))
           && negb (ProductStudio.isTransparent s)) with false
    by (destruct (truthy _), (ProductStudio.isTransparent s); try reflexivity;
        discriminate Hb).
  settle_no_image
    (CompositeProductImage (file image) (ProductStudio.backgroundPrompt s)
       (ProductStudio.isTransparent s) (ProductStudio.aspectRatio s))
    w response Hr Ha Hn.
  reflexivity.
Qed.

Lemma editor_submit_no_image (w : World) (response : GenerateContentResponse)
  (s : ImageEditor.State) (image : ImageFile) :
  readsSucceed w -> answers w response -> noImageIn response ->
  ImageEditor.sourceImage s = Some image ->
  truthy (ImageEditor.prompt s) = true ->
  snd (ImageEditor.handleSubmit s w) =
  ImageEditor.setIsLoading false
    (ImageEditor.setError (Some ImageEditor.editFailed) s).
Proof.
  intros Hr Ha Hn Hi Hp. unfold ImageEditor.handleSubmit. rewrite Hi, Hp. cbn [negb].
  settle_no_image (EditImageWithPrompt (file image) (ImageEditor.prompt s))
    w response Hr Ha Hn.
  reflexivity.
Qed.

Lemma copier_generate_no_image (w : World) (response : GenerateContentResponse)
  (s : StyleCopier.State) (target : ImageFile) :
  readsSucceed w -> answers w response -> noImageIn response ->
  StyleCopier.sourceImages s <> [] ->
  StyleCopier.targetImage s = Some target ->
  StyleCopier.copyProductStyleToggle s || StyleCopier.copyBackgroundStyleToggle s
    || StyleCopier.isTransparent s = true ->
  snd (StyleCopier.handleInitialGenerate s w) =
  if StyleCopier.copyBackgroundStyleToggle s && negb (StyleCopier.isTransparent s) then
    StyleCopier.setIsGeneratingImage false
      (StyleCopier.setCompositeStep StyleCopier.initial
         (StyleCopier.setError
            (Some ("Background generation failed: " ++ GeminiService.styledBackgroundNoImage))
            (StyleCopier.setGeneratedBackground None
               (StyleCopier.setResultImage None s))))
  else
    StyleCopier.setIsGeneratingImage false
      (StyleCopier.setError
         (Some ("Image processing failed: " ++ GeminiService.copyStyleNoImage))
         (StyleCopier.setCompositeStep StyleCopier.final
            (StyleCopier.setGeneratedBackground None
               (StyleCopier.setResultImage None s)))).
Proof.
  intros Hr Ha Hn Hs Ht Hsel. unfold StyleCopier.handleInitialGenerate. rewrite Ht.
  destruct (StyleCopier.sourceImages s) as [|i0 imgs] eqn:Himgs; [congruence|].
  destruct (StyleCopier.copyProductStyleToggle s) eqn:E1,
           (StyleCopier.copyBackgroundStyleToggle s) eqn:E2,
           (StyleCopier.isTransparent s) eqn:E3;
    try discriminate Hsel; cbn [negb andb].
  all: match goal with
       | Hr' : readsSucceed ?w0, Ha' : answers ?w0 ?r0, Hn' : noImageIn ?r0
         |- context [GeminiService.generateStyledBackground ?a ?b ?w0] =>
           settle_no_image (GenerateStyledBackground a b) w0 r0 Hr' Ha' Hn'
       | Hr' : readsSucceed ?w0, Ha' : answers ?w0 ?r0, Hn' : noImageIn ?r0
         |- context [GeminiService.copyProductStyle ?a ?b ?o ?w0] =>
           settle_no_image (CopyProductStyle a b o) w0 r0 Hr' Ha' Hn'
       end; reflexivity.
Qed.

Lemma copier_composite_no_image (w : World) (response : GenerateContentResponse)
  (s : StyleCopier.State) (target : ImageFile) (background : string)
  (backgroundFile : File.t) :
  readsSucceed w -> answers w response -> noImageIn response ->
  StyleCopier.generatedBackground s = Some background ->
  truthy background = true ->
  StyleCopier.targetImage s = Some target ->
  base64ToFile background "background.png" "image/png" = Ok backgroundFile ->
  snd (StyleCopier.handleComposite s w) =
  StyleCopier.setIsGeneratingImage false
    (StyleCopier.setError
       (Some ("Image composition failed: " ++ GeminiService.compositeNoImage))
       (StyleCopier.setCompositeStep StyleCopier.final s)).
Proof.
  intros Hr Ha Hn Hb Htr Ht Hf. unfold StyleCopier.handleComposite.
  rewrite Hb, Ht, Htr, Hf. cbn [negb].
  match goal with
  | |- context [GeminiService.compositeProductWithBackground ?a ?b ?c ?d w] =>
      settle_no_image (CompositeProductWithBackground a b c d) w response Hr Ha Hn
  end.
  reflexivity.
Qed.

(** C2 (amended).  When the response has no image where the operations look
    for one, every view handler ends with an error message set and its
    loading flag off, and with the images, prompts, toggles and presets as
    they were.  [ImageEditor.handleSubmit] and [StyleCopier.handleComposite]
    leave the result image as it was.  [ProductStudio.handleSubmit] and
    [StyleCopier.handleInitialGenerate] have set the result image to null
    before the request was sent, and it is null after the failure; the
    latter also clears the generated background and sets the composite
    step. *)
Theorem views_after_no_image (w : World) (response : GenerateContentResponse) :
  readsSucceed w -> answers w response -> noImageIn response ->
  (forall s image,
     ProductStudio.productImage s = Some image ->
     truthy (ProductStudio.backgroundPrompt s) || ProductStudio.isTransparent s = true ->
     snd (ProductStudio.handleSubmit s w) =
     ProductStudio.setIsLoading false
       (ProductStudio.setError (Some ProductStudio.generationFailed)
          (ProductStudio.setResultImage None s)) /\
     ProductStudio.resultImage (snd (ProductStudio.handleSubmit s w)) = None) /\
  (forall s image,
     ImageEditor.sourceImage s = Some image ->
     truthy (ImageEditor.prompt s) = true ->
     snd (ImageEditor.handleSubmit s w) =
     ImageEditor.setIsLoading false
       (ImageEditor.setError (Some ImageEditor.editFailed) s) /\
     ImageEditor.resultImage (snd (ImageEditor.handleSubmit s w))
     = ImageEditor.resultImage s) /\
  (forall s target,
     StyleCopier.sourceImages s <> [] ->
     StyleCopier.targetImage s = Some target ->
     StyleCopier.copyProductStyleToggle s || StyleCopier.copyBackgroundStyleToggle s
       || StyleCopier.isTransparent s = true ->
     snd (StyleCopier.handleInitialGenerate s w) =
     (if StyleCopier.copyBackgroundStyleToggle s && negb (StyleCopier.isTransparent s) then
        StyleCopier.setIsGeneratingImage false
          (StyleCopier.setCompositeStep StyleCopier.initial
             (StyleCopier.setError
                (Some ("Background generation failed: "
                       ++ GeminiService.styledBackgroundNoImage))
                (StyleCopier.setGeneratedBackground None
                   (StyleCopier.setResultImage None s))))
      else
        StyleCopier.setIsGeneratingImage false
          (StyleCopier.setError
             (Some ("Image processing failed: " ++ GeminiService.copyStyleNoImage))
             (StyleCopier.setCompositeStep StyleCopier.final
                (StyleCopier.setGeneratedBackground None
                   (StyleCopier.setResultImage None s))))) /\
     StyleCopier.resultImage (snd (StyleCopier.handleInitialGenerate s w)) = None) /\
  (forall s target background backgroundFile,
     StyleCopier.generatedBackground s = Some background ->
     truthy background = true ->
     StyleCopier.targetImage s = Some target ->
     base64ToFile background "background.png" "image/png" = Ok backgroundFile ->
     snd (StyleCopier.handleComposite s w) =
     StyleCopier.setIsGeneratingImage false
       (StyleCopier.setError
          (Some ("Image composition failed: " ++ GeminiService.compositeNoImage))
          (StyleCopier.setCompositeStep StyleCopier.final s)) /\
     StyleCopier.resultImage (snd (StyleCopier.handleComposite s w))
     = StyleCopier.resultImage s).
Proof.
  intros Hr Ha Hn. repeat split.
  - eapply studio_submit_no_image; eassumption.
  - erewrite studio_submit_no_image by eassumption. reflexivity.
  - eapply editor_submit_no_image; eassumption.
  - erewrite editor_submit_no_image by eassumption. reflexivity.
  - eapply copier_generate_no_image; eassumption.
  - erewrite copier_generate_no_image by eassumption.
    destruct (_ && _); reflexivity.
  - eapply copier_composite_no_image; eassumption.
  - erewrite copier_composite_no_image by eassumption. reflexivity.
Qed.

Lemma views_after_no_image_witness :
  readsSucceed (answeringWorld textOnly) /\
  answers (answeringWorld textOnly) textOnly /\
  noImageIn textOnly /\
  ImageEditor.resultImage
    (snd (ImageEditor.handleSubmit editorShowingResult (answeringWorld textOnly)))
  = Some "iVBORw0KGgo=" /\
  ProductStudio.resultImage
    (snd (ProductStudio.handleSubmit studioShowingResult (answeringWorld textOnly)))
  = None.
Proof.
  assert (Hr : readsSucceed (answeringWorld textOnly)) by (intros f; discriminate).
  assert (Ha : answers (answeringWorld textOnly) textOnly) by (intros request; reflexivity).
  assert (Hn : noImageIn textOnly) by (split; reflexivity).
  split; [exact Hr|]. split; [exact Ha|]. split; [exact Hn|].
  destruct (views_after_no_image (answeringWorld textOnly) textOnly Hr Ha Hn)
    as [Hstudio [Heditor _]].
  split.
  - exact (proj2 (Heditor editorShowingResult productPhoto eq_refl eq_refl)).
  - exact (proj2 (Hstudio studioShowingResult productPhoto eq_refl eq_refl)).
Defined.

(** C2, as the specification words it, fails: [ProductStudio.handleSubmit]
    clears the result image before it sends the request, so after a
    response without an image the previously displayed result is gone. *)
Lemma previous_result_not_kept :
  ~ leftAsBefore studioShowingResult
      (snd (ProductStudio.handleSubmit studioShowingResult (answeringWorld textOnly))).
Proof.
  unfold leftAsBefore. intros H.
  apply (f_equal ProductStudio.resultImage) in H.
  vm_compute in H. discriminate H.
Qed.

Example studio_after_no_image :
  snd (ProductStudio.handleSubmit studioShowingResult (answeringWorld textOnly))
  = {| ProductStudio.productImage := Some productPhoto;
       ProductStudio.backgroundPrompt := studioWhite;
       ProductStudio.userPresets := [];
       ProductStudio.isTransparent := false;
       ProductStudio.isLoading := false;
       ProductStudio.error :=
         Some "An error occurred while generating the image. Please try again.";
       ProductStudio.resultImage := None;
       ProductStudio.exportQuality := High;
       ProductStudio.aspectRatio := R16_9;
       ProductStudio.isDownloading := false |}.
Proof. vm_compute. reflexivity. Qed.

(** ** Presets *)

Lemma existsb_eqb_In (x : string) (l : list string) :
  In x l -> existsb (String.eqb x) l = true.
Proof.
  intros H. apply existsb_exists. exists x. split; [assumption|apply String.eqb_refl].
Qed.

Lemma savePreset_present (s : ProductStudio.State) (store : LocalStorage.t) :
  In (trim (ProductStudio.backgroundPrompt s))
     (List.map ProductStudio.prompt ProductStudio.BACKGROUND_PRESETS
      ++ ProductStudio.userPresets s)%list ->
  ProductStudio.handleSavePreset s store = (s, store).
Proof.
  intros H. unfold ProductStudio.handleSavePreset.
  destruct (truthy (trim (ProductStudio.backgroundPrompt s))); cbn [negb]; [|reflexivity].
  rewrite (existsb_eqb_In _ _ H). reflexivity.
Qed.

(** C7.  When the string a save would add, the trimmed background prompt,
    is already in the built-in preset list or in the user preset list,
    [handleSavePreset] changes nothing: the view state, with its user preset
    list, and the persisted store are as they were. *)
Theorem handleSavePreset_duplicate (s : ProductStudio.State) (store : LocalStorage.t) :
  In (trim (ProductStudio.backgroundPrompt s))
     (List.map ProductStudio.prompt ProductStudio.BACKGROUND_PRESETS
      ++ ProductStudio.userPresets s)%list ->
  ProductStudio.handleSavePreset s store = (s, store) /\
  ProductStudio.userPresets (fst (ProductStudio.handleSavePreset s store))
  = ProductStudio.userPresets s /\
  snd (ProductStudio.handleSavePreset s store) = store.
Proof.
  intros H. rewrite (savePreset_present s store H). repeat split.
Qed.

Lemma handleSavePreset_duplicate_witness :
  In (trim (ProductStudio.backgroundPrompt studioShowingResult))
     (List.map ProductStudio.prompt ProductStudio.BACKGROUND_PRESETS
      ++ ProductStudio.userPresets studioShowingResult)%list /\
  ProductStudio.handleSavePreset studioShowingResult emptyStore
  = (studioShowingResult, emptyStore).
Proof.
  assert (H : In (trim (ProductStudio.backgroundPrompt studioShowingResult))
                (List.map ProductStudio.prompt ProductStudio.BACKGROUND_PRESETS
                 ++ ProductStudio.userPresets studioShowingResult)%list)
    by (vm_compute; left; reflexivity).
  split; [exact H|].
  exact (proj1 (handleSavePreset_duplicate studioShowingResult emptyStore H)).
Defined.

(** Saving twice is saving once: after a save the trimmed prompt is in the
    user list, was there before, or is empty, and a second save changes
    nothing. *)
Lemma handleSavePreset_idempotent (s s' : ProductStudio.State)
  (store store' : LocalStorage.t) :
  ProductStudio.handleSavePreset s store = (s', store') ->
  ProductStudio.handleSavePreset s' store' = (s', store').
Proof.
  unfold ProductStudio.handleSavePreset at 1.
  destruct (truthy (trim (ProductStudio.backgroundPrompt s))) eqn:Ht; cbn [negb].
  - destruct (existsb _ _) eqn:Hex.
    + intros E. injection E as <- <-.
      unfold ProductStudio.handleSavePreset. rewrite Ht, Hex. reflexivity.
    + assert (Hin : In (trim (ProductStudio.backgroundPrompt s))
                      (List.map ProductStudio.prompt ProductStudio.BACKGROUND_PRESETS
                       ++ (ProductStudio.userPresets s
                           ++ [trim (ProductStudio.backgroundPrompt s)]))%list).
      { apply in_or_app. right. apply in_or_app. right. left. reflexivity. }
      destruct (LocalStorage.setItem _ _ store) as [st|e];
        intros E; injection E as <- <-; apply savePreset_present; exact Hin.
  - intros E. injection E as <- <-.
    unfold ProductStudio.handleSavePreset. rewrite Ht. reflexivity.
Qed.

(** [trim] is idempotent, so what a save stores is a string a later save
    finds again. *)
Lemma trimEnd_keeps_head (a : ascii) (r : string) :
  isTrimSpace a = false -> trimEnd (String a r) = String a (trimEnd r).
Proof. intros H. cbn [trimEnd]. rewrite H. destruct (trimEnd r); reflexivity. Qed.

Lemma trimEnd_idempotent (s : string) : trimEnd (trimEnd s) = trimEnd s.
Proof.
  induction s as [|a r IH]; [reflexivity|].
  cbn [trimEnd]. destruct (trimEnd r) as [|k kept] eqn:E.
  - destruct (isTrimSpace a) eqn:Ha; [reflexivity|].
    cbn [trimEnd]. rewrite Ha. reflexivity.
  - cbn [trimEnd] in *. rewrite IH. reflexivity.
Qed.

Lemma trimStart_head (s : string) :
  trimStart s = EmptyString \/
  exists a r, trimStart s = String a r /\ isTrimSpace a = false.
Proof.
  induction s as [|a r IH]; [left; reflexivity|].
  cbn [trimStart]. destruct (isTrimSpace a) eqn:Ha; [exact IH|].
  right. exists a, r. split; [reflexivity|assumption].
Qed.

Lemma trim_idempotent (s : string) : trim (trim s) = trim s.
Proof.
  unfold trim. destruct (trimStart_head s) as [-> | (a & r & -> & Ha)]; [reflexivity|].
  rewrite (trimEnd_keeps_head a r Ha). cbn [trimStart]. rewrite Ha.
  rewrite <- (trimEnd_keeps_head a r Ha). apply trimEnd_idempotent.
Qed.

Lemma builtin_presets_trimmed :
  Forall trimmed (List.map ProductStudio.prompt ProductStudio.BACKGROUND_PRESETS).
Proof. repeat constructor. Qed.

(** The user presets stay trimmed under saves and deletions. *)
Lemma handleSavePreset_trimmed (s : ProductStudio.State) (store : LocalStorage.t) :
  Forall trimmed (ProductStudio.userPresets s) ->
  Forall trimmed (ProductStudio.userPresets (fst (ProductStudio.handleSavePreset s store))).
Proof.
  intros H. unfold ProductStudio.handleSavePreset.
  destruct (negb _); [exact H|]. destruct (existsb _ _); [exact H|].
  assert (H' : Forall trimmed
                 (ProductStudio.userPresets s ++ [trim (ProductStudio.backgroundPrompt s)])).
  { apply Forall_app. split; [exact H|]. constructor; [apply trim_idempotent|constructor]. }
  destruct (LocalStorage.setItem _ _ store); exact H'.
Qed.

Lemma handleDeletePreset_trimmed (p : string) (s : ProductStudio.State)
  (store : LocalStorage.t) :
  Forall trimmed (ProductStudio.userPresets s) ->
  Forall trimmed
    (ProductStudio.userPresets (fst (ProductStudio.handleDeletePreset p s store))).
Proof.
  intros H. unfold ProductStudio.handleDeletePreset.
  assert (H' : Forall trimmed
                 (List.filter (fun q => negb (String.eqb q p)) (ProductStudio.userPresets s))).
  { apply List.Forall_forall. intros x Hx. apply filter_In in Hx as [Hx _].
    exact (proj1 (List.Forall_forall _ _) H x Hx). }
  destruct (LocalStorage.setItem _ _ store); exact H'.
Qed.

(** With trimmed user presets, a prompt that is itself one of the listed
    presets is saved as a no-op. *)
Lemma listed_prompt_saved_again (s : ProductStudio.State) (store : LocalStorage.t) :
  Forall trimmed (ProductStudio.userPresets s) ->
  In (ProductStudio.backgroundPrompt s)
     (List.map ProductStudio.prompt ProductStudio.BACKGROUND_PRESETS
      ++ ProductStudio.userPresets s)%list ->
  ProductStudio.handleSavePreset s store = (s, store).
Proof.
  intros Ht Hin. apply savePreset_present.
  assert (Hall : Forall trimmed
                   (List.map ProductStudio.prompt ProductStudio.BACKGROUND_PRESETS
                    ++ ProductStudio.userPresets s)%list)
    by (apply Forall_app; split; [apply builtin_presets_trimmed|exact Ht]).
  rewrite (proj1 (List.Forall_forall _ _) Hall _ Hin). exact Hin.
Qed.

(** A new preset is appended and persisted under the fixed key. *)
Example handleSavePreset_new :
  let s := ProductStudio.setUserPresets ["On a glass shelf."]
             (ProductStudio.setError None studioShowingResult) in
  let s := {| ProductStudio.productImage := ProductStudio.productImage s;
              ProductStudio.backgroundPrompt := "  On wet asphalt at night. ";
              ProductStudio.userPresets := ProductStudio.userPresets s;
              ProductStudio.isTransparent := false; ProductStudio.isLoading := false;
              ProductStudio.error := None; ProductStudio.resultImage := None;
              ProductStudio.exportQuality := High; ProductStudio.aspectRatio := R1_1;
              ProductStudio.isDownloading := false |} in
  let '(s', store') := ProductStudio.handleSavePreset s emptyStore in
  ProductStudio.userPresets s' = ["On a glass shelf."; "On wet asphalt at night."] /\
  LocalStorage.getItem ProductStudio.USER_PRESETS_STORAGE_KEY store'
  = Some ("[" ++ quoted "On a glass shelf." ++ "," ++ quoted "On wet asphalt at night." ++ "]").
Proof. split; vm_compute; reflexivity. Qed.

(** ** The dropzone *)

(** The loop of [handleFiles] takes the image files, in order, until the
    cap is reached. *)
Lemma handleFilesLoop_spec (n m : nat) (files added : list File.t) :
  MultiImageDropzone.handleFilesLoop n m files added =
  (added ++ firstn (m - (n + length added)) (List.filter isImage files))%list.
Proof.
  revert added. induction files as [|f files IH]; intros added; cbn [MultiImageDropzone.handleFilesLoop List.filter].
  - rewrite firstn_nil, app_nil_r. reflexivity.
  - destruct (Nat.leb_spec m (n + length added)) as [Hle|Hlt].
    + replace (m - (n + length added))%nat with 0%nat by lia.
      cbn [firstn]. rewrite app_nil_r. reflexivity.
    + unfold isImage at 1. fold (isImage f).
      destruct (isImage f) eqn:Hf.
      * rewrite IH. rewrite length_app. cbn [length].
        replace (m - (n + length added))%nat
          with (S (m - (n + (length added + 1))))%nat by lia.
        cbn [firstn]. rewrite <- app_assoc. reflexivity.
      * apply IH.
Qed.

Lemma images_taken (k : nat) (files : list File.t) :
  Forall (fun f => isImage f = true) (firstn k (List.filter isImage files)).
Proof.
  apply Forall_take. apply List.Forall_forall. intros f Hf.
  apply filter_In in Hf. tauto.
Qed.

Lemma dropFiles_withinCap (createObjectURL : File.t -> string) (maxFiles : nat)
  (files : option (list File.t)) (s : StyleCopier.State) :
  withinCap maxFiles (StyleCopier.sourceImages s) ->
  withinCap maxFiles
    (StyleCopier.sourceImages
       (StyleCopier.dropFiles createObjectURL maxFiles (StyleCopier.sourceImages s) files s)).
Proof.
  intros (Hm & H5 & Himg). unfold StyleCopier.dropFiles, MultiImageDropzone.handleFiles.
  destruct files as [files|]; [|repeat split; assumption].
  rewrite handleFilesLoop_spec. cbn [length app]. rewrite Nat.add_0_r.
  set (added := firstn (maxFiles - length (StyleCopier.sourceImages s))
                  (List.filter isImage files)).
  destruct (0 <? length added)%nat; [|repeat split; assumption].
  cbn [StyleCopier.sourceImages StyleCopier.setSourceImages].
  unfold StyleCopier.handleSourceImagesAdd.
  assert (Hadded : (length added <= maxFiles - length (StyleCopier.sourceImages s))%nat)
    by (unfold added; rewrite length_firstn; lia).
  repeat split.
  - rewrite length_firstn, length_app, length_map. lia.
  - rewrite length_firstn. lia.
  - apply Forall_take. apply Forall_app. split; [assumption|].
    apply List.Forall_map. cbn [file]. apply images_taken.
Qed.

Lemma dropAll_withinCap (createObjectURL : File.t -> string) (maxFiles : nat)
  (batches : list (option (list File.t))) (s : StyleCopier.State) :
  withinCap maxFiles (StyleCopier.sourceImages s) ->
  withinCap maxFiles
    (StyleCopier.sourceImages (dropAll createObjectURL maxFiles batches s)).
Proof.
  revert s. induction batches as [|files batches IH]; intros s H; cbn [dropAll].
  - assumption.
  - apply IH. apply dropFiles_withinCap. assumption.
Qed.

Lemma generate_without_sources (s : StyleCopier.State) (w : World) :
  StyleCopier.sourceImages s = [] ->
  StyleCopier.handleInitialGenerate s w
  = ([], StyleCopier.setError (Some StyleCopier.imagesMissing) s).
Proof. intros H. unfold StyleCopier.handleInitialGenerate. rewrite H. reflexivity. Qed.

(** C10.  Starting from the empty list, after any sequence of additions
    through the dropzone the list of accepted images has at most [maxFiles]
    entries and at most five, and each of them has a type that begins with
    [image/].  One addition takes the image files of the batch, in order,
    as far as the cap leaves room, and drops the rest without a message.
    With no image accepted, [handleInitialGenerate] sends nothing, so the
    service is only called with one to five source images. *)
Theorem dropzone_within_cap (createObjectURL : File.t -> string) (maxFiles : nat)
  (batches : list (option (list File.t))) :
  let final := dropAll createObjectURL maxFiles batches StyleCopier.initialState in
  (length (StyleCopier.sourceImages final) <= maxFiles)%nat /\
  (length (StyleCopier.sourceImages final) <= 5)%nat /\
  Forall (fun i => startsWith "image/" (File.type (file i)) = true)
         (StyleCopier.sourceImages final) /\
  (forall (images : list ImageFile) (files : list File.t),
     MultiImageDropzone.handleFilesLoop (length images) maxFiles files [] =
     firstn (maxFiles - length images)
       (List.filter (fun f => startsWith "image/" (File.type f)) files)) /\
  (forall w, StyleCopier.sourceImages final = [] ->
             fst (StyleCopier.handleInitialGenerate final w) = []) /\
  MultiImageDropzone.defaultMaxFiles = 5%nat.
Proof.
  intros final.
  assert (H0 : withinCap maxFiles (StyleCopier.sourceImages StyleCopier.initialState)).
  { repeat split; cbn; try lia. constructor. }
  pose proof (dropAll_withinCap createObjectURL maxFiles batches _ H0)
    as (Hm & H5 & Himg).
  split; [exact Hm|]. split; [exact H5|]. split; [exact Himg|].
  split; [|split; [|reflexivity]].
  - intros images files. rewrite handleFilesLoop_spec. cbn [length app].
    rewrite Nat.add_0_r. reflexivity.
  - intros w H. rewrite (generate_without_sources final w H). reflexivity.
Qed.

(** Seven files dropped at once, one of them not an image: five are
    accepted.  A second drop adds nothing. *)
Example seven_files_dropped :
  let batch := Some [pngFile; textFile; pngFile; pngFile; pngFile; pngFile; pngFile] in
  let s := dropAll (fun _ => "blob:preview") 5 [batch] StyleCopier.initialState in
  List.map file (StyleCopier.sourceImages s) = List.repeat pngFile 5 /\
  dropAll (fun _ => "blob:preview") 5 [batch] s = s.
Proof. split; vm_compute; reflexivity. Qed.

(** ** The base64 round trip *)

Lemma list_ind3 {A} (P : list A -> Prop) :
  P [] -> (forall a, P [a]) -> (forall a b, P [a; b]) ->
  (forall a b c l, P l -> P (a :: b :: c :: l)) ->
  forall l, P l.
Proof.
  intros H0 H1 H2 H3 l.
  assert (H : P l /\ (forall a, P (a :: l)) /\ (forall a b, P (a :: b :: l))).
  { induction l as [|x l (IH0 & IH1 & IH2)]; [auto|].
    split; [apply IH1|]. split; [intros a; apply IH2|].
    intros a b. apply H3. exact IH0. }
  apply H.
Qed.

Lemma all_sextets_good : forallb goodSextet (seq 0 64) = true.
Proof. vm_compute. reflexivity. Qed.

Lemma sextetChar_facts (n : N) :
  (n < 64)%N ->
  Base64.charSextet (Base64.sextetChar n) = Some n /\
  Base64.isAsciiWhitespace (Base64.sextetChar n) = false /\
  Ascii.eqb (Base64.sextetChar n) Base64.padChar = false /\
  Ascii.eqb (Base64.sextetChar n) "," = false.
Proof.
  intros Hn.
  pose proof (proj1 (forallb_forall goodSextet (seq 0 64)) all_sextets_good (N.to_nat n))
    as H.
  assert (Hin : In (N.to_nat n) (seq 0 64)) by (apply in_seq; lia).
  specialize (H Hin). unfold goodSextet in H. rewrite N2Nat.id in H.
  repeat (apply andb_prop in H; destruct H as [H ?]).
  destruct (Base64.charSextet (Base64.sextetChar n)) as [m|]; [|discriminate].
  apply N.eqb_eq in H. subst m.
  repeat split; try reflexivity;
    match goal with
    | Hb : negb ?b = true |- ?b = false => destruct b; [discriminate Hb|reflexivity]
    end.
Qed.

Lemma byte_bound (b : Byte.byte) : (Byte.to_N b < 256)%N.
Proof. pose proof (Byte.to_N_bounded b). lia. Qed.

(** Linear arithmetic with division and remainder by constants. *)
Ltac div_lia := zify; Z.to_euclidean_division_equations; lia.

Lemma sextet_bounds (a b : N) :
  (a < 256)%N -> (b < 256)%N ->
  (a / 4 < 64 /\ (a mod 4) * 16 < 64 /\ (a mod 4) * 16 + b / 16 < 64 /\
   (a mod 16) * 4 < 64 /\ (a mod 16) * 4 + b / 64 < 64 /\ a mod 64 < 64)%N.
Proof. intros Ha Hb. repeat split; div_lia. Qed.

Lemma group_decodes (a b c : N) :
  (a < 256)%N -> (b < 256)%N -> (c < 256)%N ->
  (a / 4 * 4 + ((a mod 4) * 16 + b / 16) / 16 = a /\
   ((a mod 4) * 16 + b / 16) mod 16 * 16 + ((b mod 16) * 4 + c / 64) / 4 = b /\
   ((b mod 16) * 4 + c / 64) mod 4 * 64 + c mod 64 = c /\
   a / 4 * 4 + ((a mod 4) * 16) / 16 = a /\
   ((a mod 4) * 16 + b / 16) mod 16 * 16 + ((b mod 16) * 4) / 4 = b)%N.
Proof. intros Ha Hb Hc. repeat split; div_lia. Qed.

Lemma decode_values (bs : list Byte.byte) :
  Base64.decodeSextets (sextetValues bs) = List.map Byte.to_N bs.
Proof.
  induction bs as [|a|a b|a b c rest IH] using list_ind3;
    cbn [sextetValues Base64.decodeSextets List.map].
  - reflexivity.
  - pose proof (group_decodes _ _ _ (byte_bound a) (byte_bound a) (byte_bound a))
      as (_ & _ & _ & H & _).
    rewrite H. reflexivity.
  - pose proof (group_decodes _ _ _ (byte_bound a) (byte_bound b) (byte_bound b))
      as (_ & _ & _ & H1 & H2).
    pose proof (group_decodes _ _ _ (byte_bound a) (byte_bound b) (byte_bound b))
      as (H3 & _).
    rewrite H3, H2. reflexivity.
  - pose proof (group_decodes _ _ _ (byte_bound a) (byte_bound b) (byte_bound c))
      as (H1 & H2 & H3 & _).
    rewrite H1, H2, H3, IH. reflexivity.
Qed.

Lemma values_bound (bs : list Byte.byte) :
  Forall (fun n => (n < 64)%N) (sextetValues bs).
Proof.
  induction bs as [|a|a b|a b c rest IH] using list_ind3; cbn [sextetValues].
  - constructor.
  - pose proof (sextet_bounds _ _ (byte_bound a) (byte_bound a)) as (? & ? & _).
    repeat constructor; assumption.
  - pose proof (sextet_bounds _ _ (byte_bound a) (byte_bound b)) as (? & _ & ? & _).
    pose proof (sextet_bounds _ _ (byte_bound b) (byte_bound b)) as (_ & _ & _ & ? & _).
    repeat constructor; assumption.
  - pose proof (sextet_bounds _ _ (byte_bound a) (byte_bound b)) as (? & _ & ? & _).
    pose proof (sextet_bounds _ _ (byte_bound b) (byte_bound c)) as (_ & _ & _ & _ & ? & _).
    pose proof (sextet_bounds _ _ (byte_bound c) (byte_bound c)) as (_ & _ & _ & _ & _ & ?).
    repeat (constructor; [assumption|]). exact IH.
Qed.

Lemma mod4_step (n : nat) : (S (S (S (S n))) mod 4 = n mod 4)%nat.
Proof.
  replace (S (S (S (S n)))) with (n + 1 * 4)%nat by lia.
  apply Nat.Div0.mod_add.
Qed.

Lemma values_length (bs : list Byte.byte) :
  (length (sextetValues bs) mod 4 =? 1)%nat = false.
Proof.
  induction bs as [|a|a b|a b c rest IH] using list_ind3; cbn [sextetValues length];
    try reflexivity.
  rewrite mod4_step. exact IH.
Qed.

Lemma encode_length (bs : list Byte.byte) :
  (length (Base64.encode bs) mod 4 =? 0)%nat = true.
Proof.
  induction bs as [|a|a b|a b c rest IH] using list_ind3; cbn [Base64.encode length];
    try reflexivity.
  rewrite mod4_step. exact IH.
Qed.

Lemma encode_shape (bs : list Byte.byte) :
  Base64.encode bs = [] \/
  exists e1 e2 e3 e4 l, Base64.encode bs = e1 :: e2 :: e3 :: e4 :: l.
Proof.
  destruct bs as [|a [|b [|c rest]]]; cbn [Base64.encode]; [left; reflexivity| | |];
    right; do 5 eexists; reflexivity.
Qed.

Ltac sextet_facts a b c :=
  let B1 := fresh in let B2 := fresh in let B3 := fresh in
  pose proof (sextet_bounds _ _ (byte_bound a) (byte_bound b)) as B1;
  pose proof (sextet_bounds _ _ (byte_bound b) (byte_bound c)) as B2;
  pose proof (sextet_bounds _ _ (byte_bound c) (byte_bound c)) as B3;
  destruct B1 as (?B & ?B & ?B & _), B2 as (_ & _ & _ & ?B & ?B & _),
           B3 as (_ & _ & _ & _ & _ & ?B);
  repeat match goal with
         | Hb : (?n < 64)%N |- _ =>
             let F1 := fresh "F" in let F2 := fresh "F" in
             let F3 := fresh "F" in let F4 := fresh "F" in
             destruct (sextetChar_facts n Hb) as (F1 & F2 & F3 & F4); clear Hb
         end.

Lemma encode_values (bs : list Byte.byte) :
  Base64.removeTrailingPad (Base64.encode bs)
  = List.map Base64.sextetChar (sextetValues bs).
Proof.
  induction bs as [|a|a b|a b c rest IH] using list_ind3.
  - reflexivity.
  - cbn [Base64.encode sextetValues List.map Base64.removeTrailingPad].
    rewrite Ascii.eqb_refl. reflexivity.
  - sextet_facts a b b.
    cbn [Base64.encode sextetValues List.map Base64.removeTrailingPad].
    rewrite Ascii.eqb_refl.
    match goal with
    | |- context [Ascii.eqb ?c Base64.padChar] =>
        replace (Ascii.eqb c Base64.padChar) with false by (symmetry; assumption)
    end.
    reflexivity.
  - sextet_facts a b c.
    cbn [Base64.encode sextetValues List.map].
    destruct (encode_shape rest) as [E | (e1 & e2 & e3 & e4 & l & E)].
    + rewrite E in *. cbn [Base64.removeTrailingPad] in *.
      rewrite <- IH.
      match goal with
      | |- context [Ascii.eqb ?c Base64.padChar] =>
          replace (Ascii.eqb c Base64.padChar) with false by (symmetry; assumption)
      end.
      reflexivity.
    + rewrite <- IH, E. reflexivity.
Qed.

(** Every character of an encoding is a character of the alphabet or the
    padding character; none is white space or a comma. *)
Lemma encode_chars (bs : list Byte.byte) :
  Forall (fun c => Base64.isAsciiWhitespace c = false /\ Ascii.eqb c "," = false)
         (Base64.encode bs).
Proof.
  assert (Hpad : Base64.isAsciiWhitespace Base64.padChar = false
                 /\ Ascii.eqb Base64.padChar "," = false) by (split; reflexivity).
  induction bs as [|a|a b|a b c rest IH] using list_ind3; cbn [Base64.encode].
  - constructor.
  - sextet_facts a a a. repeat (constructor; [split; assumption || apply Hpad|]).
    constructor.
  - sextet_facts a b b. repeat (constructor; [split; assumption || apply Hpad|]).
    constructor.
  - sextet_facts a b c. repeat (constructor; [split; assumption|]). exact IH.
Qed.

Lemma filter_all {A} (f : A -> bool) (l : list A) :
  Forall (fun x => f x = true) l -> List.filter f l = l.
Proof.
  induction 1 as [|x l Hx _ IH]; cbn [List.filter]; [reflexivity|].
  rewrite Hx, IH. reflexivity.
Qed.

Lemma encode_filter (bs : list Byte.byte) :
  List.filter (fun c => negb (Base64.isAsciiWhitespace c)) (Base64.encode bs)
  = Base64.encode bs.
Proof.
  apply filter_all. eapply List.Forall_impl; [|apply encode_chars].
  cbn. intros c [-> _]. reflexivity.
Qed.

Lemma sextets_values (l : list N) :
  Forall (fun n => (n < 64)%N) l ->
  Base64.sextets (List.map Base64.sextetChar l) = Some l.
Proof.
  induction 1 as [|n l Hn _ IH]; cbn [List.map Base64.sextets]; [reflexivity|].
  destruct (sextetChar_facts n Hn) as (-> & _). rewrite IH. reflexivity.
Qed.

(** [atob] undoes the platform's encoder: the binary string has the bytes
    as its character codes. *)
Lemma atob_btoa (bs : list Byte.byte) :
  Base64.atob (Base64.btoa bs)
  = Ok (string_of_list_ascii (List.map ascii_of_N (List.map Byte.to_N bs))).
Proof.
  unfold Base64.atob, Base64.btoa.
  rewrite list_ascii_of_string_of_list_ascii, encode_filter, encode_length, encode_values.
  rewrite length_map, values_length, (sextets_values _ (values_bound bs)), decode_values.
  reflexivity.
Qed.

Lemma charCodes (s : string) :
  List.map (charCodeAt s) (seq 0 (String.length s))
  = List.map N_of_ascii (list_ascii_of_string s).
Proof.
  induction s as [|a s IH]; [reflexivity|].
  cbn [String.length seq list_ascii_of_string List.map].
  f_equal. rewrite <- seq_shift, List.map_map. exact IH.
Qed.

Lemma toUint8_of_byte (b : Byte.byte) :
  toUint8 (N_of_ascii (ascii_of_N (Byte.to_N b))) = b.
Proof.
  rewrite N_ascii_embedding by apply byte_bound.
  unfold toUint8. rewrite N.mod_small by apply byte_bound.
  rewrite Byte.of_to_N. reflexivity.
Qed.

(** [base64ToFile] of an encoding gives the encoded bytes back. *)
Lemma base64ToFile_btoa (bs : list Byte.byte) (filename mimeType : string) :
  base64ToFile (Base64.btoa bs) filename mimeType
  = Ok {| File.name := filename; File.type := mimeType; File.bytes := bs |}.
Proof.
  unfold base64ToFile. rewrite atob_btoa, charCodes, list_ascii_of_string_of_list_ascii.
  do 2 f_equal. rewrite !List.map_map.
  induction bs as [|b bs IH]; cbn [List.map]; [reflexivity|].
  rewrite toUint8_of_byte, IH. reflexivity.
Qed.

(** Splitting at a comma. *)
Lemma includes_char_cons (c a : ascii) (s : string) :
  includes (String c EmptyString) (String a s)
  = Ascii.eqb c a || includes (String c EmptyString) s.
Proof. cbn [includes startsWith]. rewrite andb_true_r. reflexivity. Qed.

Lemma append_cons (x : ascii) (a b : string) : String x a ++ b = String x (a ++ b).
Proof. reflexivity. Qed.

Lemma includes_char_app (c : ascii) (a b : string) :
  includes (String c EmptyString) (a ++ b)
  = includes (String c EmptyString) a || includes (String c EmptyString) b.
Proof.
  induction a as [|x a IH].
  - destruct b; reflexivity.
  - rewrite append_cons, !includes_char_cons, IH, orb_assoc. reflexivity.
Qed.

Lemma split_no_separator (c : ascii) (s : string) :
  includes (String c EmptyString) s = false -> split c s = [s].
Proof.
  induction s as [|a s IH]; [reflexivity|].
  rewrite includes_char_cons. intros H. apply orb_false_elim in H as [Ha Hs].
  cbn [split]. rewrite Ascii.eqb_sym, Ha, (IH Hs). reflexivity.
Qed.

Lemma split_at_separator (c : ascii) (a b : string) :
  includes (String c EmptyString) a = false ->
  split c (a ++ String c b) = a :: split c b.
Proof.
  induction a as [|x a IH]; intros H.
  - change (EmptyString ++ String c b) with (String c b).
    cbn [split]. rewrite Ascii.eqb_refl. reflexivity.
  - rewrite includes_char_cons in H. apply orb_false_elim in H as [Hx Ha].
    rewrite append_cons. cbn [split]. rewrite Ascii.eqb_sym, Hx, (IH Ha). reflexivity.
Qed.

Lemma btoa_no_comma (bs : list Byte.byte) : includes "," (Base64.btoa bs) = false.
Proof.
  unfold Base64.btoa. pose proof (encode_chars bs) as H.
  induction H as [|c l [_ Hc] _ IH]; [reflexivity|].
  cbn [string_of_list_ascii]. rewrite includes_char_cons, Ascii.eqb_sym, Hc, IH.
  reflexivity.
Qed.

Lemma string_app_assoc (a b c : string) : (a ++ b) ++ c = a ++ (b ++ c).
Proof. induction a as [|x a IH]; [reflexivity|]. rewrite !append_cons, IH. reflexivity. Qed.

(** The text after the first comma of a data URL is the encoding, when the
    media type has no comma. *)
Lemma split_dataURL (mediaType : string) (bs : list Byte.byte) :
  includes "," mediaType = false ->
  nth_error (split "," (Base64.dataURL mediaType bs)) 1 = Some (Base64.btoa bs).
Proof.
  intros H. unfold Base64.dataURL.
  replace ("data:" ++ mediaType ++ ";base64," ++ Base64.btoa bs)
    with (("data:" ++ mediaType ++ ";base64") ++ String "," (Base64.btoa bs)).
  - rewrite split_at_separator.
    + rewrite (split_no_separator _ _ (btoa_no_comma bs)). reflexivity.
    + rewrite !includes_char_app, H. reflexivity.
  - rewrite !string_app_assoc. reflexivity.
Qed.

(** C5.  When the browser reads a file into a data URL
    [data:<media type>;base64,<encoding of the bytes>] whose media type has
    no comma (the syntax of RFC 2397), [fileToBase64] resolves with the
    encoding of the file's bytes, and [base64ToFile] of that string is a
    file with exactly the bytes of the original. *)
Theorem base64_round_trip (w : World) (f : File.t) (mediaType filename mimeType : string) :
  includes "," mediaType = false ->
  readAsDataURL w f = Some (Base64.dataURL mediaType (File.bytes f)) ->
  exists base64 decoded,
    fileToBase64 f w = ([ReadFile f], Ok (Some base64)) /\
    base64ToFile base64 filename mimeType = Ok decoded /\
    File.bytes decoded = File.bytes f.
Proof.
  intros Hm Hread.
  exists (Base64.btoa (File.bytes f)).
  exists {| File.name := filename; File.type := mimeType; File.bytes := File.bytes f |}.
  split; [|split].
  - unfold fileToBase64, bind, readFile, ret. rewrite Hread.
    rewrite (split_dataURL _ _ Hm). reflexivity.
  - apply base64ToFile_btoa.
  - reflexivity.
Qed.

Lemma base64_round_trip_witness :
  includes "," "image/png" = false /\
  readAsDataURL (answeringWorld imagePartOnly) pngFile
  = Some (Base64.dataURL "image/png" (File.bytes pngFile)) /\
  exists base64 decoded,
    fileToBase64 pngFile (answeringWorld imagePartOnly)
    = ([ReadFile pngFile], Ok (Some base64)) /\
    base64ToFile base64 "background.png" "image/png" = Ok decoded /\
    File.bytes decoded = File.bytes pngFile.
Proof.
  split; [reflexivity|]. split; [reflexivity|].
  exact (base64_round_trip (answeringWorld imagePartOnly) pngFile "image/png"
           "background.png" "image/png" eq_refl eq_refl).
Defined.

(** The round trip on the three bytes of [pngFile], and the encodings of
    RFC 4648's test vectors. *)
Example round_trip_of_pngFile :
  fileToBase64 pngFile (answeringWorld imagePartOnly)
  = ([ReadFile pngFile], Ok (Some "iVBO")) /\
  base64ToFile "iVBO" "copy.png" "image/png"
  = Ok {| File.name := "copy.png"; File.type := "image/png";
          File.bytes := [Byte.x89; Byte.x50; Byte.x4e] |}.
Proof. split; vm_compute; reflexivity. Qed.

Example rfc4648_vectors :
  List.map Base64.btoa
    [[]; [Byte.x66]; [Byte.x66; Byte.x6f]; [Byte.x66; Byte.x6f; Byte.x6f];
     [Byte.x66; Byte.x6f; Byte.x6f; Byte.x62];
     [Byte.x66; Byte.x6f; Byte.x6f; Byte.x62; Byte.x61];
     [Byte.x66; Byte.x6f; Byte.x6f; Byte.x62; Byte.x61; Byte.x72]]
  = [EmptyString; "Zg=="; "Zm8="; "Zm9v"; "Zm9vYg=="; "Zm9vYmE="; "Zm9vYmFy"].
Proof. vm_compute. reflexivity. Qed.

(** * Further properties of the service client *)

Lemma events_tryCatch {A} (body : M A) (handler : Thrown -> M A) (w : World) :
  events (tryCatch body handler) w =
  match outcome body w with
  | Ok _ => events body w
  | Throw e => (events body w ++ events (handler e) w)%list
  end.
Proof.
  unfold events, outcome, tryCatch. destruct (body w) as [t [a | e]]; simpl; [reflexivity|].
  destruct (handler e w); reflexivity.
Qed.

Lemma events_wrapped {A} (body : M A) (prefix unknownMessage : string) (w : World) :
  events (tryCatch body (GeminiService.rethrow prefix unknownMessage)) w = events body w.
Proof.
  rewrite events_tryCatch. destruct (outcome body w) as [a|e]; [reflexivity|].
  destruct e; cbn; apply app_nil_r.
Qed.

Lemma promiseAllMap_any (w : World) (l : list File.t) :
  promiseAllMap GeminiService.fileToGenerativePart l w =
  (List.map ReadFile l,
   if forallb (readable w) l then Ok (List.map (partOfFile w) l) else Throw readFailure).
Proof.
  induction l as [|f l IH]; [reflexivity|].
  cbn [promiseAllMap forallb List.map]. rewrite fileToGenerativePart_run, IH.
  replace (readable w f)
    with (match readAsDataURL w f with Some _ => true | None => false end)
    by reflexivity.
  destruct (readAsDataURL w f); cbn [andb]; [|reflexivity].
  destruct (forallb (readable w) l); reflexivity.
Qed.

Lemma part_any (w : World) (f : File.t) :
  GeminiService.fileToGenerativePart f w =
  ([ReadFile f], if readable w f then Ok (partOfFile w f) else Throw readFailure).
Proof.
  rewrite fileToGenerativePart_run. unfold readable.
  destruct (readAsDataURL w f); reflexivity.
Qed.

Lemma outcome_part_any (w : World) (f : File.t) :
  outcome (GeminiService.fileToGenerativePart f) w =
  if readable w f then Ok (partOfFile w f) else Throw readFailure.
Proof. unfold outcome. rewrite part_any. reflexivity. Qed.

Lemma events_promiseAllMap (w : World) (l : list File.t) :
  events (promiseAllMap GeminiService.fileToGenerativePart l) w = List.map ReadFile l.
Proof. unfold events. rewrite promiseAllMap_any. reflexivity. Qed.

Lemma outcome_promiseAllMap (w : World) (l : list File.t) :
  outcome (promiseAllMap GeminiService.fileToGenerativePart l) w =
  if forallb (readable w) l then Ok (List.map (partOfFile w) l) else Throw readFailure.
Proof. unfold outcome. rewrite promiseAllMap_any. reflexivity. Qed.

Lemma events_ret {A} (a : A) (w : World) : events (ret a) w = [].
Proof. reflexivity. Qed.

Lemma outcome_ret {A} (a : A) (w : World) : outcome (ret a) w = Ok a.
Proof. reflexivity. Qed.

(** The rewriting that runs an operation of the service. *)
Ltac run_service :=
  repeat first
    [ rewrite events_wrapped | rewrite outcome_wrapped
    | rewrite events_bind | rewrite outcome_bind
    | rewrite events_fileToGenerativePart | rewrite outcome_part_any
    | rewrite events_promiseAllMap | rewrite outcome_promiseAllMap
    | rewrite events_generateContent | rewrite outcome_generateContent
    | rewrite events_returnInlineData | rewrite outcome_returnInlineData
    | rewrite events_ret | rewrite outcome_ret ].

(** The effects of an image operation, whatever the world: the reads it
    starts, group after group, and then its one request when every input
    file was read. *)
Lemma runOperation_events (op : ImageOperation) (w : World) :
  selectionMade op = true ->
  events (runOperation op) w =
  (List.map ReadFile (startedReads w (readStages op))
   ++ if forallb (readable w) (inputFiles op) then [GenerateContent (requestOf w op)]
      else [])%list.
Proof.
  intros Hsel.
  destruct op as [f bg t r | f pr | srcs tgt o | srcs ap | tgt bgi cps ssi];
    cbn [runOperation readStages startedReads inputFiles forallb].
  - unfold GeminiService.compositeProductImage. run_service.
    destruct (readable w f); cbn [andb]; [|reflexivity].
    run_service. destruct (generateContentApi w _); run_service; reflexivity.
  - unfold GeminiService.editImageWithPrompt. run_service.
    destruct (readable w f); cbn [andb]; [|reflexivity].
    run_service. destruct (generateContentApi w _); run_service; reflexivity.
  - unfold GeminiService.copyProductStyle. cbn [selectionMade] in Hsel.
    replace (negb (GeminiService.CopyStyleOptions.copyProductStyle o)
             && negb (GeminiService.CopyStyleOptions.copyBackgroundStyle o)
             && negb (GeminiService.CopyStyleOptions.isTransparent o)) with false
      by (destruct (GeminiService.CopyStyleOptions.copyProductStyle o),
                   (GeminiService.CopyStyleOptions.copyBackgroundStyle o),
                   (GeminiService.CopyStyleOptions.isTransparent o);
          try reflexivity; discriminate Hsel).
    run_service. rewrite forallb_app. cbn [forallb].
    destruct (forallb (readable w) srcs); cbn [andb];
      [|rewrite ?app_nil_r; reflexivity].
    run_service. destruct (readable w tgt); cbn [andb];
      [|rewrite ?app_nil_r, ?List.map_app; reflexivity].
    run_service.
    destruct (generateContentApi w _); run_service; unfold requestOf;
      cbn [partFiles inputFiles promptOf];
      rewrite ?app_nil_r, ?List.map_app, <- ?app_assoc; reflexivity.
  - unfold GeminiService.generateStyledBackground. run_service.
    destruct (forallb (readable w) srcs); [|rewrite ?app_nil_r; reflexivity].
    run_service.
    destruct (generateContentApi w _); run_service; rewrite ?app_nil_r; reflexivity.
  - unfold GeminiService.compositeProductWithBackground. run_service.
    destruct (readable w tgt); cbn [andb]; [|reflexivity].
    run_service. destruct (readable w bgi); cbn [andb]; [|reflexivity].
    destruct ssi as [images|]; run_service.
    + destruct (forallb (readable w) images);
        [|rewrite ?app_nil_r; reflexivity].
      run_service.
      destruct (generateContentApi w _); run_service; unfold requestOf;
        cbn [partFiles promptOf app List.map];
        rewrite ?app_nil_r, ?List.map_app, <- ?app_assoc; reflexivity.
    + cbn [forallb].
      destruct (generateContentApi w _); run_service; rewrite ?app_nil_r; reflexivity.
Qed.

Lemma runOperation_unreadable (op : ImageOperation) (w : World) :
  selectionMade op = true ->
  forallb (readable w) (inputFiles op) = false ->
  outcome (runOperation op) w = Throw (wrapWith (wrapperOf op) readFailure).
Proof.
  intros Hsel.
  destruct op as [f bg t r | f pr | srcs tgt o | srcs ap | tgt bgi cps ssi];
    cbn [runOperation inputFiles forallb wrapperOf].
  - unfold GeminiService.compositeProductImage. run_service.
    destruct (readable w f); [discriminate|reflexivity].
  - unfold GeminiService.editImageWithPrompt. run_service.
    destruct (readable w f); [discriminate|reflexivity].
  - unfold GeminiService.copyProductStyle. cbn [selectionMade] in Hsel.
    replace (negb (GeminiService.CopyStyleOptions.copyProductStyle o)
             && negb (GeminiService.CopyStyleOptions.copyBackgroundStyle o)
             && negb (GeminiService.CopyStyleOptions.isTransparent o)) with false
      by (destruct (GeminiService.CopyStyleOptions.copyProductStyle o),
                   (GeminiService.CopyStyleOptions.copyBackgroundStyle o),
                   (GeminiService.CopyStyleOptions.isTransparent o);
          try reflexivity; discriminate Hsel).
    run_service. rewrite forallb_app. cbn [forallb].
    destruct (forallb (readable w) srcs); cbn [andb]; [|reflexivity].
    run_service. destruct (readable w tgt); [discriminate|reflexivity].
  - unfold GeminiService.generateStyledBackground. run_service.
    destruct (forallb (readable w) srcs); [discriminate|reflexivity].
  - unfold GeminiService.compositeProductWithBackground. run_service.
    destruct (readable w tgt); cbn [andb]; [|reflexivity].
    run_service. destruct (readable w bgi); cbn [andb]; [|reflexivity].
    destruct ssi as [images|]; run_service.
    + destruct (forallb (readable w) images); [discriminate|reflexivity].
    + discriminate.
Qed.

Lemma startedReads_all (w : World) (stages : list (list File.t)) :
  forallb (readable w) (List.concat stages) = true ->
  startedReads w stages = List.concat stages.
Proof.
  induction stages as [|stage rest IH]; [reflexivity|].
  cbn [List.concat startedReads]. rewrite forallb_app.
  intros H. apply andb_prop in H as [-> Hrest]. rewrite (IH Hrest). reflexivity.
Qed.

Lemma readStages_inputFiles (op : ImageOperation) :
  List.concat (readStages op) = inputFiles op.
Proof.
  destruct op as [f bg t r | f pr | srcs tgt o | srcs ap | tgt bgi cps ssi];
    cbn [readStages inputFiles List.concat app]; rewrite ?app_nil_r; reflexivity.
Qed.

Lemma reads_succeed_readable (w : World) (l : list File.t) :
  readsSucceed w -> forallb (readable w) l = true.
Proof.
  intros Hr. apply forallb_forall. intros f _. unfold readable.
  specialize (Hr f). destruct (readAsDataURL w f); [reflexivity|congruence].
Qed.

(** X1.  With readable files, an image operation reads its input files in
    the order it takes them and then sends one request whose image parts
    are in the order the prompt announces: the source images first and the
    target last for [copyProductStyle]; the source images for
    [generateStyledBackground]; the style images, the target and then the
    background for [compositeProductWithBackground], although the target
    and the background are read first.  The prompt of the latter names the
    style images exactly when there are some. *)
Theorem request_parts_in_order (op : ImageOperation) (w : World) :
  selectionMade op = true -> readsSucceed w ->
  events (runOperation op) w =
  (List.map ReadFile (inputFiles op)
   ++ [GenerateContent
         {| model := "gemini-2.5-flash-image";
            contents := List.map (partOfFile w) (partFiles op) ++ [TextPart (promptOf op)];
            config := ImageModality |}])%list /\
  (forall copyProductStyle sourceStyleImages,
     includes announcesStyleImages
       (GeminiService.compositeWithBackgroundPrompt copyProductStyle sourceStyleImages)
     = GeminiService.hasStyleImages sourceStyleImages /\
     includes announcesNoStyleImages
       (GeminiService.compositeWithBackgroundPrompt copyProductStyle sourceStyleImages)
     = negb (GeminiService.hasStyleImages sourceStyleImages)).
Proof.
  intros Hsel Hr. split.
  - rewrite (runOperation_events op w Hsel).
    rewrite (reads_succeed_readable w (inputFiles op) Hr).
    rewrite startedReads_all, readStages_inputFiles; [reflexivity|].
    rewrite readStages_inputFiles. apply reads_succeed_readable. exact Hr.
  - intros cps ssi.
    destruct cps, ssi as [[|x l]|]; split; vm_compute; reflexivity.
Qed.

Lemma request_parts_in_order_witness :
  selectionMade (CompositeProductWithBackground pngFile pngFile true (Some [textFile])) = true /\
  readsSucceed (answeringWorld imagePartOnly) /\
  List.map isCall
    (events (runOperation
               (CompositeProductWithBackground pngFile pngFile true (Some [textFile])))
            (answeringWorld imagePartOnly))
  = [false; false; false; true].
Proof.
  assert (Hr : readsSucceed (answeringWorld imagePartOnly)) by (intros f; discriminate).
  split; [reflexivity|]. split; [exact Hr|].
  rewrite (proj1 (request_parts_in_order
                    (CompositeProductWithBackground pngFile pngFile true (Some [textFile]))
                    (answeringWorld imagePartOnly) eq_refl Hr)).
  reflexivity.
Defined.

Lemma generateImage_events (prompt : string) (aspectRatio : AspectRatio)
  (negativePrompt : option string) (seed : option Z) (w : World) :
  events (GeminiService.generateImage prompt aspectRatio negativePrompt seed) w =
  [GenerateImages
     {| imagesModel := "imagen-4.0-generate-001";
        Remote.prompt := prompt;
        numberOfImages := 1;
        outputMimeType := "image/png";
        imagesAspectRatio := aspectRatio;
        Remote.negativePrompt :=
          if GeminiService.truthyOpt negativePrompt then negativePrompt else None;
        Remote.seed := seed |}].
Proof.
  unfold GeminiService.generateImage. rewrite events_bind.
  unfold outcome at 1, events at 1 2. cbn [generateImages fst snd].
  destruct (generateImagesApi w _) as [r|e]; [|reflexivity].
  destruct (generatedImages r) as [[|x l]|]; reflexivity.
Qed.

Lemma generateProductDetails_events (productImage : File.t) (w : World) :
  events (GeminiService.generateProductDetails productImage) w =
  (ReadFile productImage
   :: if readable w productImage then
        [GenerateContent
           {| model := "gemini-2.5-flash";
              contents := [partOfFile w productImage;
                           TextPart GeminiService.productDetailsPrompt];
              config := JsonSchema GeminiService.productDetailFields |}]
      else [])%list.
Proof.
  unfold GeminiService.generateProductDetails. run_service.
  destruct (readable w productImage); [|reflexivity].
  run_service. destruct (generateContentApi w _) as [response|e]; [|reflexivity].
  rewrite events_tryCatch.
  destruct (text response) as [body|]; [|reflexivity].
  destruct (negb (truthy (trim body))); [reflexivity|].
  destruct (JSON.parse (trim body)); reflexivity.
Qed.

Lemma generateProductDetails_unreadable (productImage : File.t) (w : World) :
  readable w productImage = false ->
  outcome (GeminiService.generateProductDetails productImage) w
  = Throw (JsError GeminiService.detailsUnknown).
Proof.
  intros H. unfold GeminiService.generateProductDetails. run_service.
  rewrite H. reflexivity.
Qed.

Lemma no_call_among_reads (l : list File.t) :
  Forall (fun e => isCall e = false) (List.map ReadFile l).
Proof. apply List.Forall_forall. intros e He. apply in_map_iff in He as (f & <- & _). reflexivity. Qed.

(** X2.  When one of the files an operation takes cannot be read, the
    operation sends no request at all, and it fails: with the fixed
    "unknown error" message of its [catch] block when it has one (the
    rejection of a [FileReader] is not an [Error]), with the rejection
    itself when it has none. *)
Theorem unreadable_file_sends_nothing (op : RemoteOperation) (w : World) :
  remoteSelectionMade op = true ->
  forallb (readable w) (remoteInputFiles op) = false ->
  Forall (fun e => isCall e = false) (eventsOf op w) /\
  thrownBy op w = Some (wrapWith (remoteWrapper op) readFailure).
Proof.
  intros Hsel Hun. destruct op as [op | p r n s | f];
    cbn [eventsOf thrownBy remoteWrapper remoteInputFiles remoteSelectionMade] in *.
  - split.
    + rewrite (runOperation_events op w Hsel), Hun, app_nil_r. apply no_call_among_reads.
    + rewrite (runOperation_unreadable op w Hsel Hun). reflexivity.
  - discriminate Hun.
  - cbn [forallb] in Hun. rewrite andb_true_r in Hun. split.
    + rewrite generateProductDetails_events, Hun. repeat constructor.
    + rewrite (generateProductDetails_unreadable f w Hun). reflexivity.
Qed.

Lemma unreadable_file_sends_nothing_witness :
  remoteSelectionMade
    (ImageOp (CopyProductStyle [pngFile; textFile; pngFile] pngFile productStyleOnly)) = true /\
  forallb (readable (worldWithout isTextFile imagePartOnly))
    (remoteInputFiles
       (ImageOp (CopyProductStyle [pngFile; textFile; pngFile] pngFile productStyleOnly)))
  = false /\
  eventsOf (ImageOp (CopyProductStyle [pngFile; textFile; pngFile] pngFile productStyleOnly))
    (worldWithout isTextFile imagePartOnly)
  = [ReadFile pngFile; ReadFile textFile; ReadFile pngFile] /\
  thrownBy (ImageOp (CopyProductStyle [pngFile; textFile; pngFile] pngFile productStyleOnly))
    (worldWithout isTextFile imagePartOnly)
  = Some (JsError "An unknown network or API error occurred.").
Proof.
  split; [reflexivity|]. split; [reflexivity|]. split; [vm_compute; reflexivity|].
  exact (proj2 (unreadable_file_sends_nothing
                  (ImageOp (CopyProductStyle [pngFile; textFile; pngFile] pngFile
                              productStyleOnly))
                  (worldWithout isTextFile imagePartOnly) eq_refl eq_refl)).
Defined.

(** X3.  Whatever the world does, an operation of the service calls the
    remote service at most once, and only after every read it starts: there
    is no retry and no second request.  Without a selection,
    [copyProductStyle] starts nothing. *)
Theorem at_most_one_call (op : RemoteOperation) (w : World) :
  exists reads calls,
    eventsOf op w = (List.map ReadFile reads ++ calls)%list /\
    Forall (fun e => isCall e = true) calls /\
    (length calls <= 1)%nat /\
    (remoteSelectionMade op = false -> eventsOf op w = []).
Proof.
  destruct op as [op | p r n s | f]; cbn [eventsOf remoteSelectionMade].
  - destruct (selectionMade op) eqn:Hsel.
    + exists (startedReads w (readStages op)).
      exists (if forallb (readable w) (inputFiles op)
              then [GenerateContent (requestOf w op)] else []).
      split; [apply runOperation_events; exact Hsel|].
      destruct (forallb (readable w) (inputFiles op)); cbn [length];
        repeat split; try lia; try discriminate; repeat constructor.
    + exists [], []. destruct op as [f bg t r | f pr | srcs tgt o | srcs ap | tgt bgi cps ssi];
        try discriminate Hsel. cbn [selectionMade] in Hsel.
      assert (E : events (runOperation (CopyProductStyle srcs tgt o)) w = []).
      { cbn [runOperation]. unfold GeminiService.copyProductStyle.
        destruct (GeminiService.CopyStyleOptions.copyProductStyle o),
                 (GeminiService.CopyStyleOptions.copyBackgroundStyle o),
                 (GeminiService.CopyStyleOptions.isTransparent o);
          try discriminate Hsel. reflexivity. }
      rewrite E. repeat split; try constructor. cbn. lia.
  - exists []. eexists. split; [apply generateImage_events|].
    repeat split; try discriminate; repeat constructor.
  - exists [f]. eexists. split; [rewrite generateProductDetails_events; reflexivity|].
    destruct (readable w f); cbn [length]; repeat split; try lia; try discriminate;
      repeat constructor.
Qed.

(** * Further properties of the canvas *)

(** X4.  For every resolution from 0 to 2^48 (where the products the
    program forms are exact in double precision) and every aspect ratio,
    the canvas [getCanvasDimensions] computes has its longer side equal to
    the resolution and its shorter side between 0 and the resolution, and
    its sides are in the requested ratio up to the rounding of half a
    pixel: twice the difference of w * height and h * width is at most the
    larger of w and h. *)
Theorem canvas_within_resolution (resolution : Z) (r : AspectRatio) :
  (0 <= resolution <= 2 ^ 48)%Z ->
  exists d,
    FileUtils.getCanvasDimensions resolution r = Some d /\
    (0 <= FileUtils.width d <= resolution)%Z /\
    (0 <= FileUtils.height d <= resolution)%Z /\
    Z.max (FileUtils.width d) (FileUtils.height d) = resolution /\
    (2 * Z.abs (fst (ratioNumbers r) * FileUtils.height d
                - snd (ratioNumbers r) * FileUtils.width d)
     <= Z.max (fst (ratioNumbers r)) (snd (ratioNumbers r)))%Z.
Proof.
  intros Hres.
  destruct r; (eexists; split; [reflexivity|]);
    cbn [FileUtils.width FileUtils.height ratioNumbers fst snd];
    match goal with
    | |- context [Math_round ?q] =>
        let H1 := fresh "H1" in let H2 := fresh "H2" in
        destruct (Math_round_roundHalfUp q) as [H1 H2];
        generalize dependent (Math_round q); intros m H1 H2;
        unfold Qle, Qlt, Qminus, Qplus, Qopp, Qdiv, Qmult, Qinv, inject_Z in H1, H2;
        simpl in H1, H2
    end; lia.
Qed.

Lemma canvas_within_resolution_witness :
  (0 <= 1500 <= 2 ^ 48)%Z /\
  exists d,
    FileUtils.getCanvasDimensions 1500 R16_9 = Some d /\
    (0 <= FileUtils.width d <= 1500)%Z /\
    (0 <= FileUtils.height d <= 1500)%Z /\
    Z.max (FileUtils.width d) (FileUtils.height d) = 1500%Z /\
    (2 * Z.abs (16 * FileUtils.height d - 9 * FileUtils.width d) <= 16)%Z.
Proof.
  split; [lia|].
  exact (canvas_within_resolution 1500 R16_9 ltac:(lia)).
Defined.

(** X5.  The canvas a prompt describes and the canvas an export draws have
    the same orientation: for every ratio and every quality tier the
    description says "landscape" exactly when the export is wider than
    tall, "portrait" exactly when it is taller than wide and "square"
    exactly when its sides are equal, and it names the ratio exactly when
    the canvas is not square.  The 1500 pixels of the description are the
    longer side of the export at the High and Maximum tiers. *)
Theorem description_matches_export (q : ExportQuality) (r : AspectRatio) :
  exists d,
    FileUtils.getCanvasDimensions (FileUtils.resolution (FileUtils.QUALITY_PRESETS q)) r
    = Some d /\
    includes "landscape" (GeminiService.getCanvasDescription r)
    = (FileUtils.height d <? FileUtils.width d)%Z /\
    includes "portrait" (GeminiService.getCanvasDescription r)
    = (FileUtils.width d <? FileUtils.height d)%Z /\
    includes "square" (GeminiService.getCanvasDescription r)
    = (FileUtils.width d =? FileUtils.height d)%Z /\
    includes (aspectRatioString r) (GeminiService.getCanvasDescription r)
    = negb (FileUtils.width d =? FileUtils.height d)%Z /\
    includes "1500" (GeminiService.getCanvasDescription r) = true /\
    (q <> Standard -> Z.max (FileUtils.width d) (FileUtils.height d) = 1500%Z).
Proof.
  destruct q, r; eexists; (split; [reflexivity|]);
    repeat split; try (vm_compute; reflexivity); intros H; try reflexivity;
    exfalso; apply H; reflexivity.
Qed.

(** * Further properties of the prompts *)

Lemma startsWith_self (p b : string) : startsWith p (p ++ b) = true.
Proof.
  induction p as [|c p IH]; [reflexivity|].
  rewrite append_cons. cbn [startsWith]. rewrite Ascii.eqb_refl, IH. reflexivity.
Qed.

Lemma startsWith_app_l (p a b : string) :
  startsWith p a = true -> startsWith p (a ++ b) = true.
Proof.
  revert a. induction p as [|c p IH]; intros a H; [reflexivity|].
  destruct a as [|x a]; [discriminate H|].
  rewrite append_cons. cbn [startsWith] in *.
  apply andb_prop in H as [-> H]. rewrite (IH a H). reflexivity.
Qed.

Lemma includes_unfold (p s : string) :
  includes p s =
  startsWith p s || match s with EmptyString => false | String _ s' => includes p s' end.
Proof. destruct s; reflexivity. Qed.

Lemma includes_app_l (p a b : string) :
  includes p a = true -> includes p (a ++ b) = true.
Proof.
  induction a as [|x a IH]; intros H.
  - rewrite includes_unfold in H. rewrite orb_false_r in H.
    destruct p; [|discriminate H]. destruct b; reflexivity.
  - rewrite append_cons, includes_unfold. rewrite includes_unfold in H.
    apply orb_prop in H as [H|H].
    + rewrite <- append_cons, (startsWith_app_l _ _ b H). reflexivity.
    + rewrite (IH H). apply orb_true_r.
Qed.

Lemma includes_app_r (p a s : string) :
  includes p s = true -> includes p (a ++ s) = true.
Proof.
  intros H. induction a as [|x a IH]; [exact H|].
  rewrite append_cons, includes_unfold, IH. apply orb_true_r.
Qed.

Lemma includes_self (p b : string) : includes p (p ++ b) = true.
Proof. rewrite includes_unfold, startsWith_self. reflexivity. Qed.

(** [q] occurs in any concatenation of the form [a ++ q ++ b]. *)
Lemma includes_middle (q a b : string) : includes q (a ++ q ++ b) = true.
Proof. apply includes_app_r, includes_self. Qed.

Lemma quoted_then (x rest : string) :
  dquote ++ x ++ dquote ++ rest = quoted x ++ rest.
Proof. unfold quoted. rewrite !string_app_assoc. reflexivity. Qed.

(** X6.  The text a user types reaches the model as typed.  For every
    background description the composite prompt of the non-transparent
    branch contains it between double quotes, and every composite prompt
    contains the canvas description it is given; the transparent branch
    does not depend on the background description at all.  For every
    non-empty additional instruction the style-copy prompt, whatever the
    toggles, and the styled-background prompt contain it between double
    quotes; an empty instruction gives the prompt of no instruction. *)
Theorem prompts_carry_user_text :
  (forall backgroundPrompt canvasDescription,
     includes (quoted backgroundPrompt)
       (GeminiService.compositePrompt backgroundPrompt false canvasDescription) = true) /\
  (forall backgroundPrompt isTransparent canvasDescription,
     includes canvasDescription
       (GeminiService.compositePrompt backgroundPrompt isTransparent canvasDescription)
     = true) /\
  (forall backgroundPrompt backgroundPrompt' canvasDescription,
     GeminiService.compositePrompt backgroundPrompt true canvasDescription
     = GeminiService.compositePrompt backgroundPrompt' true canvasDescription) /\
  (forall copyProductStyle isTransparent additionalPrompt,
     truthy additionalPrompt = true ->
     includes (quoted additionalPrompt)
       (GeminiService.copyStylePrompt copyProductStyle isTransparent
          (Some additionalPrompt)) = true) /\
  (forall additionalPrompt,
     truthy additionalPrompt = true ->
     includes (quoted additionalPrompt)
       (GeminiService.styledBackgroundPrompt (Some additionalPrompt)) = true) /\
  (forall copyProductStyle isTransparent,
     GeminiService.copyStylePrompt copyProductStyle isTransparent (Some EmptyString)
     = GeminiService.copyStylePrompt copyProductStyle isTransparent None) /\
  GeminiService.styledBackgroundPrompt (Some EmptyString)
  = GeminiService.styledBackgroundPrompt None.
Proof.
  split; [|split; [|split; [|split; [|split; [|split]]]]].
  - intros bg c. unfold GeminiService.compositePrompt.
    apply includes_app_r. rewrite quoted_then. apply includes_self.
  - intros bg t c. unfold GeminiService.compositePrompt. destruct t.
    + apply includes_app_r, includes_self.
    + do 5 apply includes_app_r. apply includes_self.
  - reflexivity.
  - intros cps t ap H. unfold GeminiService.copyStylePrompt. rewrite H. cbv zeta.
    destruct t, cps; apply includes_app_l.
    + do 2 apply includes_app_r. rewrite quoted_then. apply includes_self.
    + do 2 apply includes_app_r. rewrite quoted_then. apply includes_self.
    + apply includes_app_l.
      do 2 apply includes_app_r. rewrite quoted_then. apply includes_self.
    + do 2 apply includes_app_r. rewrite quoted_then. apply includes_self.
  - intros ap H. unfold GeminiService.styledBackgroundPrompt. rewrite H. cbv zeta.
    do 2 apply includes_app_r. rewrite quoted_then. apply includes_self.
  - reflexivity.
  - reflexivity.
Qed.

(** * Further properties of the presets *)

(** One character of a string literal, quoted and read back. *)
Lemma parseChars_quoteChar (c : ascii) (l : list ascii) :
  JSON.parseChars (JSON.quoteChar c ++ l)%list =
  match JSON.parseChars l with
  | Some (cs, r) => Some (c :: cs, r)
  | None => None
  end.
Proof.
  destruct c as [[] [] [] [] [] [] [] []];
    first [ reflexivity
          | simpl; destruct (JSON.parseChars l) as [[cs r]|]; reflexivity ].
Qed.

Lemma parseChars_quoted (cs rest : list ascii) :
  JSON.parseChars (List.concat (List.map JSON.quoteChar cs) ++ JSON.chr 34 :: rest)%list
  = Some (cs, rest).
Proof.
  induction cs as [|c cs IH]; [reflexivity|].
  cbn [List.map List.concat]. rewrite <- app_assoc, parseChars_quoteChar, IH. reflexivity.
Qed.

Lemma quote_then (x : string) (rest : list ascii) :
  (JSON.quote x ++ rest)%list
  = JSON.chr 34
      :: (List.concat (List.map JSON.quoteChar (list_ascii_of_string x))
          ++ JSON.chr 34 :: rest)%list.
Proof. unfold JSON.quote. cbn [app]. rewrite <- app_assoc. reflexivity. Qed.

(** A quoted string is read back as the string, given fuel for one call. *)
Lemma parseValue_quoted (n : nat) (x : string) (rest : list ascii) :
  JSON.parseValue (S n) (JSON.quote x ++ rest)%list = Some (JSON.JString x, rest).
Proof.
  rewrite quote_then. cbn [JSON.parseValue JSON.skipWs].
  replace (JSON.isWs (JSON.chr 34)) with false by reflexivity.
  replace (Ascii.eqb (JSON.chr 34) (JSON.chr 34)) with true by reflexivity.
  rewrite parseChars_quoted, string_of_list_ascii_of_string. reflexivity.
Qed.

Lemma parseElements_S (n : nat) (l : list ascii) :
  JSON.parseElements (S n) l =
  match JSON.parseValue n l with
  | None => None
  | Some (v, r) =>
      match JSON.skipWs r with
      | c :: rest =>
          if Ascii.eqb c "," then
            match JSON.parseElements n rest with
            | Some (vs, r') => Some (v :: vs, r')
            | None => None
            end
          else if Ascii.eqb c "]" then Some ([v], rest)
          else None
      | [] => None
      end
  end.
Proof. reflexivity. Qed.

Lemma joinComma_more (a b : list ascii) (l : list (list ascii)) :
  JSON.joinComma (a :: b :: l) = (a ++ ","%char :: JSON.joinComma (b :: l))%list.
Proof. reflexivity. Qed.

Lemma parseElements_strings (xs : list string) :
  forall (x : string) (n : nat) (rest : list ascii),
    (length xs + 2 <= n)%nat ->
    JSON.parseElements n
      (JSON.joinComma (List.map JSON.quote (x :: xs)) ++ "]"%char :: rest)%list
    = Some (List.map JSON.JString (x :: xs), rest).
Proof.
  induction xs as [|y xs IH]; intros x n rest Hn.
  - destruct n as [|[|n]]; try (cbn in Hn; lia).
    rewrite parseElements_S. cbn [List.map JSON.joinComma].
    rewrite parseValue_quoted. reflexivity.
  - destruct n as [|[|n]]; try (cbn in Hn; lia).
    rewrite parseElements_S. cbn [List.map].
    rewrite joinComma_more, <- app_assoc, parseValue_quoted.
    change ((","%char :: JSON.joinComma (JSON.quote y :: List.map JSON.quote xs))
            ++ "]"%char :: rest)%list
      with (","%char :: (JSON.joinComma (List.map JSON.quote (y :: xs))
                         ++ "]"%char :: rest))%list.
    replace (JSON.skipWs
               (","%char :: (JSON.joinComma (List.map JSON.quote (y :: xs))
                             ++ "]"%char :: rest))%list)
      with (","%char :: (JSON.joinComma (List.map JSON.quote (y :: xs))
                         ++ "]"%char :: rest))%list by reflexivity.
    replace (Ascii.eqb ","%char ","%char) with true by reflexivity.
    rewrite IH by (cbn [length] in Hn; lia). reflexivity.
Qed.

Lemma length_joinComma (l : list string) :
  (length l <= length (JSON.joinComma (List.map JSON.quote l)))%nat.
Proof.
  induction l as [|x [|y l] IH]; cbn [List.map JSON.joinComma length] in *.
  - lia.
  - unfold JSON.quote. cbn [length]. lia.
  - rewrite length_app. cbn [length]. unfold JSON.quote at 1. cbn [length]. lia.
Qed.

(** [JSON.parse] reads back what [JSON.stringify] writes for an array of
    strings. *)
Lemma parse_stringifyStrings (l : list string) :
  JSON.parse (JSON.stringifyStrings l) = Some (JSON.JArray (List.map JSON.JString l)).
Proof.
  unfold JSON.parse, JSON.stringifyStrings.
  rewrite list_ascii_of_string_of_list_ascii.
  destruct l as [|x xs]; [reflexivity|].
  set (text := JSON.joinComma (List.map JSON.quote (x :: xs))).
  assert (Hlen : (length (x :: xs) <= length text)%nat) by apply length_joinComma.
  cbn [length] in Hlen |- *. rewrite length_app. cbn [length].
  replace (2 * S (length text + 1) + 2)%nat with (S (S (S (2 * length text + 3)))) by lia.
  cbn [JSON.parseValue JSON.skipWs].
  replace (JSON.isWs "["%char) with false by reflexivity.
  replace (Ascii.eqb "["%char (JSON.chr 34)) with false by reflexivity.
  replace (Ascii.eqb "["%char "["%char) with true by reflexivity.
  assert (Hhead : exists tl, (text ++ ["]"%char])%list = JSON.chr 34 :: tl).
  { unfold text. destruct xs as [|y xs]; cbn [List.map].
    - cbn [JSON.joinComma]. rewrite quote_then. eexists; reflexivity.
    - rewrite joinComma_more, <- app_assoc, quote_then. eexists; reflexivity. }
  destruct Hhead as [tl Htl]. rewrite Htl. cbn [JSON.skipWs].
  replace (JSON.isWs (JSON.chr 34)) with false by reflexivity.
  replace (Ascii.eqb (JSON.chr 34) "]"%char) with false by reflexivity.
  rewrite <- Htl. unfold text.
  unfold text in Hlen.
  rewrite (parseElements_strings xs x _ []) by lia. reflexivity.
Qed.

Lemma stringItems_strings (l : list string) :
  ProductStudio.stringItems (List.map JSON.JString l) = Some l.
Proof.
  induction l as [|x l IH]; [reflexivity|].
  cbn [List.map ProductStudio.stringItems]. rewrite IH. reflexivity.
Qed.

Lemma truthy_stringifyStrings (l : list string) :
  truthy (JSON.stringifyStrings l) = true.
Proof. reflexivity. Qed.

(** A fresh view mounted on a store that holds [presets] shows them. *)
Lemma load_what_store_holds (presets : list string) (store : LocalStorage.t) :
  storeHolds presets store ->
  ProductStudio.loadUserPresets store ProductStudio.initialState
  = Some (ProductStudio.setUserPresets presets ProductStudio.initialState).
Proof.
  intros [_ [H | [H ->]]]; unfold ProductStudio.loadUserPresets; rewrite H.
  - rewrite truthy_stringifyStrings, parse_stringifyStrings, stringItems_strings.
    reflexivity.
  - reflexivity.
Qed.

Lemma setItem_holds (presets : list string) (store : LocalStorage.t) :
  LocalStorage.full store = false ->
  exists store',
    LocalStorage.setItem ProductStudio.USER_PRESETS_STORAGE_KEY
      (JSON.stringifyStrings presets) store = Ok store' /\
    storeHolds presets store'.
Proof.
  intros Hfull. unfold LocalStorage.setItem. rewrite Hfull.
  eexists. split; [reflexivity|]. split; [reflexivity|]. left.
  unfold LocalStorage.getItem. cbn [LocalStorage.items]. apply lookup_insert_eq.
Qed.

Lemma presetStep_holds (a : PresetAction) (c : ProductStudio.State * LocalStorage.t) :
  storeHolds (ProductStudio.userPresets (fst c)) (snd c) ->
  storeHolds (ProductStudio.userPresets (fst (presetStep a c))) (snd (presetStep a c)).
Proof.
  destruct c as [s store]. cbn [fst snd]. intros H.
  destruct a as [text | | preset]; cbn [presetStep fst snd].
  - exact H.
  - unfold ProductStudio.handleSavePreset.
    destruct (negb _); [exact H|]. destruct (existsb _ _); [exact H|].
    destruct (setItem_holds
                (ProductStudio.userPresets s ++ [trim (ProductStudio.backgroundPrompt s)])
                store (proj1 H)) as (store' & -> & H').
    exact H'.
  - unfold ProductStudio.handleDeletePreset.
    destruct (setItem_holds
                (List.filter (fun p => negb (String.eqb p preset))
                   (ProductStudio.userPresets s))
                store (proj1 H)) as (store' & -> & H').
    exact H'.
Qed.

Lemma presetRun_holds (actions : list PresetAction)
  (c : ProductStudio.State * LocalStorage.t) :
  storeHolds (ProductStudio.userPresets (fst c)) (snd c) ->
  storeHolds (ProductStudio.userPresets (fst (presetRun actions c)))
             (snd (presetRun actions c)).
Proof.
  revert c. induction actions as [|a actions IH]; intros c H; [exact H|].
  cbn [presetRun fold_left]. apply IH. apply presetStep_holds. exact H.
Qed.

(** X7.  The user presets survive a reload.  Starting with a store that
    holds the presets of the view and is not full, after any sequence of
    typing, saving and deleting, a fresh view mounted on the store loads
    exactly the list of user presets the old view ended with: what
    [JSON.stringify] wrote under the fixed key, [JSON.parse] reads back. *)
Theorem presets_survive_reload (actions : list PresetAction)
  (s : ProductStudio.State) (store : LocalStorage.t) :
  storeHolds (ProductStudio.userPresets s) store ->
  ProductStudio.loadUserPresets (snd (presetRun actions (s, store)))
    ProductStudio.initialState
  = Some (ProductStudio.setUserPresets
            (ProductStudio.userPresets (fst (presetRun actions (s, store))))
            ProductStudio.initialState).
Proof.
  intros H. apply load_what_store_holds.
  apply (presetRun_holds actions (s, store)). exact H.
Qed.

Lemma presets_survive_reload_witness :
  storeHolds (ProductStudio.userPresets ProductStudio.initialState) emptyStore /\
  option_map ProductStudio.userPresets
    (ProductStudio.loadUserPresets
       (snd (presetRun [TypePrompt "  On wet asphalt at night. "; SavePreset;
                        TypePrompt "A desk, seen from above"; SavePreset; SavePreset;
                        DeletePreset "On wet asphalt at night."]
               (ProductStudio.initialState, emptyStore)))
       ProductStudio.initialState)
  = Some ["A desk, seen from above"].
Proof.
  assert (H : storeHolds (ProductStudio.userPresets ProductStudio.initialState) emptyStore)
    by (split; [reflexivity|right; split; reflexivity]).
  split; [exact H|].
  rewrite (presets_survive_reload _ ProductStudio.initialState emptyStore H).
  vm_compute. reflexivity.
Defined.

(** What the two handlers leave in the view, whatever the store does. *)
Lemma savePreset_presets (s : ProductStudio.State) (store : LocalStorage.t) :
  ProductStudio.userPresets (fst (ProductStudio.handleSavePreset s store))
  = if negb (truthy (trim (ProductStudio.backgroundPrompt s)))
       || existsb (String.eqb (trim (ProductStudio.backgroundPrompt s)))
            (builtinPrompts ++ ProductStudio.userPresets s)%list
    then ProductStudio.userPresets s
    else (ProductStudio.userPresets s ++ [trim (ProductStudio.backgroundPrompt s)])%list.
Proof.
  unfold ProductStudio.handleSavePreset, builtinPrompts.
  destruct (negb _); [reflexivity|]. cbn [orb].
  destruct (existsb _ _); [reflexivity|].
  destruct (LocalStorage.setItem _ _ _); reflexivity.
Qed.

Lemma deletePreset_presets (p : string) (s : ProductStudio.State)
  (store : LocalStorage.t) :
  ProductStudio.userPresets (fst (ProductStudio.handleDeletePreset p s store))
  = List.filter (fun q => negb (String.eqb q p)) (ProductStudio.userPresets s).
Proof.
  unfold ProductStudio.handleDeletePreset.
  destruct (LocalStorage.setItem _ _ _); reflexivity.
Qed.

Lemma existsb_eqb_false (x : string) (l : list string) :
  existsb (String.eqb x) l = false -> ~ In x l.
Proof.
  intros H Hin. rewrite (existsb_eqb_In x l Hin) in H. discriminate.
Qed.

Lemma NoDup_snoc (x : string) (l : list string) :
  List.NoDup l -> ~ In x l -> List.NoDup (l ++ [x])%list.
Proof.
  intros Hl Hx. induction Hl as [|y l Hy Hl IH]; cbn [app].
  - constructor; [intros []|constructor].
  - constructor.
    + intros Hin. apply in_app_or in Hin. destruct Hin as [Hin | [-> | []]].
      * exact (Hy Hin).
      * apply Hx. left. reflexivity.
    + apply IH. intros Hin. apply Hx. right. exact Hin.
Qed.

Lemma presetStep_tidy (a : PresetAction) (c : ProductStudio.State * LocalStorage.t) :
  presetsTidy (ProductStudio.userPresets (fst c)) ->
  presetsTidy (ProductStudio.userPresets (fst (presetStep a c))).
Proof.
  destruct c as [s store]. cbn [fst]. intros [Hnd Hall].
  destruct a as [text | | preset]; cbn [presetStep fst snd].
  - split; assumption.
  - rewrite savePreset_presets.
    destruct (truthy (trim (ProductStudio.backgroundPrompt s))) eqn:Htruthy;
      cbn [negb orb]; [|split; assumption].
    destruct (existsb _ _) eqn:Hnew; [split; assumption|].
    pose proof (existsb_eqb_false _ _ Hnew) as Hout.
    split.
    + apply NoDup_snoc; [exact Hnd|].
      intros Hin. apply Hout, in_or_app. right. exact Hin.
    + apply Forall_app. split; [exact Hall|].
      constructor; [|constructor].
      split; [apply trim_idempotent|]. split; [exact Htruthy|].
      intros Hin. apply Hout, in_or_app. left. exact Hin.
  - rewrite deletePreset_presets. split.
    + apply List.NoDup_filter. exact Hnd.
    + rewrite List.Forall_forall in Hall |- *. intros q Hq.
      apply List.filter_In in Hq. apply Hall. apply Hq.
Qed.

(** X8.  The user presets of a view that starts without any stay in good
    order under every sequence of typing, saving and deleting, whether the
    store accepts the writes or not: no preset is listed twice, none is
    empty, none has white space at its ends, and none repeats the prompt of
    a built-in preset. *)
Theorem presets_stay_tidy (actions : list PresetAction) (store : LocalStorage.t) :
  presetsTidy
    (ProductStudio.userPresets (fst (presetRun actions (ProductStudio.initialState, store)))).
Proof.
  assert (H : forall c, presetsTidy (ProductStudio.userPresets (fst c)) ->
                        presetsTidy (ProductStudio.userPresets (fst (presetRun actions c)))).
  { induction actions as [|a actions IH]; intros c Hc; [exact Hc|].
    cbn [presetRun fold_left]. apply IH, presetStep_tidy, Hc. }
  apply H. split; [constructor|constructor].
Qed.

(** X9.  The Save button is disabled exactly when [handleSavePreset] would
    do nothing.  While no generation is running, [isSaveDisabled] holds if
    and only if the handler leaves the view and every store as they are;
    and when the button is enabled, the handler appends the trimmed
    description, and nothing else, to the user presets. *)
Theorem save_button_agrees_with_handler (s : ProductStudio.State) :
  ProductStudio.isLoading s = false ->
  (ProductStudio.isSaveDisabled s = true <->
   forall store, ProductStudio.handleSavePreset s store = (s, store)) /\
  (ProductStudio.isSaveDisabled s = false ->
   forall store,
     ProductStudio.userPresets (fst (ProductStudio.handleSavePreset s store))
     = (ProductStudio.userPresets s ++ [trim (ProductStudio.backgroundPrompt s)])%list).
Proof.
  intros Hload.
  assert (Hdis : ProductStudio.isSaveDisabled s
                 = negb (truthy (trim (ProductStudio.backgroundPrompt s)))
                   || existsb (String.eqb (trim (ProductStudio.backgroundPrompt s)))
                        (builtinPrompts ++ ProductStudio.userPresets s)%list).
  { unfold ProductStudio.isSaveDisabled. rewrite Hload. reflexivity. }
  assert (Hadd : ProductStudio.isSaveDisabled s = false ->
                 forall store,
                   ProductStudio.userPresets (fst (ProductStudio.handleSavePreset s store))
                   = (ProductStudio.userPresets s
                      ++ [trim (ProductStudio.backgroundPrompt s)])%list).
  { intros H store. rewrite savePreset_presets, <- Hdis, H. reflexivity. }
  split; [|exact Hadd]. split.
  - intros H store. rewrite Hdis in H. unfold ProductStudio.handleSavePreset.
    destruct (negb _); [reflexivity|]. cbn [orb] in H.
    unfold builtinPrompts in H. rewrite H. reflexivity.
  - intros H. destruct (ProductStudio.isSaveDisabled s) eqn:Hd; [reflexivity|].
    exfalso. specialize (Hadd eq_refl emptyStore). rewrite (H emptyStore) in Hadd.
    cbn [fst] in Hadd. apply (f_equal (@List.length string)) in Hadd.
    rewrite List.length_app in Hadd. cbn [List.length] in Hadd. lia.
Qed.

Lemma save_button_agrees_with_handler_witness :
  ProductStudio.isLoading
    (ProductStudio.setBackgroundPrompt " On a pier at dawn " ProductStudio.initialState)
  = false /\
  ProductStudio.userPresets
    (fst (ProductStudio.handleSavePreset
            (ProductStudio.setBackgroundPrompt " On a pier at dawn "
               ProductStudio.initialState) emptyStore))
  = ["On a pier at dawn"].
Proof.
  split; [reflexivity|].
  exact (proj2 (save_button_agrees_with_handler
                  (ProductStudio.setBackgroundPrompt " On a pier at dawn "
                     ProductStudio.initialState) eq_refl) eq_refl emptyStore).
Defined.

Lemma filter_others (p : string) (l : list string) :
  ~ In p l -> List.filter (fun q => negb (String.eqb q p)) l = l.
Proof.
  induction l as [|x l IH]; intros H; [reflexivity|].
  cbn [List.filter]. destruct (String.eqb_spec x p) as [-> | Hne].
  - exfalso. apply H. left. reflexivity.
  - cbn [negb]. f_equal. apply IH. intros Hin. apply H. right. exact Hin.
Qed.

(** X10.  A preset that was just saved is taken back by deleting it.  When
    the Save button is enabled, saving and then deleting the trimmed
    description leaves the list of user presets as it was before the save,
    with a store that is full or not; deleting touches no other preset. *)
Theorem delete_undoes_save (s : ProductStudio.State) (store : LocalStorage.t) :
  ProductStudio.isSaveDisabled s = false ->
  let saved := ProductStudio.handleSavePreset s store in
  let deleted :=
    ProductStudio.handleDeletePreset (trim (ProductStudio.backgroundPrompt s))
      (fst saved) (snd saved) in
  In (trim (ProductStudio.backgroundPrompt s)) (ProductStudio.userPresets (fst saved)) /\
  ProductStudio.userPresets (fst deleted) = ProductStudio.userPresets s.
Proof.
  intros Hd saved deleted. subst deleted.
  rewrite deletePreset_presets. subst saved. rewrite savePreset_presets.
  unfold ProductStudio.isSaveDisabled in Hd.
  apply orb_false_iff in Hd. destruct Hd as [Hd Hnew].
  apply orb_false_iff in Hd. destruct Hd as [_ Htruthy].
  unfold builtinPrompts. rewrite Htruthy, Hnew. cbn [orb].
  split; [apply in_or_app; right; left; reflexivity|].
  rewrite List.filter_app. cbn [List.filter]. rewrite String.eqb_refl. cbn [negb].
  rewrite app_nil_r. apply filter_others.
  intros Hin. apply (existsb_eqb_false _ _ Hnew), in_or_app. right. exact Hin.
Qed.

Lemma delete_undoes_save_witness :
  ProductStudio.isSaveDisabled
    (ProductStudio.setBackgroundPrompt "Among autumn leaves "
       (ProductStudio.setUserPresets ["On a pier at dawn"] ProductStudio.initialState))
  = false /\
  ProductStudio.userPresets
    (fst (ProductStudio.handleDeletePreset "Among autumn leaves"
            (fst (ProductStudio.handleSavePreset
                    (ProductStudio.setBackgroundPrompt "Among autumn leaves "
                       (ProductStudio.setUserPresets ["On a pier at dawn"]
                          ProductStudio.initialState)) emptyStore))
            (snd (ProductStudio.handleSavePreset
                    (ProductStudio.setBackgroundPrompt "Among autumn leaves "
                       (ProductStudio.setUserPresets ["On a pier at dawn"]
                          ProductStudio.initialState)) emptyStore))))
  = ["On a pier at dawn"].
Proof.
  split; [reflexivity|].
  exact (proj2 (delete_undoes_save
                  (ProductStudio.setBackgroundPrompt "Among autumn leaves "
                     (ProductStudio.setUserPresets ["On a pier at dawn"]
                        ProductStudio.initialState)) emptyStore eq_refl)).
Defined.

(** * Further properties of the views *)

(** X11.  The three one-step views settle in every world.  After a submit
    that passes the validation, whatever the reads and the remote call do,
    the loading flag is off again, and the view shows either the returned
    image and no error, or the fixed message of the view: what was thrown
    never reaches the error line.  On a failure the Product Studio has no
    result left, while the Image Editor and the Image Generator, which do
    not clear it, still show the result they had. *)
Theorem simple_views_settle (w : World) :
  (forall s image,
     ProductStudio.productImage s = Some image ->
     truthy (ProductStudio.backgroundPrompt s) || ProductStudio.isTransparent s = true ->
     let s' := snd (ProductStudio.handleSubmit s w) in
     ProductStudio.isLoading s' = false /\
     ((exists generated, ProductStudio.resultImage s' = Some generated /\
                         ProductStudio.error s' = None) \/
      (ProductStudio.resultImage s' = None /\
       ProductStudio.error s' = Some ProductStudio.generationFailed))) /\
  (forall s image,
     ImageEditor.sourceImage s = Some image ->
     truthy (ImageEditor.prompt s) = true ->
     let s' := snd (ImageEditor.handleSubmit s w) in
     ImageEditor.isLoading s' = false /\
     ((exists edited, ImageEditor.resultImage s' = Some edited /\
                      ImageEditor.error s' = None) \/
      (ImageEditor.resultImage s' = ImageEditor.resultImage s /\
       ImageEditor.error s' = Some ImageEditor.editFailed))) /\
  (forall s,
     truthy (ImageGenerator.prompt s) = true ->
     let s' := snd (ImageGenerator.handleSubmit s w) in
     ImageGenerator.isLoading s' = false /\
     ((exists generated, ImageGenerator.resultImage s' = Some generated /\
                         ImageGenerator.error s' = None) \/
      (ImageGenerator.resultImage s' = ImageGenerator.resultImage s /\
       ImageGenerator.error s' = Some ImageGenerator.generationFailed))).
Proof.
  split; [|split].
  - intros s image Hi Hv. unfold ProductStudio.handleSubmit. rewrite Hi.
    replace (negb (truthy (ProductStudio.backgroundPrompt s))
             && negb (ProductStudio.isTransparent s)) with false
      by (destruct (truthy (ProductStudio.backgroundPrompt s)),
                   (ProductStudio.isTransparent s); try reflexivity; discriminate Hv).
    destruct (GeminiService.compositeProductImage _ _ _ _ w) as [evs [generated|e]];
      cbn; (split; [reflexivity|]).
    + left. exists generated. split; reflexivity.
    + right. split; reflexivity.
  - intros s image Hi Hv. unfold ImageEditor.handleSubmit. rewrite Hi, Hv. cbn [negb].
    destruct (GeminiService.editImageWithPrompt _ _ w) as [evs [edited|e]];
      cbn; (split; [reflexivity|]).
    + left. exists edited. split; reflexivity.
    + right. split; reflexivity.
  - intros s Hv. unfold ImageGenerator.handleSubmit. rewrite Hv. cbn [negb].
    destruct (GeminiService.generateImage _ _ _ _ w) as [evs [generated|e]];
      cbn; (split; [reflexivity|]).
    + left. exists generated. split; reflexivity.
    + right. split; reflexivity.
Qed.

(** A string of digits is read by [parseInt] from its first character on. *)
Lemma digit_not_space (a : ascii) (d : Z) : digit a = Some d -> isTrimSpace a = false.
Proof.
  destruct a as [[] [] [] [] [] [] [] []]; vm_compute; intros H;
    first [reflexivity | discriminate H].
Qed.

Lemma digit_not_sign (a : ascii) (d : Z) :
  digit a = Some d -> Ascii.eqb a "-" = false /\ Ascii.eqb a "+" = false.
Proof.
  destruct a as [[] [] [] [] [] [] [] []]; vm_compute; intros H;
    first [split; reflexivity | discriminate H].
Qed.

Lemma digit_range (a : ascii) (d : Z) : digit a = Some d -> (0 <= d <= 9)%Z.
Proof.
  unfold digit. destruct (_ && _) eqn:E; [|discriminate].
  intros H. injection H as <-. apply andb_true_iff in E. lia.
Qed.

Lemma onlyDigits_head (value : string) :
  onlyDigits value = EmptyString \/
  exists a d rest, onlyDigits value = String a rest /\ digit a = Some d.
Proof.
  induction value as [|a value IH]; [left; reflexivity|].
  cbn [onlyDigits]. destruct (digit a) as [d|] eqn:E; [|exact IH].
  right. exists a, d, (onlyDigits value). split; [reflexivity|exact E].
Qed.

Lemma length_onlyDigits (value : string) :
  (String.length (onlyDigits value) <= String.length value)%nat.
Proof.
  induction value as [|a value IH]; [reflexivity|].
  cbn [onlyDigits]. destruct (digit a); cbn [String.length]; lia.
Qed.

Lemma leadingDigits_onlyDigits (value : string) (acc : Z) (count : nat) :
  (0 <= acc)%Z ->
  exists n,
    leadingDigits acc count (onlyDigits value)
    = (n, (count + String.length (onlyDigits value))%nat) /\
    (0 <= n < (acc + 1) * 10 ^ Z.of_nat (String.length (onlyDigits value)))%Z.
Proof.
  revert acc count. induction value as [|a value IH]; intros acc count Hacc.
  - exists acc. cbn. split; [f_equal; lia|lia].
  - cbn [onlyDigits]. destruct (digit a) as [d|] eqn:E; [|apply IH; exact Hacc].
    cbn [leadingDigits String.length]. rewrite E.
    pose proof (digit_range a d E) as Hd.
    destruct (IH (10 * acc + d)%Z (S count) ltac:(lia)) as (n & Hn & Hb).
    exists n. split; [rewrite Hn; f_equal; lia|].
    rewrite Nat2Z.inj_succ, Z.pow_succ_r by lia.
    assert (0 <= 10 ^ Z.of_nat (String.length (onlyDigits value)))%Z by (apply Z.pow_nonneg; lia).
    nia.
Qed.

Lemma parseInt10_onlyDigits (value : string) :
  match parseInt10 (onlyDigits value) with
  | None => onlyDigits value = EmptyString
  | Some n =>
      onlyDigits value <> EmptyString /\
      (0 <= n < 10 ^ Z.of_nat (String.length (onlyDigits value)))%Z
  end.
Proof.
  destruct (onlyDigits_head value) as [E | (a & d & rest & E & Hd)].
  - rewrite E. reflexivity.
  - destruct (leadingDigits_onlyDigits value 0 0 ltac:(lia)) as (n & Hn & Hb).
    unfold parseInt10. rewrite E in *. cbn [trimStart].
    rewrite (digit_not_space a d Hd).
    destruct (digit_not_sign a d Hd) as [-> ->].
    rewrite Hn. cbn [String.length Nat.add].
    split; [discriminate|]. cbn [String.length] in Hb. lia.
Qed.

(** X12.  What the Image Generator asks for.  With a prompt entered and a
    seed field filled through its [onChange] from at most ten characters
    (the [maxLength] of the field), a submit sends exactly one request, to
    [imagen-4.0-generate-001], for one PNG image in the chosen aspect
    ratio; its prompt is the style, a comma and the prompt; the negative
    prompt is sent trimmed, and not at all when it is blank; and the seed is
    absent exactly when the field holds no digit, and otherwise a number
    from 0 to 9999999999. *)
Theorem generator_request (s : ImageGenerator.State) (value : string) (w : World) :
  truthy (ImageGenerator.prompt s) = true ->
  (String.length value <= 10)%nat ->
  exists request,
    fst (ImageGenerator.handleSubmit (ImageGenerator.changeSeed value s) w)
    = [GenerateImages request] /\
    imagesModel request = "imagen-4.0-generate-001" /\
    numberOfImages request = 1%nat /\
    outputMimeType request = "image/png" /\
    imagesAspectRatio request = ImageGenerator.aspectRatio s /\
    Remote.prompt request = ImageGenerator.style s ++ ", " ++ ImageGenerator.prompt s /\
    Remote.negativePrompt request
    = (if truthy (trim (ImageGenerator.negativePrompt s))
       then Some (trim (ImageGenerator.negativePrompt s)) else None) /\
    (Remote.seed request = None <-> onlyDigits value = EmptyString) /\
    (forall n, Remote.seed request = Some n -> (0 <= n <= 9999999999)%Z).
Proof.
  intros Hv Hlen. unfold ImageGenerator.handleSubmit.
  cbn [ImageGenerator.changeSeed ImageGenerator.setSeed ImageGenerator.prompt
       ImageGenerator.style ImageGenerator.seed ImageGenerator.negativePrompt
       ImageGenerator.aspectRatio].
  rewrite Hv. cbn [negb].
  pose proof (generateImage_events
                (ImageGenerator.style s ++ ", " ++ ImageGenerator.prompt s)
                (ImageGenerator.aspectRatio s)
                (if truthy (trim (ImageGenerator.negativePrompt s))
                 then Some (trim (ImageGenerator.negativePrompt s)) else None)
                (parseInt10 (onlyDigits value)) w) as Hev.
  unfold events in Hev.
  destruct (GeminiService.generateImage _ _ _ _ w) as [evs o]. cbn [fst] in Hev |- *.
  eexists. split; [exact Hev|]. cbn.
  repeat (split; [reflexivity|]).
  split; [destruct (truthy (trim (ImageGenerator.negativePrompt s))) eqn:E;
          cbn; rewrite ?E; reflexivity|].
  pose proof (parseInt10_onlyDigits value) as Hp.
  pose proof (length_onlyDigits value) as Hl.
  destruct (parseInt10 (onlyDigits value)) as [n|].
  - destruct Hp as [Hne Hb]. split; [split; [discriminate|intros E; contradiction]|].
    intros n' H. injection H as <-.
    assert (10 ^ Z.of_nat (String.length (onlyDigits value)) <= 10 ^ 10)%Z
      by (apply Z.pow_le_mono_r; lia).
    lia.
  - split; [split; [intros _; exact Hp|reflexivity]|]. intros n H. discriminate H.
Qed.

Lemma generator_request_witness :
  truthy (ImageGenerator.prompt ImageGenerator.initialState) = true /\
  (String.length "4 8-15x" <= 10)%nat /\
  exists request,
    fst (ImageGenerator.handleSubmit
           (ImageGenerator.changeSeed "4 8-15x" ImageGenerator.initialState)
           (answeringWorld textOnly))
    = [GenerateImages request] /\
    Remote.seed request = Some 4815%Z.
Proof.
  assert (Hv : truthy (ImageGenerator.prompt ImageGenerator.initialState) = true)
    by reflexivity.
  assert (Hl : (String.length "4 8-15x" <= 10)%nat) by (cbn; lia).
  split; [exact Hv|]. split; [exact Hl|].
  destruct (generator_request ImageGenerator.initialState "4 8-15x"
              (answeringWorld textOnly) Hv Hl) as (request & Hev & _).
  exists request. split; [exact Hev|].
  vm_compute in Hev. injection Hev as <-. reflexivity.
Defined.

(** The first step of the Style Copier, as a run of the operation it
    starts. *)
Lemma handleInitialGenerate_valid (s : StyleCopier.State) (w : World) (target : ImageFile) :
  copierValid s = true ->
  StyleCopier.targetImage s = Some target ->
  selectionMade (initialOperation s target) = true /\
  fst (StyleCopier.handleInitialGenerate s w)
  = events (runOperation (initialOperation s target)) w /\
  StyleCopier.isGeneratingImage (snd (StyleCopier.handleInitialGenerate s w)) = false /\
  match outcome (runOperation (initialOperation s target)) w with
  | Ok image =>
      StyleCopier.error (snd (StyleCopier.handleInitialGenerate s w)) = None /\
      if StyleCopier.copyBackgroundStyleToggle s && negb (StyleCopier.isTransparent s) then
        StyleCopier.compositeStep (snd (StyleCopier.handleInitialGenerate s w))
        = StyleCopier.preview /\
        StyleCopier.generatedBackground (snd (StyleCopier.handleInitialGenerate s w))
        = Some image /\
        StyleCopier.resultImage (snd (StyleCopier.handleInitialGenerate s w)) = None
      else
        StyleCopier.compositeStep (snd (StyleCopier.handleInitialGenerate s w))
        = StyleCopier.final /\
        StyleCopier.generatedBackground (snd (StyleCopier.handleInitialGenerate s w)) = None /\
        StyleCopier.resultImage (snd (StyleCopier.handleInitialGenerate s w)) = Some image
  | Throw e =>
      StyleCopier.error (snd (StyleCopier.handleInitialGenerate s w))
      = Some (if instanceofError e then messageOf e
              else if StyleCopier.copyBackgroundStyleToggle s
                      && negb (StyleCopier.isTransparent s)
                   then StyleCopier.backgroundUnexpected
                   else StyleCopier.imageUnexpected) /\
      StyleCopier.compositeStep (snd (StyleCopier.handleInitialGenerate s w))
      <> StyleCopier.preview /\
      StyleCopier.generatedBackground (snd (StyleCopier.handleInitialGenerate s w)) = None /\
      StyleCopier.resultImage (snd (StyleCopier.handleInitialGenerate s w)) = None
  end.
Proof.
  unfold copierValid, initialOperation, StyleCopier.handleInitialGenerate, outcome, events.
  intros Hv Ht. rewrite Ht in *.
  destruct (StyleCopier.sourceImages s) as [|img rest]; [discriminate Hv|].
  destruct (StyleCopier.copyProductStyleToggle s),
           (StyleCopier.copyBackgroundStyleToggle s),
           (StyleCopier.isTransparent s);
    try discriminate Hv; cbn [negb andb orb runOperation selectionMade
      GeminiService.CopyStyleOptions.copyProductStyle
      GeminiService.CopyStyleOptions.copyBackgroundStyle
      GeminiService.CopyStyleOptions.isTransparent];
    match goal with
    | |- context [GeminiService.copyProductStyle ?a ?b ?c w] =>
        destruct (GeminiService.copyProductStyle a b c w) as [evs [image|[m|d]]]
    | |- context [GeminiService.generateStyledBackground ?a ?b w] =>
        destruct (GeminiService.generateStyledBackground a b w) as [evs [image|[m|d]]]
    end;
    cbn; repeat split; discriminate.
Qed.

Lemma handleInitialGenerate_invalid (s : StyleCopier.State) (w : World) :
  copierValid s = false ->
  fst (StyleCopier.handleInitialGenerate s w) = [] /\
  (snd (StyleCopier.handleInitialGenerate s w)
   = StyleCopier.setError (Some StyleCopier.imagesMissing) s \/
   snd (StyleCopier.handleInitialGenerate s w)
   = StyleCopier.setError (Some StyleCopier.optionMissing) s).
Proof.
  unfold copierValid, StyleCopier.handleInitialGenerate.
  destruct (StyleCopier.sourceImages s) as [|img rest];
    [intros _; split; [reflexivity|left; reflexivity]|].
  destruct (StyleCopier.targetImage s) as [target|];
    [|intros _; split; [reflexivity|left; reflexivity]].
  destruct (StyleCopier.copyProductStyleToggle s),
           (StyleCopier.copyBackgroundStyleToggle s),
           (StyleCopier.isTransparent s); try discriminate.
  intros _. split; [reflexivity|right; reflexivity].
Qed.

Lemma initialOperation_reads (s : StyleCopier.State) (w : World) (target : ImageFile) :
  copierValid s = true ->
  events (runOperation (initialOperation s target)) w <> [].
Proof.
  intros Hv.
  assert (Hsel : selectionMade (initialOperation s target) = true).
  { unfold copierValid in Hv. unfold initialOperation.
    destruct (StyleCopier.sourceImages s); [discriminate Hv|].
    destruct (StyleCopier.targetImage s); [|discriminate Hv].
    destruct (StyleCopier.copyProductStyleToggle s),
             (StyleCopier.copyBackgroundStyleToggle s),
             (StyleCopier.isTransparent s); try discriminate Hv; reflexivity. }
  rewrite (runOperation_events _ w Hsel).
  unfold copierValid in Hv. unfold initialOperation.
  destruct (StyleCopier.sourceImages s) as [|img rest]; [discriminate Hv|].
  destruct (_ && _); cbn; discriminate.
Qed.

(** X13.  The first step of the Style Copier.  [handleInitialGenerate] has
    no effect outside the view exactly when its validation fails (no source
    image, no target image, or none of the three options); it reads files,
    the first source image first, in every other case.  The validation of
    the view makes the one of [copyProductStyle] unreachable: in no world
    does the error line show the service's message about a missing
    selection.  After a valid run the loading flag is off, the step is
    [preview] exactly when there is a generated background to preview, and a
    result is only ever shown in the step [final] without an error. *)
Theorem copier_first_step (s : StyleCopier.State) (w : World) :
  let run := StyleCopier.handleInitialGenerate s w in
  (fst run = [] <-> copierValid s = false) /\
  StyleCopier.error (snd run) <> Some GeminiService.invalidSelection /\
  (forall image rest, StyleCopier.sourceImages s = image :: rest ->
     copierValid s = true -> head (fst run) = Some (ReadFile (file image))) /\
  (copierValid s = true ->
   StyleCopier.isGeneratingImage (snd run) = false /\
   (StyleCopier.compositeStep (snd run) = StyleCopier.preview <->
    exists background, StyleCopier.generatedBackground (snd run) = Some background) /\
   (StyleCopier.resultImage (snd run) <> None ->
    StyleCopier.compositeStep (snd run) = StyleCopier.final /\
    StyleCopier.error (snd run) = None)).
Proof.
  intros run. subst run.
  destruct (copierValid s) eqn:Hv.
  - assert (Ht : exists target, StyleCopier.targetImage s = Some target).
    { unfold copierValid in Hv. destruct (StyleCopier.sourceImages s); [discriminate|].
      destruct (StyleCopier.targetImage s) as [target|]; [|discriminate].
      exists target. reflexivity. }
    destruct Ht as [target Ht].
    destruct (handleInitialGenerate_valid s w target Hv Ht) as (Hsel & Hev & Hload & Hout).
    split; [|split; [|split]].
    + split; [|discriminate]. intros E. rewrite Hev in E.
      exfalso. exact (initialOperation_reads s w target Hv E).
    + destruct (outcome (runOperation (initialOperation s target)) w) as [image|e] eqn:Eo.
      * destruct Hout as [-> _]. discriminate.
      * destruct Hout as [-> _].
        destruct (thrown_through_wrapper (ImageOp (initialOperation s target)) w e Hsel)
          as [inner ->].
        { cbn [thrownBy]. rewrite Eo. reflexivity. }
        unfold initialOperation.
        destruct (_ && _); cbn [remoteWrapper wrapperOf wrapWith];
          destruct inner as [m|d]; cbn [instanceofError messageOf]; vm_compute; discriminate.
    + intros image rest Es _. rewrite Hev, (runOperation_events _ w Hsel).
      unfold initialOperation. rewrite Es. destruct (_ && _); reflexivity.
    + intros _. split; [exact Hload|].
      destruct (outcome (runOperation (initialOperation s target)) w) as [image|e].
      * destruct Hout as [He Hout].
        destruct (_ && _); destruct Hout as (Hstep & Hbg & Hres); rewrite Hstep, Hbg, Hres.
        -- split; [split; [intros _; exists image; reflexivity|reflexivity]|].
           intros H. contradiction.
        -- split; [split; [discriminate|intros [b Hb]; discriminate Hb]|].
           intros _. split; [reflexivity|exact He].
      * destruct Hout as (_ & Hstep & Hbg & Hres). rewrite Hbg, Hres.
        split; [split; [intros H; contradiction|intros [b Hb]; discriminate Hb]|].
        intros H. contradiction.
  - destruct (handleInitialGenerate_invalid s w Hv) as [Hev Hs].
    split; [|split; [|split]].
    + split; [reflexivity|intros _; exact Hev].
    + destruct Hs as [-> | ->]; cbn; discriminate.
    + intros image rest _ H. discriminate H.
    + intros H. discriminate H.
Qed.

(** The effects of an operation whose files are all read. *)
Lemma runOperation_events_read (op : ImageOperation) (w : World) :
  selectionMade op = true -> readsSucceed w ->
  events (runOperation op) w
  = (List.map ReadFile (inputFiles op) ++ [GenerateContent (requestOf w op)])%list.
Proof.
  intros Hsel Hr. rewrite (runOperation_events op w Hsel).
  rewrite (reads_succeed_readable w (inputFiles op) Hr).
  rewrite startedReads_all, readStages_inputFiles; [reflexivity|].
  rewrite readStages_inputFiles. apply reads_succeed_readable. exact Hr.
Qed.

Lemma browserReads_succeed (w : World) : browserReads w -> readsSucceed w.
Proof. intros H f. rewrite H. discriminate. Qed.

Lemma partOfFile_browser (w : World) (f : File.t) :
  browserReads w -> includes "," (File.type f) = false ->
  partOfFile w f = InlineDataPart (Some (Base64.btoa (File.bytes f))) (File.type f).
Proof.
  intros H Hc. unfold partOfFile. rewrite H. unfold browserRead.
  rewrite (split_dataURL _ _ Hc). reflexivity.
Qed.

(** X14.  The accepted background reaches the model as it was returned.
    With a generated background that is the base64 encoding of some bytes, a
    target image and a browser's file reads, [handleComposite] reads the
    target image, then the file [background.png] it made of the background,
    then the source images when the product style is copied and no other
    file, and sends one request: the style images if any, the target image,
    the background and the prompt, in this order, where the data of the
    background part is the very string the first step stored. *)
Theorem accepted_background_sent_as_returned (s : StyleCopier.State) (w : World)
  (bytes : list Byte.byte) (target : ImageFile) :
  StyleCopier.generatedBackground s = Some (Base64.btoa bytes) ->
  truthy (Base64.btoa bytes) = true ->
  StyleCopier.targetImage s = Some target ->
  browserReads w ->
  let styles :=
    if StyleCopier.copyProductStyleToggle s
    then List.map file (StyleCopier.sourceImages s) else [] in
  fst (StyleCopier.handleComposite s w)
  = (List.map ReadFile (file target :: backgroundFile bytes :: styles)
     ++ [GenerateContent
           {| model := "gemini-2.5-flash-image";
              contents :=
                List.map (partOfFile w) styles
                ++ [partOfFile w (file target);
                    InlineDataPart (Some (Base64.btoa bytes)) "image/png";
                    TextPart (GeminiService.compositeWithBackgroundPrompt
                                (StyleCopier.copyProductStyleToggle s)
                                (compositeStyleImages s))];
              config := ImageModality |}])%list.
Proof.
  intros Hbg Ht Htarget Hw styles. subst styles.
  unfold StyleCopier.handleComposite. rewrite Hbg, Htarget, Ht. cbn [negb].
  rewrite base64ToFile_btoa.
  pose proof (runOperation_events_read
                (CompositeProductWithBackground (file target) (backgroundFile bytes)
                   (StyleCopier.copyProductStyleToggle s) (compositeStyleImages s))
                w eq_refl (browserReads_succeed w Hw)) as Hev.
  unfold events in Hev. cbn [runOperation] in Hev.
  unfold compositeStyleImages, backgroundFile in *.
  destruct (GeminiService.compositeProductWithBackground _ _ _ _ w) as [evs o].
  cbn [fst] in Hev |- *. rewrite Hev. unfold requestOf.
  cbn [inputFiles partFiles promptOf].
  rewrite List.map_app. cbn [List.map].
  rewrite (partOfFile_browser w {| File.name := "background.png"; File.type := "image/png";
                                   File.bytes := bytes |} Hw eq_refl).
  cbn [File.type File.bytes].
  destruct (StyleCopier.copyProductStyleToggle s); rewrite <- ?app_assoc; reflexivity.
Qed.

Lemma accepted_background_sent_as_returned_witness :
  let s := StyleCopier.setGeneratedBackground (Some "iVBO")
             (StyleCopier.setTargetImage (Some productPhoto) StyleCopier.initialState) in
  StyleCopier.generatedBackground s = Some (Base64.btoa [Byte.x89; Byte.x50; Byte.x4e]) /\
  List.map isCall (fst (StyleCopier.handleComposite s (answeringWorld imagePartOnly)))
  = [false; false; true].
Proof.
  intros s.
  assert (Hbg : StyleCopier.generatedBackground s
                = Some (Base64.btoa [Byte.x89; Byte.x50; Byte.x4e])) by reflexivity.
  assert (Ht : truthy (Base64.btoa [Byte.x89; Byte.x50; Byte.x4e]) = true) by reflexivity.
  assert (Htarget : StyleCopier.targetImage s = Some productPhoto) by reflexivity.
  assert (Hw : browserReads (answeringWorld imagePartOnly)) by (intros f; reflexivity).
  split; [exact Hbg|].
  rewrite (accepted_background_sent_as_returned s (answeringWorld imagePartOnly)
             [Byte.x89; Byte.x50; Byte.x4e] productPhoto Hbg Ht Htarget Hw).
  reflexivity.
Defined.

Lemma base64ToFile_throws (base64 filename mimeType : string) (e : Thrown) :
  base64ToFile base64 filename mimeType = Throw e ->
  e = JsError Base64.atobErrorMessage /\ truthy base64 = true.
Proof.
  unfold base64ToFile. destruct base64 as [|a rest]; [vm_compute; discriminate|].
  destruct (Base64.atob (String a rest)) as [decoded|e'] eqn:E; [discriminate|].
  intros H. injection H as ->. split; [|reflexivity].
  unfold Base64.atob in E.
  destruct (_ =? 1)%nat; [congruence|].
  destruct (Base64.sextets _); congruence.
Qed.

(** X15.  A background that cannot be decoded stops the second step before
    anything is read or sent.  When [atob] rejects the stored background,
    [handleComposite] causes no file read and no request; the error line
    shows the message of the decoding error, the loading flag is off, the
    step is [final], and the stored background, the result and the images
    are as they were. *)
Theorem undecodable_background_sends_nothing (s : StyleCopier.State) (w : World)
  (background : string) (target : ImageFile) (e : Thrown) :
  StyleCopier.generatedBackground s = Some background ->
  StyleCopier.targetImage s = Some target ->
  base64ToFile background "background.png" "image/png" = Throw e ->
  fst (StyleCopier.handleComposite s w) = [] /\
  snd (StyleCopier.handleComposite s w)
  = StyleCopier.setCompositeStep StyleCopier.final
      (StyleCopier.setError (Some Base64.atobErrorMessage)
         (StyleCopier.setIsGeneratingImage false s)).
Proof.
  intros Hbg Htarget Hd.
  destruct (base64ToFile_throws _ _ _ _ Hd) as [-> Ht].
  unfold StyleCopier.handleComposite. rewrite Hbg, Htarget, Ht, Hd. cbn [negb].
  split; reflexivity.
Qed.

Lemma undecodable_background_sends_nothing_witness :
  let s := StyleCopier.setGeneratedBackground (Some "iVBOR")
             (StyleCopier.setTargetImage (Some productPhoto) StyleCopier.initialState) in
  base64ToFile "iVBOR" "background.png" "image/png"
  = Throw (JsError Base64.atobErrorMessage) /\
  fst (StyleCopier.handleComposite s (answeringWorld imagePartOnly)) = [].
Proof.
  intros s.
  assert (Hd : base64ToFile "iVBOR" "background.png" "image/png"
               = Throw (JsError Base64.atobErrorMessage)) by reflexivity.
  split; [exact Hd|].
  exact (proj1 (undecodable_background_sends_nothing s (answeringWorld imagePartOnly)
                  "iVBOR" productPhoto _ eq_refl eq_refl Hd)).
Defined.

(** ** The inputs of the Style Copier over a session *)

Lemma removeIndex_spec {A} (l : list A) (i index : nat) :
  StyleCopier.removeIndex i index l
  = if (index <? i)%nat then l
    else (firstn (index - i) l ++ skipn (S (index - i)) l)%list.
Proof.
  revert i. induction l as [|x l IH]; intros i.
  - destruct (index <? i)%nat; [reflexivity|]. rewrite firstn_nil, skipn_nil. reflexivity.
  - cbn [StyleCopier.removeIndex]. rewrite IH.
    destruct (Nat.eqb_spec i index) as [->|Hne].
    + replace (index <? S index)%nat with true by (symmetry; apply Nat.ltb_lt; lia).
      rewrite Nat.ltb_irrefl, Nat.sub_diag. reflexivity.
    + destruct (Nat.ltb_spec index i) as [Hlt|Hge].
      * replace (index <? S i)%nat with true by (symmetry; apply Nat.ltb_lt; lia).
        reflexivity.
      * replace (index <? S i)%nat with false by (symmetry; apply Nat.ltb_ge; lia).
        replace (index - i)%nat with (S (index - S i)) by lia. reflexivity.
Qed.

Lemma removeIndex_length {A} (l : list A) (i index : nat) :
  (length (StyleCopier.removeIndex i index l) <= length l)%nat.
Proof.
  revert i. induction l as [|x l IH]; intros i; [reflexivity|].
  cbn [StyleCopier.removeIndex]. specialize (IH (S i)).
  destruct (i =? index)%nat; cbn [length]; lia.
Qed.

Lemma removeIndex_Forall {A} (P : A -> Prop) (l : list A) (i index : nat) :
  Forall P l -> Forall P (StyleCopier.removeIndex i index l).
Proof.
  intros H. revert i. induction H as [|x l Hx H IH]; intros i; [constructor|].
  cbn [StyleCopier.removeIndex]. destruct (i =? index)%nat; [apply IH|].
  constructor; [exact Hx|apply IH].
Qed.

(** The three handlers that await the service write none of the inputs. *)
Lemma awaiting_handlers_keep_inputs (s : StyleCopier.State) (w : World) :
  sameInputs s (snd (StyleCopier.handleInitialGenerate s w)) /\
  sameInputs s (snd (StyleCopier.handleComposite s w)) /\
  sameInputs s (snd (StyleCopier.handleGenerateDetails s w)).
Proof.
  split; [|split].
  - unfold StyleCopier.handleInitialGenerate.
    destruct (StyleCopier.sourceImages s) as [|img rest] eqn:Es;
      [repeat split; cbn; congruence|].
    destruct (StyleCopier.targetImage s) as [target|] eqn:Et;
      [|repeat split; cbn; congruence].
    destruct (negb _ && negb _ && negb _); [repeat split; cbn; congruence|].
    destruct (StyleCopier.copyBackgroundStyleToggle s && negb (StyleCopier.isTransparent s)).
    + destruct (GeminiService.generateStyledBackground _ _ w) as [evs [image|[m|d]]];
        repeat split; cbn; congruence.
    + destruct (GeminiService.copyProductStyle _ _ _ w) as [evs [image|[m|d]]];
        repeat split; cbn; congruence.
  - unfold StyleCopier.handleComposite.
    destruct (StyleCopier.generatedBackground s) as [background|];
      [|repeat split; reflexivity].
    destruct (StyleCopier.targetImage s) as [target|] eqn:Et;
      [|repeat split; cbn; congruence].
    destruct (negb (truthy background)); [repeat split; cbn; congruence|].
    destruct (base64ToFile background "background.png" "image/png") as [f|[m|d]].
    + destruct (GeminiService.compositeProductWithBackground _ _ _ _ w)
        as [evs [image|[m|d]]]; repeat split; cbn; congruence.
    + repeat split; cbn; congruence.
    + repeat split; cbn; congruence.
  - unfold StyleCopier.handleGenerateDetails.
    destruct (StyleCopier.targetImage s) as [target|] eqn:Et;
      [|repeat split; cbn; congruence].
    destruct (GeminiService.generateProductDetails _ w) as [evs [details|[m|d]]];
      repeat split; cbn; congruence.
Qed.

Lemma sameInputs_tidy (s s' : StyleCopier.State) :
  sameInputs s s' -> copierTidy s -> copierTidy s'.
Proof.
  intros (Hs & Ht & Htr & Hbg & _) (Hlen & Himg & Htarget & Hopt).
  unfold copierTidy. rewrite Hs, Ht, Htr, Hbg. repeat split; assumption.
Qed.

Lemma dropFiles_tidy (createObjectURL : File.t -> string) (seen : list ImageFile)
  (files : option (list File.t)) (s : StyleCopier.State) :
  copierTidy s -> copierTidy (StyleCopier.dropFiles createObjectURL 5 seen files s).
Proof.
  intros (Hlen & Himg & Htarget & Hopt).
  unfold StyleCopier.dropFiles, MultiImageDropzone.handleFiles.
  destruct files as [files|]; [|repeat split; assumption].
  rewrite handleFilesLoop_spec. cbn [length app].
  destruct (0 <? _)%nat; [|repeat split; assumption].
  unfold copierTidy.
  cbn [StyleCopier.sourceImages StyleCopier.targetImage StyleCopier.isTransparent
       StyleCopier.copyBackgroundStyleToggle StyleCopier.setSourceImages].
  unfold StyleCopier.handleSourceImagesAdd.
  split; [rewrite length_firstn; lia|]. split; [|split; assumption].
  apply Forall_take. apply Forall_app. split; [assumption|].
  apply List.Forall_map. cbn [file]. apply images_taken.
Qed.

Lemma copierStep_tidy (createObjectURL : File.t -> string) (s : StyleCopier.State)
  (a : CopierAction) :
  copierTidy s -> copierTidy (copierStep createObjectURL s a).
Proof.
  intros H. pose proof H as (Hlen & Himg & Htarget & Hopt).
  destruct a as [seen files | index | files | | | checked | text | w | w | w];
    cbn [copierStep].
  - apply dropFiles_tidy. exact H.
  - unfold copierTidy, StyleCopier.handleSourceImageRemove.
    cbn [StyleCopier.sourceImages StyleCopier.targetImage StyleCopier.isTransparent
         StyleCopier.copyBackgroundStyleToggle StyleCopier.setSourceImages].
    split; [|split; [|split; assumption]].
    + pose proof (removeIndex_length (StyleCopier.sourceImages s) 0 index). lia.
    + apply removeIndex_Forall. exact Himg.
  - unfold StyleCopier.dropTarget, ImageDropzone.handleFileChange.
    destruct files as [[|f rest]|]; try exact H.
    destruct (startsWith "image/" (File.type f)) eqn:Ef; [|exact H].
    unfold copierTidy. cbn. repeat split; try assumption.
    intros target E. injection E as <-. exact Ef.
  - destruct (StyleCopier.isLoading s); [exact H|].
    unfold copierTidy. cbn. repeat split; assumption.
  - destruct (StyleCopier.isLoading s); cbn [orb]; [exact H|].
    destruct (StyleCopier.isTransparent s) eqn:Etr; [exact H|].
    unfold copierTidy. cbn. rewrite Etr. repeat split; assumption.
  - destruct (StyleCopier.isLoading s); [exact H|].
    unfold StyleCopier.changeTransparent.
    destruct checked; unfold copierTidy; cbn; repeat split; assumption.
  - destruct (StyleCopier.isLoading s); [exact H|].
    unfold copierTidy. cbn. repeat split; assumption.
  - exact (sameInputs_tidy _ _ (proj1 (awaiting_handlers_keep_inputs s w)) H).
  - exact (sameInputs_tidy _ _ (proj1 (proj2 (awaiting_handlers_keep_inputs s w))) H).
  - exact (sameInputs_tidy _ _ (proj2 (proj2 (awaiting_handlers_keep_inputs s w))) H).
Qed.

(** X16.  The inputs of the Style Copier stay in order over a session.
    Starting from a fresh view, after any sequence of additions to the
    source images (whatever list the dropzone was last rendered with),
    removals, drops on the target dropzone, clicks on the toggles and the
    check box, typing, and runs of the three handlers that await the
    service, there are at most five source images, every source image and
    the target image have a type that begins with [image/], and the
    transparent background and the copy of the background style are never
    both selected.  The awaiting handlers write none of these fields, nor
    the product toggle or the instructions; and removing at an index takes
    out exactly the image at that position. *)
Theorem copier_session_invariants (createObjectURL : File.t -> string)
  (actions : list CopierAction) :
  copierTidy (copierRun createObjectURL actions StyleCopier.initialState) /\
  (forall s w,
     sameInputs s (snd (StyleCopier.handleInitialGenerate s w)) /\
     sameInputs s (snd (StyleCopier.handleComposite s w)) /\
     sameInputs s (snd (StyleCopier.handleGenerateDetails s w))) /\
  (forall index images,
     StyleCopier.handleSourceImageRemove index images
     = (firstn index images ++ skipn (S index) images)%list).
Proof.
  split; [|split].
  - assert (H : forall s, copierTidy s -> copierTidy (copierRun createObjectURL actions s)).
    { induction actions as [|a actions IH]; intros s Hs; [exact Hs|].
      cbn [copierRun fold_left]. apply IH, copierStep_tidy, Hs. }
    apply H. unfold copierTidy. cbn. repeat split; try lia; try constructor.
    intros target E. discriminate E.
  - exact awaiting_handlers_keep_inputs.
  - intros index images. unfold StyleCopier.handleSourceImageRemove.
    rewrite removeIndex_spec. cbn [Nat.ltb Nat.leb]. rewrite Nat.sub_0_r. reflexivity.
Qed.

(** X17.  The single-image dropzone looks at the first file only.  Of a
    list of files dropped or picked, the files after the first do not
    matter, even when the first is no image and a later one is: the three
    views that use the dropzone end in the state a drop of the first file
    alone gives.  They show an alert exactly when that file has no image
    type, and then keep their state; otherwise the first file, with its
    object URL, becomes the image of the view and the result shown is
    cleared (in the Style Copier also the product details and the step).
    No list and an empty list do nothing. *)
Theorem single_dropzone_first_file (createObjectURL : File.t -> string)
  (first : File.t) (rest : list File.t) :
  let dropped := {| file := first; previewUrl := createObjectURL first |} in
  (forall s,
     ProductStudio.dropFiles createObjectURL (Some (first :: rest)) s
     = ProductStudio.dropFiles createObjectURL (Some [first]) s /\
     (snd (ProductStudio.dropFiles createObjectURL (Some [first]) s) = None
      <-> isImage first = true) /\
     match snd (ProductStudio.dropFiles createObjectURL (Some [first]) s) with
     | Some _ => fst (ProductStudio.dropFiles createObjectURL (Some [first]) s) = s
     | None =>
         let s' := fst (ProductStudio.dropFiles createObjectURL (Some [first]) s) in
         ProductStudio.productImage s' = Some dropped /\
         ProductStudio.resultImage s' = None
     end /\
     ProductStudio.dropFiles createObjectURL None s = (s, None) /\
     ProductStudio.dropFiles createObjectURL (Some []) s = (s, None)) /\
  (forall s,
     ImageEditor.dropFiles createObjectURL (Some (first :: rest)) s
     = ImageEditor.dropFiles createObjectURL (Some [first]) s /\
     (snd (ImageEditor.dropFiles createObjectURL (Some [first]) s) = None
      <-> isImage first = true) /\
     match snd (ImageEditor.dropFiles createObjectURL (Some [first]) s) with
     | Some _ => fst (ImageEditor.dropFiles createObjectURL (Some [first]) s) = s
     | None =>
         let s' := fst (ImageEditor.dropFiles createObjectURL (Some [first]) s) in
         ImageEditor.sourceImage s' = Some dropped /\
         ImageEditor.resultImage s' = None
     end /\
     ImageEditor.dropFiles createObjectURL None s = (s, None) /\
     ImageEditor.dropFiles createObjectURL (Some []) s = (s, None)) /\
  (forall s,
     StyleCopier.dropTarget createObjectURL (Some (first :: rest)) s
     = StyleCopier.dropTarget createObjectURL (Some [first]) s /\
     (snd (StyleCopier.dropTarget createObjectURL (Some [first]) s) = None
      <-> isImage first = true) /\
     match snd (StyleCopier.dropTarget createObjectURL (Some [first]) s) with
     | Some _ => fst (StyleCopier.dropTarget createObjectURL (Some [first]) s) = s
     | None =>
         let s' := fst (StyleCopier.dropTarget createObjectURL (Some [first]) s) in
         StyleCopier.targetImage s' = Some dropped /\
         StyleCopier.resultImage s' = None /\
         StyleCopier.productDetails s' = None /\
         StyleCopier.compositeStep s' = StyleCopier.initial /\
         StyleCopier.sourceImages s' = StyleCopier.sourceImages s
     end /\
     StyleCopier.dropTarget createObjectURL None s = (s, None) /\
     StyleCopier.dropTarget createObjectURL (Some []) s = (s, None)).
Proof.
  intros dropped. subst dropped.
  split; [|split]; intros s;
    unfold ProductStudio.dropFiles, ImageEditor.dropFiles, StyleCopier.dropTarget,
      ImageDropzone.handleFileChange, isImage;
    destruct (startsWith "image/" (File.type first)); cbn;
    repeat split; try reflexivity; try discriminate; intros H; discriminate H.
Qed.

(** X18.  The Style Copier shows the message of the service.  Unlike the
    one-step views, its handlers put the message of what was thrown on the
    error line: after [handleInitialGenerate] on a valid state and after
    [handleGenerateDetails], in every world, the error is the message of
    the failure of the operation that was started, and there is none when
    it succeeded.  As every operation the view calls rethrows an [Error],
    and [atob] throws one, the fixed texts the three handlers keep for a
    thrown value that is no [Error] are never shown by them. *)
Theorem copier_shows_service_message (s : StyleCopier.State) (w : World)
  (target : ImageFile) :
  StyleCopier.targetImage s = Some target ->
  (copierValid s = true ->
   StyleCopier.error (snd (StyleCopier.handleInitialGenerate s w))
   = option_map messageOf (thrownBy (ImageOp (initialOperation s target)) w) /\
   StyleCopier.error (snd (StyleCopier.handleInitialGenerate s w))
   <> Some StyleCopier.backgroundUnexpected /\
   StyleCopier.error (snd (StyleCopier.handleInitialGenerate s w))
   <> Some StyleCopier.imageUnexpected) /\
  (StyleCopier.error (snd (StyleCopier.handleGenerateDetails s w))
   = option_map messageOf (thrownBy (GenerateProductDetails (file target)) w) /\
   StyleCopier.error (snd (StyleCopier.handleGenerateDetails s w))
   <> Some StyleCopier.detailsUnexpected) /\
  (forall background,
     StyleCopier.generatedBackground s = Some background ->
     truthy background = true ->
     StyleCopier.error (snd (StyleCopier.handleComposite s w))
     <> Some StyleCopier.compositionUnexpected).
Proof.
  intros Ht. split; [|split].
  - intros Hv.
    destruct (handleInitialGenerate_valid s w target Hv Ht) as (Hsel & _ & _ & Hout).
    pose proof (thrown_through_wrapper (ImageOp (initialOperation s target)) w) as Hw.
    cbn [thrownBy remoteSelectionMade remoteWrapper] in Hw |- *.
    destruct (outcome (runOperation (initialOperation s target)) w) as [image|e].
    + destruct Hout as [-> _]. repeat split; discriminate.
    + destruct Hout as [-> _]. destruct (Hw e Hsel eq_refl) as [inner ->].
      unfold initialOperation.
      destruct (_ && _); cbn [wrapperOf thrown option_map];
        destruct inner as [m|d]; cbn [wrapWith instanceofError messageOf];
        (split; [reflexivity|split; vm_compute; discriminate]).
  - pose proof (thrown_through_wrapper (GenerateProductDetails (file target)) w) as Hw.
    cbn [thrownBy remoteSelectionMade remoteWrapper] in Hw |- *.
    unfold StyleCopier.handleGenerateDetails, outcome in *. rewrite Ht.
    destruct (GeminiService.generateProductDetails (file target) w) as [evs [details|e]];
      cbn [snd thrown option_map] in Hw |- *.
    + split; [reflexivity|discriminate].
    + destruct (Hw e eq_refl eq_refl) as [inner ->].
      destruct inner as [m|d]; cbn; (split; [reflexivity|vm_compute; discriminate]).
  - intros background Hbg Htruthy.
    unfold StyleCopier.handleComposite. rewrite Hbg, Ht, Htruthy. cbn [negb].
    destruct (base64ToFile background "background.png" "image/png") as [f|e] eqn:Ed.
    + pose proof (thrown_through_wrapper
                    (ImageOp (CompositeProductWithBackground (file target) f
                                (StyleCopier.copyProductStyleToggle s)
                                (if StyleCopier.copyProductStyleToggle s
                                 then Some (List.map file (StyleCopier.sourceImages s))
                                 else None))) w) as Hw.
      cbn [thrownBy remoteSelectionMade selectionMade remoteWrapper wrapperOf runOperation]
        in Hw.
      unfold outcome in Hw.
      destruct (GeminiService.compositeProductWithBackground _ _ _ _ w)
        as [evs [image|e]]; cbn [snd thrown] in Hw |- *.
      * cbn. discriminate.
      * destruct (Hw e eq_refl eq_refl) as [inner ->].
        destruct inner as [m|d]; vm_compute; discriminate.
    + destruct (base64ToFile_throws _ _ _ _ Ed) as [-> _]. vm_compute. discriminate.
Qed.

Lemma copier_shows_service_message_witness :
  let s := StyleCopier.setTargetImage (Some productPhoto) StyleCopier.initialState in
  StyleCopier.targetImage s = Some productPhoto /\
  StyleCopier.error
    (snd (StyleCopier.handleGenerateDetails s (failingWorld (JsError "503"))))
  = Some "Failed to generate details: 503".
Proof.
  intros s.
  assert (Ht : StyleCopier.targetImage s = Some productPhoto) by reflexivity.
  split; [exact Ht|].
  rewrite (proj1 (proj1 (proj2 (copier_shows_service_message s
                                  (failingWorld (JsError "503")) productPhoto Ht)))).
  reflexivity.
Defined.

(** X19.  What the one-step views validate.  A submit causes no file read
    and no request exactly when the validation of the view fails: no image
    in the Product Studio and the Image Editor, an empty description in the
    Product Studio unless the background is transparent, an empty prompt in
    the Image Editor and the Image Generator.  The missing image is reported
    before the missing text, and the state is otherwise left as it was.  The
    text is tested as it is, not trimmed: a description of white space only
    passes the validation of a submit, though the Save button is disabled
    for it. *)
Theorem one_step_views_validate (w : World) :
  (forall s,
     (fst (ProductStudio.handleSubmit s w) = [] <->
      match ProductStudio.productImage s with
      | None => true
      | Some _ => negb (truthy (ProductStudio.backgroundPrompt s))
                  && negb (ProductStudio.isTransparent s)
      end = true) /\
     (fst (ProductStudio.handleSubmit s w) = [] ->
      snd (ProductStudio.handleSubmit s w)
      = ProductStudio.setError
          (Some (match ProductStudio.productImage s with
                 | None => ProductStudio.uploadMissing
                 | Some _ => ProductStudio.descriptionMissing
                 end)) s) /\
     (forall image, ProductStudio.productImage s = Some image ->
        truthy (ProductStudio.backgroundPrompt s) = true ->
        trim (ProductStudio.backgroundPrompt s) = EmptyString ->
        head (fst (ProductStudio.handleSubmit s w)) = Some (ReadFile (file image)) /\
        ProductStudio.isSaveDisabled s = true)) /\
  (forall s,
     (fst (ImageEditor.handleSubmit s w) = [] <->
      match ImageEditor.sourceImage s with
      | None => true
      | Some _ => negb (truthy (ImageEditor.prompt s))
      end = true) /\
     (fst (ImageEditor.handleSubmit s w) = [] ->
      snd (ImageEditor.handleSubmit s w)
      = ImageEditor.setError
          (Some (match ImageEditor.sourceImage s with
                 | None => ImageEditor.uploadMissing
                 | Some _ => ImageEditor.promptMissing
                 end)) s)) /\
  (forall s,
     (fst (ImageGenerator.handleSubmit s w) = [] <->
      negb (truthy (ImageGenerator.prompt s)) = true) /\
     (fst (ImageGenerator.handleSubmit s w) = [] ->
      snd (ImageGenerator.handleSubmit s w)
      = ImageGenerator.setError (Some ImageGenerator.promptMissing) s)).
Proof.
  split; [|split]; intros s.
  - assert (Hrun : forall image,
      ProductStudio.productImage s = Some image ->
      negb (truthy (ProductStudio.backgroundPrompt s))
      && negb (ProductStudio.isTransparent s) = false ->
      head (fst (ProductStudio.handleSubmit s w)) = Some (ReadFile (file image))).
    { intros image Hi Hv. unfold ProductStudio.handleSubmit. rewrite Hi, Hv.
      pose proof (runOperation_events
                    (CompositeProductImage (file image) (ProductStudio.backgroundPrompt s)
                       (ProductStudio.isTransparent s) (ProductStudio.aspectRatio s))
                    w eq_refl) as Hev.
      unfold events in Hev. cbn [runOperation] in Hev.
      destruct (GeminiService.compositeProductImage _ _ _ _ w) as [evs o].
      cbn [fst] in Hev |- *. rewrite Hev. reflexivity. }
    unfold ProductStudio.handleSubmit in *.
    destruct (ProductStudio.productImage s) as [image|].
    + destruct (negb (truthy (ProductStudio.backgroundPrompt s))
                && negb (ProductStudio.isTransparent s)) eqn:Hv.
      * split; [split; reflexivity|]. split; [reflexivity|].
        intros image' _ Htruthy _. rewrite Htruthy in Hv. discriminate Hv.
      * specialize (Hrun image eq_refl eq_refl).
        split; [split; intros H; [rewrite H in Hrun|]; discriminate|].
        split; [intros H; rewrite H in Hrun; discriminate|].
        intros image' E Htruthy Htrim. injection E as <-.
        split; [exact Hrun|].
        unfold ProductStudio.isSaveDisabled. rewrite Htrim. cbn [truthy negb].
        apply orb_true_iff. left. apply orb_true_r.
    + split; [split; reflexivity|]. split; [reflexivity|].
      intros image E. discriminate E.
  - unfold ImageEditor.handleSubmit.
    destruct (ImageEditor.sourceImage s) as [image|]; [|repeat split; reflexivity].
    destruct (negb (truthy (ImageEditor.prompt s))); [repeat split; reflexivity|].
    pose proof (runOperation_events
                  (EditImageWithPrompt (file image) (ImageEditor.prompt s)) w eq_refl)
      as Hev.
    unfold events in Hev. cbn [runOperation] in Hev.
    destruct (GeminiService.editImageWithPrompt _ _ w) as [evs o].
    cbn [fst snd] in Hev |- *. rewrite Hev.
    split; [split; intros H; discriminate H|intros H; discriminate H].
  - unfold ImageGenerator.handleSubmit.
    destruct (negb (truthy (ImageGenerator.prompt s))); [repeat split; reflexivity|].
    match goal with
    | |- context [GeminiService.generateImage ?p ?r ?n ?sd w] =>
        pose proof (generateImage_events p r n sd w) as Hev
    end.
    unfold events in Hev.
    destruct (GeminiService.generateImage _ _ _ _ w) as [evs o].
    cbn [fst snd] in Hev |- *. rewrite Hev.
    split; [split; intros H; discriminate H|intros H; discriminate H].
Qed.

Lemma presetStep_view (a : PresetAction) (s : ProductStudio.State)
  (store store' : LocalStorage.t) :
  fst (presetStep a (s, store)) = fst (presetStep a (s, store')) /\
  (LocalStorage.full store = true -> snd (presetStep a (s, store)) = store).
Proof.
  destruct a as [text | | preset]; cbn [presetStep fst snd].
  - split; reflexivity.
  - unfold ProductStudio.handleSavePreset, LocalStorage.setItem.
    destruct (negb _); [split; reflexivity|].
    destruct (existsb _ _); [split; reflexivity|].
    destruct (LocalStorage.full store) eqn:E, (LocalStorage.full store');
      split; try reflexivity; discriminate.
  - unfold ProductStudio.handleDeletePreset, LocalStorage.setItem.
    destruct (LocalStorage.full store) eqn:E, (LocalStorage.full store');
      split; try reflexivity; discriminate.
Qed.

(** X20.  The presets shown never depend on the store.  The handlers of the
    presets write to local storage and never read it: after any sequence of
    typing, saving and deleting, the view is the same whatever store it ran
    on.  A store that is full refuses every write and is left as it was,
    while the view still changes: the presets saved then are lost with the
    view. *)
Theorem presets_view_independent_of_store (actions : list PresetAction)
  (s : ProductStudio.State) (store store' : LocalStorage.t) :
  fst (presetRun actions (s, store)) = fst (presetRun actions (s, store')) /\
  (LocalStorage.full store = true -> snd (presetRun actions (s, store)) = store).
Proof.
  revert s store store'. induction actions as [|a actions IH]; intros s store store'.
  - split; reflexivity.
  - cbn [presetRun fold_left].
    destruct (presetStep_view a s store store') as [Hview Hfull].
    destruct (presetStep a (s, store)) as [s1 store1].
    destruct (presetStep a (s, store')) as [s1' store1'].
    cbn [fst snd] in Hview, Hfull. subst s1'.
    destruct (IH s1 store1 store1') as [IHview IHfull].
    split; [exact IHview|].
    intros Hf. specialize (Hfull Hf). subst store1. apply IHfull. exact Hf.
Qed.


